(** * OpenRISC manual build script ([build.py]): a shallow embedding.

    The script is a single-threaded orchestrator around external tools.
    Python values are embedded directly: [bytes] and [str] as [string]
    (a [str] as its encoding in UTF-8), lists as [list], dictionaries as
    [gmap string _], exceptions as an inductive type.  Everything the script asks of its host (the clock, the file
    system, external processes) goes through an explicit [world] that is
    threaded through a state-and-exception monad, and through a [host]
    record that stands for the machine the script runs on. *)

From Stdlib Require Import String Ascii List Arith Lia Bool.
From stdpp Require Import base option gmap strings list pretty.

Local Open Scope string_scope.
Local Open Scope list_scope.
Local Open Scope nat_scope.

(** ** Python string primitives *)

Definition NL : ascii := "010"%char.

(** [s.startswith(p)] *)
Definition startswith (p s : string) : bool := String.prefix p s.

(** [needle in hay] on strings *)
Fixpoint str_in (needle hay : string) : bool :=
  startswith needle hay ||
  match hay with
  | EmptyString => false
  | String _ t => str_in needle t
  end.

Definition lower_ascii (c : ascii) : ascii :=
  let n := nat_of_ascii c in
  if (65 <=? n) && (n <=? 90) then ascii_of_nat (n + 32) else c.

Definition upper_ascii (c : ascii) : ascii :=
  let n := nat_of_ascii c in
  if (97 <=? n) && (n <=? 122) then ascii_of_nat (n - 32) else c.

Fixpoint str_map (f : ascii -> ascii) (s : string) : string :=
  match s with
  | EmptyString => EmptyString
  | String c t => String (f c) (str_map f t)
  end.

Definition lower : string -> string := str_map lower_ascii.
Definition upper : string -> string := str_map upper_ascii.

(** [s.split(sep)] for a one-character separator: n separators give
    n+1 fields. *)
Fixpoint str_split (sep : ascii) (s : string) : list string :=
  match s with
  | EmptyString => [EmptyString]
  | String c t =>
      if Ascii.eqb c sep then EmptyString :: str_split sep t
      else match str_split sep t with
           | [] => [String c EmptyString]
           | f :: fs => String c f :: fs
           end
  end.

(** [sep.join(l)] *)
Fixpoint str_join (sep : string) (l : list string) : string :=
  match l with
  | [] => EmptyString
  | [x] => x
  | x :: rest => x +:+ sep +:+ str_join sep rest
  end.

(** ** [str] and [bytes]

    A [bytes] value is held as it is, a [str] as its encoding in UTF-8. *)

Definition bytes (l : list nat) : string :=
  fold_right (fun n s => String (ascii_of_nat n) s) EmptyString l.

Definition in_range (lo hi : nat) (c : ascii) : bool :=
  let n := nat_of_ascii c in (lo <=? n) && (n <=? hi).

(** The ranges in which the bytes after the lead byte [c] of a character
    must lie.  These are the well-formed sequences of UTF-8: no overlong
    form, no surrogate, nothing above U+10FFFF. *)
Definition utf8_tail (c : ascii) : option (list (nat * nat)) :=
  let n := nat_of_ascii c in
  if n <=? 127 then Some []
  else if (194 <=? n) && (n <=? 223) then Some [(128, 191)]
  else if n =? 224 then Some [(160, 191); (128, 191)]
  else if (225 <=? n) && (n <=? 236) then Some [(128, 191); (128, 191)]
  else if n =? 237 then Some [(128, 159); (128, 191)]
  else if (238 <=? n) && (n <=? 239) then Some [(128, 191); (128, 191)]
  else if n =? 240 then Some [(144, 191); (128, 191); (128, 191)]
  else if (241 <=? n) && (n <=? 243) then Some [(128, 191); (128, 191); (128, 191)]
  else if n =? 244 then Some [(128, 143); (128, 191); (128, 191)]
  else None.

Fixpoint utf8_valid_from (pending : list (nat * nat)) (s : string) : bool :=
  match s with
  | EmptyString => match pending with [] => true | _ => false end
  | String c t =>
      match pending with
      | (lo, hi) :: rest => in_range lo hi c && utf8_valid_from rest t
      | [] => match utf8_tail c with
              | Some p => utf8_valid_from p t
              | None => false
              end
      end
  end.

(** Whether [b.decode()] succeeds: the codec is UTF-8, the error
    handling strict. *)
Definition utf8_valid (s : string) : bool := utf8_valid_from [] s.

(** The characters that [str.isspace] accepts: U+0009 to U+000D, U+001C
    to U+0020, U+0085, U+00A0, U+1680, U+2000 to U+200A, U+2028, U+2029,
    U+202F, U+205F and U+3000. *)
Definition WHITESPACE : list string :=
  map bytes
    [[9]; [10]; [11]; [12]; [13]; [28]; [29]; [30]; [31]; [32];
     [194; 133]; [194; 160]; [225; 154; 128];
     [226; 128; 128]; [226; 128; 129]; [226; 128; 130]; [226; 128; 131];
     [226; 128; 132]; [226; 128; 133]; [226; 128; 134]; [226; 128; 135];
     [226; 128; 136]; [226; 128; 137]; [226; 128; 138];
     [226; 128; 168]; [226; 128; 169]; [226; 128; 175];
     [226; 129; 159]; [227; 128; 128]].

(** The length of the entry of [table] that [s] starts with, 0 when it
    starts with none. *)
Definition width_of (table : list string) (s : string) : nat :=
  match List.find (fun sp => startswith sp s) table with
  | Some sp => String.length sp
  | None => 0
  end.

(** Drops [skip] characters and then every leading entry of [table]. *)
Fixpoint drop_leading (table : list string) (skip : nat) (s : string) : string :=
  match s with
  | EmptyString => EmptyString
  | String _ t =>
      match skip with
      | S k => drop_leading table k t
      | 0 => match width_of table s with
             | S k => drop_leading table k t
             | 0 => s
             end
      end
  end.

(** [s.lstrip()] *)
Definition lstrip (s : string) : string := drop_leading WHITESPACE 0 s.

(** [s.rstrip()]: the same from the end. *)
Definition rstrip (s : string) : string :=
  String.rev (drop_leading (map String.rev WHITESPACE) 0 (String.rev s)).

(** [s.strip()] *)
Definition strip (s : string) : string := rstrip (lstrip s).

(** Truthiness of a [str]. *)
Definition nonempty (s : string) : bool :=
  match s with EmptyString => false | _ => true end.

(** ** Dates: [datetime.now().strftime('%Y%m%d')] *)

Record datetime := { year : nat; month : nat; day : nat }.

Definition digit (n : nat) : ascii := ascii_of_nat (48 + n mod 10).

Definition pad2 (n : nat) : string :=
  String (digit (n / 10)) (String (digit n) EmptyString).

Definition pad4 (n : nat) : string :=
  String (digit (n / 1000)) (String (digit (n / 100)) (pad2 n)).

Definition strftime_Ymd (d : datetime) : string :=
  pad4 (year d) +:+ pad2 (month d) +:+ pad2 (day d).

(** [datetime] keeps years in 1..9999, months in 1..12, days in 1..31. *)
Definition valid_datetime (d : datetime) : Prop :=
  1 <= year d <= 9999 /\ 1 <= month d <= 12 /\ 1 <= day d <= 31.

Definition is_digit (c : ascii) : bool :=
  let n := nat_of_ascii c in (48 <=? n) && (n <=? 57).

Fixpoint all_digits (s : string) : bool :=
  match s with
  | EmptyString => true
  | String c t => is_digit c && all_digits t
  end.

(** Eight decimal digits. *)
Definition is_YYYYMMDD (s : string) : Prop :=
  String.length s = 8 /\ all_digits s = true.

(** ** Paths *)

Definition endswith_slash (s : string) : bool :=
  match String.rev s with
  | String "/" _ => true
  | _ => false
  end.

(** [os.path.join(a, b)] on POSIX *)
Definition path_join (a b : string) : string :=
  if startswith "/" b then b
  else if negb (nonempty a) then b
  else if endswith_slash a then a +:+ b
  else a +:+ "/" +:+ b.

(** Last component of a path: [PurePath.name]. *)
Definition path_name (p : string) : string :=
  List.last (str_split "/" p) EmptyString.

(** [PurePath.suffix] of a file name: from the last dot, unless that dot
    leads or ends the name. *)
Definition name_suffix (name : string) : string :=
  match List.rev (str_split "." name) with
  | ext :: _ :: _ =>
      if nonempty ext && negb (String.eqb ("." +:+ ext) name)
      then "." +:+ ext else EmptyString
  | _ => EmptyString
  end.

(** [Path.with_suffix(suffix).name] *)
Definition with_suffix_name (p suffix : string) : string :=
  let name := path_name p in
  let old := name_suffix name in
  String.substring 0 (String.length name - String.length old) name +:+ suffix.

(** ** Exceptions and results *)

(** What a [CalledProcessError] carries in [stderr]: [None] when the
    stream was not captured, [bytes] by default, [str] with [text=True]. *)
Inductive pipe :=
| NotCaptured
| CapturedBytes (s : string)
| CapturedText (s : string).

Inductive exn :=
| SystemExit (code : nat)
| KeyError (key : string)
| IndexError
| AttributeError
| FileNotFoundError (what : string)
| FileExistsError (what : string)
| CalledProcessError (stderr : pipe)
| OSError (what : string)
| UnicodeDecodeError.

(** [except Exception] catches every class but [SystemExit]. *)
Definition is_Exception (e : exn) : bool :=
  match e with SystemExit _ => false | _ => true end.

Inductive res (A : Type) :=
| Ok (a : A)
| Raise (e : exn).
Arguments Ok {A} a.
Arguments Raise {A} e.

(** ** The host *)

Inductive node :=
| Dir
| File (content : string)
| Symlink (target : string).

Inductive command :=
| Exec (argv : list string)
| Shell (line : string).

(** One [subprocess.run] call: where it ran and what it ran. *)
Record event := Spawned {
  ev_cwd : string;
  ev_cmd : command;
  ev_env : option (gmap string string);
}.

(** How an external command ends. *)
Inductive proc_outcome :=
| Completed (stdout : string)
| Failed (stderr : string)
| NotLaunched.

Inductive level := DEBUG | INFO | WARNING | ERROR | SUCCESS.

Record world := {
  OPTIONS : list string;
  fs : gmap string node;
  environ : gmap string string;
  cwd : string;
  procs : list event;
  printed : list (level * string);
}.

Definition set_OPTIONS (v : list string) (w : world) : world :=
  {| OPTIONS := v; fs := fs w; environ := environ w; cwd := cwd w;
     procs := procs w; printed := printed w |}.

Definition set_fs (v : gmap string node) (w : world) : world :=
  {| OPTIONS := OPTIONS w; fs := v; environ := environ w; cwd := cwd w;
     procs := procs w; printed := printed w |}.

Definition set_cwd (v : string) (w : world) : world :=
  {| OPTIONS := OPTIONS w; fs := fs w; environ := environ w; cwd := v;
     procs := procs w; printed := printed w |}.

Definition set_procs (v : list event) (w : world) : world :=
  {| OPTIONS := OPTIONS w; fs := fs w; environ := environ w; cwd := cwd w;
     procs := v; printed := printed w |}.

Definition set_printed (v : list (level * string)) (w : world) : world :=
  {| OPTIONS := OPTIONS w; fs := fs w; environ := environ w; cwd := cwd w;
     procs := procs w; printed := v |}.

(** What the script cannot decide itself.  [spawn] gives the outcome of
    an external command from the history of commands already run;
    [glob] is the directory listing, in the host's order; [mkstemp]
    is the sequence of candidate names for temporary files, without
    their suffix; [wavedrom] and [asciidoctor] are the
    files a successful renderer leaves behind. *)
Record host := {
  ROOT_PATH : string;
  now : datetime;
  spawn : list event -> event -> proc_outcome;
  glob : gmap string node -> string -> string -> list string;
  mkstemp : nat -> string;
  wavedrom : string -> string;
  asciidoctor : string -> string;
}.

(** ** State and exceptions *)

Definition M (A : Type) : Type := world -> res A * world.

Definition ret {A} (a : A) : M A := fun w => (Ok a, w).

Definition bind {A B} (m : M A) (k : A -> M B) : M B :=
  fun w => match m w with
           | (Ok a, w') => k a w'
           | (Raise e, w') => (Raise e, w')
           end.

Definition raise {A} (e : exn) : M A := fun w => (Raise e, w).

(** [try: m except ...]: the handler picks the clause, [None] when no
    clause matches the exception. *)
Definition try_except {A} (m : M A) (handler : exn -> option (M A)) : M A :=
  fun w => match m w with
           | (Ok a, w') => (Ok a, w')
           | (Raise e, w') =>
               match handler e with
               | Some k => k w'
               | None => (Raise e, w')
               end
           end.

Definition get : M world := fun w => (Ok w, w).
Definition modify (f : world -> world) : M unit := fun w => (Ok tt, f w).

Notation "x <- m ;; k" := (bind m (fun x => k))
  (at level 100, m at next level, right associativity).
Notation "m ;;; k" := (bind m (fun _ => k))
  (at level 100, right associativity).

(** A dictionary subscript [d[k]]. *)
Definition subscript {V} (d : gmap string V) (k : string) : M V :=
  match d !! k with
  | Some v => ret v
  | None => raise (KeyError k)
  end.

(** [for x in l: body x], threading the loop-carried value. *)
Fixpoint for_each {A S} (l : list A) (body : A -> S -> M S) (s : S) : M S :=
  match l with
  | [] => ret s
  | x :: rest => s' <- body x s ;; for_each rest body s'
  end.

(** ** Configuration values *)

Record type_cfg := { watermark_opt : string; description : string }.

(** The [CONFIGS] dictionary; its nested dictionaries stay dictionaries. *)
Record config := {
  cfg_source : string;
  cfg_docs : gmap string string;
  cfg_version : string;
  cfg_env : string;
  cfg_default_type : string;
  cfg_build_dir : string;
  cfg_build_target : string;
  cfg_build_cmd : gmap string (list string);
  cfg_type_config : gmap string type_cfg;
  cfg_required_source : list string;
}.

(** The [DEPENDENCIES] dictionary. *)
Record dependencies := {
  dep_apt : list string;
  dep_ruby : gmap string string;
  dep_node : gmap string string;
}.

(** The command-line namespace returned by [parse_args]. *)
Record args := {
  release_type : string;
  incremental : bool;
  clean : bool;
  arg_verbose : bool;
  arg_version : string;
  node_version : string;
  arg_update_wave : bool;
  target : string;
}.

(** The [choices] that [argparse] enforces. *)
Definition release_type_choices : list string :=
  ["draft"; "intermediate"; "official"].
Definition target_choices : list string :=
  ["all"; "pdf"; "html"; "epub"; "tags"].

Definition parse_args_accepts (a : args) : Prop :=
  release_type a ∈ release_type_choices /\ target a ∈ target_choices.

(** The one list object that is shared: [self.options = OPTIONS] binds
    the attribute to the module-level list, it does not copy it. *)
Inductive list_ref := OPTIONS_object.

Record DocumentBuilder := {
  verbose : bool;
  env : gmap string string;
  version : string;
  build_cmd : gmap string (list string);
  build_time : string;
  build_dir : string;
  build_type : string;
  build_target : string;
  ruby_bin : string;
  ruby_lib : string;
  required_source : list string;
  work_dir : gmap string string;
  docs : list string;
  options : list_ref;
  ruby_require : option (list string);
}.

Definition set_env (v : gmap string string) (b : DocumentBuilder) :=
  {| verbose := verbose b; env := v; version := version b;
     build_cmd := build_cmd b; build_time := build_time b;
     build_dir := build_dir b; build_type := build_type b;
     build_target := build_target b; ruby_bin := ruby_bin b;
     ruby_lib := ruby_lib b; required_source := required_source b;
     work_dir := work_dir b; docs := docs b; options := options b;
     ruby_require := ruby_require b |}.

Definition set_work_dir (v : gmap string string) (b : DocumentBuilder) :=
  {| verbose := verbose b; env := env b; version := version b;
     build_cmd := build_cmd b; build_time := build_time b;
     build_dir := build_dir b; build_type := build_type b;
     build_target := build_target b; ruby_bin := ruby_bin b;
     ruby_lib := ruby_lib b; required_source := required_source b;
     work_dir := v; docs := docs b; options := options b;
     ruby_require := ruby_require b |}.

Definition set_ruby (bin lib : string) (req : list string)
    (b : DocumentBuilder) :=
  {| verbose := verbose b; env := env b; version := version b;
     build_cmd := build_cmd b; build_time := build_time b;
     build_dir := build_dir b; build_type := build_type b;
     build_target := build_target b; ruby_bin := bin;
     ruby_lib := lib; required_source := required_source b;
     work_dir := work_dir b; docs := docs b; options := options b;
     ruby_require := Some req |}.

(** Reading and appending through a list reference. *)
Definition deref (r : list_ref) (w : world) : list string :=
  match r with OPTIONS_object => OPTIONS w end.

Definition list_append (r : list_ref) (x : string) : M unit :=
  match r with
  | OPTIONS_object => modify (fun w => set_OPTIONS (OPTIONS w ++ [x]) w)
  end.

(** Which flag an option string is. *)
Definition is_revnumber_flag : string -> bool := startswith "-a revnumber=".
Definition is_revremark_flag : string -> bool := startswith "-a revremark=".
Definition is_watermark_flag : string -> bool := startswith "-a draft-watermark".

Definition count_flags (p : string -> bool) (l : list string) : nat :=
  length (List.filter p l).

(** A host on which every external command succeeds silently. *)
Definition quiet_host : host := {|
  ROOT_PATH := "/repo";
  now := {| year := 2025; month := 3; day := 7 |};
  spawn := fun _ _ => Completed "";
  glob := fun _ _ _ => [];
  mkstemp := fun seq => "/tmp/tmp" +:+ pad4 seq;
  wavedrom := fun src => "<svg>" +:+ src +:+ "</svg>";
  asciidoctor := fun cmd => "rendered";
|}.

(** A host on which no program can be started. *)
Definition bare_host : host := {|
  ROOT_PATH := "/repo";
  now := {| year := 2025; month := 3; day := 7 |};
  spawn := fun _ _ => NotLaunched;
  glob := fun _ _ _ => [];
  mkstemp := fun seq => "/tmp/tmp" +:+ pad4 seq;
  wavedrom := fun src => src;
  asciidoctor := fun cmd => "";
|}.

(** A host on which every external command ends with a non-zero status
    and a complaint on its error stream. *)
Definition failing_host : host := {|
  ROOT_PATH := "/repo";
  now := {| year := 2025; month := 3; day := 7 |};
  spawn := fun _ _ => Failed ("E: no such thing" +:+ String NL "");
  glob := fun _ _ _ => [];
  mkstemp := fun seq => "/tmp/tmp" +:+ pad4 seq;
  wavedrom := fun src => src;
  asciidoctor := fun cmd => "";
|}.

(** A host on which [dpkg] reports the package it is asked about as
    installed. *)
Definition dpkg_host : host := {|
  ROOT_PATH := "/repo";
  now := {| year := 2025; month := 3; day := 7 |};
  spawn := fun _ _ =>
    Completed ("Package: bison" +:+
               String NL ("Status: install ok installed" +:+ String NL ""));
  glob := fun _ _ _ => [];
  mkstemp := fun seq => "/tmp/tmp" +:+ pad4 seq;
  wavedrom := fun src => src;
  asciidoctor := fun cmd => "";
|}.

(** A host whose programs write Latin-1: the last byte of the output,
    233, is an accented letter there and no UTF-8. *)
Definition latin1_host : host := {|
  ROOT_PATH := "/repo";
  now := {| year := 2025; month := 3; day := 7 |};
  spawn := fun _ _ => Completed ("Status: install" +:+ bytes [233]);
  glob := fun _ _ _ => [];
  mkstemp := fun seq => "/tmp/tmp" +:+ pad4 seq;
  wavedrom := fun src => src;
  asciidoctor := fun cmd => "";
|}.

(** A host on which every command fails with a complaint that stands
    between white space of several kinds: U+001F and a blank before it,
    U+00A0 and a newline after it. *)
Definition framed_host : host := {|
  ROOT_PATH := "/repo";
  now := {| year := 2025; month := 3; day := 7 |};
  spawn := fun _ _ =>
    Failed (bytes [31; 32] +:+ "E: boom" +:+ bytes [194; 160; 10]);
  glob := fun _ _ _ => [];
  mkstemp := fun seq => "/tmp/tmp" +:+ pad4 seq;
  wavedrom := fun src => src;
  asciidoctor := fun cmd => "";
|}.

Definition cli (profile tgt ver : string) : args := {|
  release_type := profile; incremental := false; clean := false;
  arg_verbose := false; arg_version := ver; node_version := "20";
  arg_update_wave := false; target := tgt;
|}.

Section Script.

Context (h : host).

Definition DEPENDENCIES : dependencies := {|
  dep_apt :=
    ["bison"; "build-essential"; "cmake"; "curl"; "flex"; "fonts-lyx";
     "graphviz"; "bundler"; "default-jre"; "libcairo2-dev"; "libffi-dev";
     "libgdk-pixbuf2.0-dev"; "libpango1.0-dev"; "libxml2-dev"; "make";
     "pkg-config"; "ruby"; "ruby-dev"; "libwebp-dev"; "libzstd-dev"];
  dep_ruby := list_to_map
    [("config", ROOT_PATH h +:+ "/Gemfile");
     ("install_path", ROOT_PATH h +:+ "/vendor/bundle")];
  dep_node := list_to_map
    [("url", "curl -o- https://fnm.vercel.app/install | bash");
     ("version", "20");
     ("required", "wavedrom-cli");
     ("install_path", ROOT_PATH h +:+ "/node_modules/.bin")];
|}.

Definition CONFIGS : config := {|
  cfg_source := "openrisc-manual.adoc";
  cfg_docs := list_to_map
    [("pdf", "openrisc-manual.pdf");
     ("html", "openrisc-manual.html");
     ("epub", "openrisc-manual.epub");
     ("json", "openrisc-manual-norm-tags.json")];
  cfg_version := "1.4.0";
  cfg_env := "C.utf8";
  cfg_default_type := "draft";
  cfg_build_dir := ROOT_PATH h +:+ "/build";
  cfg_build_target := "all";
  cfg_build_cmd := list_to_map
    [("pdf", ["bundle"; "exec"; "asciidoctor-pdf"]);
     ("html", ["bundle"; "exec"; "asciidoctor"]);
     ("epub", ["bundle"; "exec"; "asciidoctor-epub3"]);
     ("json", ["bundle"; "exec"; "asciidoctor"; "--backend"; "tags";
               "--require=./docs-resources/converters/tags.rb"])];
  cfg_type_config := list_to_map
    [("draft", {| watermark_opt := "-a draft-watermark";
                  description := "'DRAFT---NOT AN OFFICIAL RELEASE'" |});
     ("intermediate", {| watermark_opt := "";
                         description := "'Intermediate Release'" |});
     ("official", {| watermark_opt := "";
                     description := "'Official Release'" |})];
  cfg_required_source :=
    [ROOT_PATH h +:+ "/docs-resources/global-config.adoc"];
|}.

(** The value of the module-level [OPTIONS] list when the module has
    just been loaded. *)
Definition OPTIONS_loaded : list string :=
  ["--trace";
   "-a"; "compress";
   "-a mathematical-format=svg";
   "-a pdf-fontsdir=docs-resources/fonts";
   "-a pdf-theme=docs-resources/themes/openrisc-pdf.yml";
   "-a docinfo=shared";
   "-D build";
   "-a bibtex-file=" +:+ ROOT_PATH h +:+ "/assets/resource/openrisc.bib";
   "--failure-level=WARN"].

Definition REQUIRES : list string :=
  ["--require=asciidoctor-bibtex";
   "--require=asciidoctor-diagram";
   "--require=asciidoctor-lists";
   "--require=asciidoctor-mathematical";
   "--require=asciidoctor-sail"].

(** ** [Logger] *)

(** [Logger.log]: one printed line; the time stamp, the caller and the
    colour are left out. *)
Definition log (message : string) (lvl : level) : M unit :=
  modify (fun w => set_printed (printed w ++ [(lvl, message)]) w).

Definition debug (verbose : bool) (message : string) : M unit :=
  if verbose then log message DEBUG else ret tt.

Definition info (message : string) : M unit := log message INFO.
Definition warning (message : string) : M unit := log message WARNING.
Definition success (message : string) : M unit := log message SUCCESS.

(** [Logger.error] prints, then [sys.exit(1)]. *)
Definition error (message : string) : M unit :=
  log message ERROR ;;; raise (SystemExit 1).

(** ** [DocumentBuilder.__init__] *)

(** The [self.docs] block: the output file names of the requested
    target. *)
Definition select_docs (config : config) : M (list string) :=
  if String.eqb (cfg_build_target config) "all" then
    j <- subscript (cfg_docs config) "json" ;;
    p <- subscript (cfg_docs config) "pdf" ;;
    t <- subscript (cfg_docs config) "html" ;;
    e <- subscript (cfg_docs config) "epub" ;;
    ret [j; p; t; e]
  else
    d <- subscript (cfg_docs config) (cfg_build_target config) ;;
    ret [d].

Definition DocumentBuilder_init (config : config) (verbose : bool)
    : M DocumentBuilder :=
  w <- get ;;
  let env := <["LANG" := cfg_env config]> (environ w) in
  let version := cfg_version config in
  let build_time := strftime_Ymd (now h) in
  let build_type := cfg_default_type config in
  let build_target := cfg_build_target config in
  docs <- select_docs config ;;
  let options := OPTIONS_object in
  tc <- subscript (cfg_type_config config) build_type ;;
  list_append options (watermark_opt tc) ;;;
  (if String.eqb build_type "draft"
   then list_append options ("-a revnumber=" +:+ build_time)
   else list_append options ("-a revnumber=" +:+ version)) ;;;
  tc <- subscript (cfg_type_config config) build_type ;;
  list_append options ("-a revremark=" +:+ description tc) ;;;
  ret {| verbose := verbose; env := env; version := version;
         build_cmd := cfg_build_cmd config; build_time := build_time;
         build_dir := cfg_build_dir config; build_type := build_type;
         build_target := build_target; ruby_bin := ""; ruby_lib := "";
         required_source := cfg_required_source config;
         work_dir := ∅; docs := docs; options := options;
         ruby_require := None |}.

(** ** The file system, as the script uses it

    Paths are compared as written, without normalisation. *)

(** [os.path.exists(p)]; a link counts as present. *)
Definition path_exists (p : string) : M bool :=
  w <- get ;;
  ret (match fs w !! p with Some _ => true | None => false end).

(** [open(p).read()] *)
Definition read_file (p : string) : M string :=
  w <- get ;;
  match fs w !! p with
  | Some (File c) => ret c
  | Some (Symlink t) =>
      match fs w !! t with
      | Some (File c) => ret c
      | _ => raise (FileNotFoundError p)
      end
  | Some Dir => raise (OSError p)
  | None => raise (FileNotFoundError p)
  end.

(** Proper ancestors of a path, outermost first. *)
Fixpoint ancestors_from (acc : string) (components : list string)
    : list string :=
  match components with
  | [] => []
  | [_] => []
  | c :: rest =>
      let here := acc +:+ c in
      (if nonempty here then [here] else []) ++
      ancestors_from (here +:+ "/") rest
  end.

Definition ancestors (p : string) : list string :=
  ancestors_from "" (str_split "/" p).

Definition mkdir_if_absent (files : gmap string node) (p : string)
    : gmap string node :=
  match files !! p with
  | Some _ => files
  | None => <[p := Dir]> files
  end.

(** [makedirs(p, exist_ok=True)] *)
Definition makedirs (p : string) : M unit :=
  w <- get ;;
  match fs w !! p with
  | Some (File _) => raise (FileExistsError p)
  | Some _ => ret tt
  | None =>
      modify (set_fs (<[p := Dir]> (foldl mkdir_if_absent (fs w) (ancestors p))))
  end.

(** [os.symlink(src, dst)] *)
Definition symlink (src dst : string) : M unit :=
  w <- get ;;
  match fs w !! dst with
  | Some _ => raise (FileExistsError dst)
  | None => modify (set_fs (<[dst := Symlink src]> (fs w)))
  end.

(** [os.unlink(p)] *)
Definition unlink (p : string) : M unit :=
  w <- get ;;
  match fs w !! p with
  | Some Dir => raise (OSError p)
  | Some _ => modify (set_fs (delete p (fs w)))
  | None => raise (FileNotFoundError p)
  end.

(** [shutil.copy2(src, dst)] *)
Definition copy2 (src dst : string) : M unit :=
  content <- read_file src ;;
  w <- get ;;
  let dst :=
    match fs w !! dst with
    | Some Dir => path_join dst (path_name src)
    | _ => dst
    end in
  modify (set_fs (<[dst := File content]> (fs w))).

Definition is_under (dir p : string) : bool :=
  String.eqb dir p || startswith (dir +:+ "/") p.

(** [shutil.rmtree(p)] *)
Definition rmtree (p : string) : M unit :=
  w <- get ;;
  match fs w !! p with
  | Some Dir =>
      modify (set_fs (filter (fun kv => is_under p kv.1 = false) (fs w)))
  | Some _ => raise (OSError p)
  | None => raise (FileNotFoundError p)
  end.

(** [os.chdir(p)] *)
Definition chdir (p : string) : M unit :=
  w <- get ;;
  let p := path_join (cwd w) p in
  match fs w !! p with
  | Some (File _) => raise (OSError p)
  | Some _ => modify (set_cwd p)
  | None => raise (FileNotFoundError p)
  end.

(** [tempfile.NamedTemporaryFile(mode='w+', suffix=..., delete=False)]:
    candidate names are tried until one does not exist yet, at most
    [TMP_MAX] times. *)
Fixpoint mkstemp_inner (attempts seq : nat) (files : gmap string node)
    (suffix : string) : option string :=
  match attempts with
  | 0 => None
  | S n =>
      let name := mkstemp h seq +:+ suffix in
      match files !! name with
      | Some _ => mkstemp_inner n (S seq) files suffix
      | None => Some name
      end
  end.

Definition TMP_MAX : nat := 10000.

Definition write_temporary_file (suffix content : string) : M string :=
  w <- get ;;
  match mkstemp_inner TMP_MAX 0 (fs w) suffix with
  | Some name =>
      modify (set_fs (<[name := File content]> (fs w))) ;;; ret name
  | None => raise (FileExistsError "No usable temporary file name found")
  end.

(** ** [subprocess.run(..., check=True)] *)

Inductive capture := NoPipe | PipeBytes | PipeText.

(** [stdout=PIPE if not verbose else None] *)
Definition pipe_unless (verbose : bool) : capture :=
  if verbose then NoPipe else PipeBytes.

Definition captured (c : capture) (s : string) : pipe :=
  match c with
  | NoPipe => NotCaptured
  | PipeBytes => CapturedBytes s
  | PipeText => CapturedText s
  end.

Definition program (c : command) : string :=
  match c with
  | Exec (p :: _) => p
  | Exec [] => ""
  | Shell _ => "/bin/sh"
  end.

Definition subprocess_run (cmd : command) (vars : option (gmap string string))
    (c : capture) : M string :=
  w <- get ;;
  let ev := Spawned (cwd w) cmd vars in
  modify (set_procs (procs w ++ [ev])) ;;;
  match spawn h (procs w) ev with
  | Completed out => ret out
  | Failed err => raise (CalledProcessError (captured c err))
  | NotLaunched => raise (FileNotFoundError (program cmd))
  end.

(** [stream.decode()]: only [bytes] can be decoded, and only when they
    are well-formed UTF-8. *)
Definition decode (p : pipe) : M string :=
  match p with
  | CapturedBytes s => if utf8_valid s then ret s else raise UnicodeDecodeError
  | _ => raise AttributeError
  end.

(** [str(e)] *)
Definition exn_str (e : exn) : string :=
  match e with
  | SystemExit _ => "1"
  | KeyError k => "'" +:+ k +:+ "'"
  | IndexError => "list index out of range"
  | AttributeError => "object has no attribute"
  | FileNotFoundError p => "No such file or directory: '" +:+ p +:+ "'"
  | FileExistsError p => "File exists: '" +:+ p +:+ "'"
  | CalledProcessError _ => "Command returned non-zero exit status"
  | OSError p => "OS error: '" +:+ p +:+ "'"
  | UnicodeDecodeError => "'utf-8' codec can't decode byte"
  end.

(** [s.replace(old, new)], scanning left to right; [skip] counts the
    characters of a match still to be dropped. *)
Fixpoint str_replace_from (skip : nat) (old new s : string) : string :=
  match s with
  | EmptyString => EmptyString
  | String c t =>
      match skip with
      | S k => str_replace_from k old new t
      | 0 =>
          if nonempty old && startswith old s
          then new +:+ str_replace_from (String.length old - 1) old new t
          else String c (str_replace_from 0 old new t)
      end
  end.

Definition str_replace (old new s : string) : string :=
  str_replace_from 0 old new s.

(** ** Regular expressions, as far as [update_wave] uses them *)

Inductive re_item :=
| BOL                 (* [^] under [re.MULTILINE] *)
| EOL                 (* [$] under [re.MULTILINE] *)
| Lit (c : ascii)
| LazyAnyGroup.       (* [(.*?)] under [re.DOTALL] *)

Definition at_bol (prev : option ascii) : bool :=
  match prev with None => true | Some c => Ascii.eqb c NL end.

Definition at_eol (s : string) : bool :=
  match s with EmptyString => true | String c _ => Ascii.eqb c NL end.

(** The lazy group: give the rest of the pattern a try after 0, 1, 2,
    ... characters, and keep what was skipped. *)
Fixpoint lazy_any (k : option ascii -> string -> option string)
    (prev : option ascii) (s : string) : option string :=
  match k prev s with
  | Some _ => Some EmptyString
  | None =>
      match s with
      | EmptyString => None
      | String c t => option_map (String c) (lazy_any k (Some c) t)
      end
  end.

(** Match at one position; the result is the text of group 1. *)
Fixpoint re_match (items : list re_item) : option ascii -> string -> option string :=
  match items with
  | [] => fun _ _ => Some EmptyString
  | BOL :: rest =>
      fun prev s => if at_bol prev then re_match rest prev s else None
  | EOL :: rest =>
      fun prev s => if at_eol s then re_match rest prev s else None
  | Lit c :: rest =>
      fun prev s =>
        match s with
        | String c' t => if Ascii.eqb c' c then re_match rest (Some c') t else None
        | EmptyString => None
        end
  | LazyAnyGroup :: rest => lazy_any (re_match rest)
  end.

(** [re.search]: the leftmost position at which the pattern matches. *)
Fixpoint re_search (items : list re_item) (prev : option ascii) (s : string)
    : option string :=
  match re_match items prev s with
  | Some g => Some g
  | None =>
      match s with
      | EmptyString => None
      | String c t => re_search items (Some c) t
      end
  end.

Definition marker : list re_item := [Lit "."; Lit "."; Lit "."; Lit "."].

(** The part of the pattern after the group. *)
Definition closing : list re_item := [Lit NL] ++ marker ++ [EOL].

(** [r'^\.\.\.\.\n(.*?)\n\.\.\.\.$'] *)
Definition wave_pattern : list re_item :=
  [BOL] ++ marker ++ [Lit NL; LazyAnyGroup] ++ closing.

(** [re.search(pattern, content, re.DOTALL | re.MULTILINE)] and then
    [match.group(1)] *)
Definition wave_extract (content : string) : option string :=
  re_search wave_pattern None content.

(** ** [DocumentBuilder] methods

    A method takes the builder and returns it again when it assigns to
    [self]. *)

Definition _check_distribution : M string :=
  try_except
    (os_release <- read_file "/etc/os-release" ;;
     if str_in "ubuntu" (lower os_release) || str_in "debian" (lower os_release)
     then ret "apt" else ret "unknown")
    (fun e => match e with
              | FileNotFoundError _ => Some (ret "unknown")
              | _ => None
              end).

Definition _check_package_installed (package : string) : M bool :=
  try_except
    (out <- subprocess_run (Exec ["dpkg"; "-s"; package]) None PipeBytes ;;
     text <- decode (CapturedBytes out) ;;
     ret (str_in "Status: install ok installed" text))
    (fun e => match e with
              | CalledProcessError _ => Some (ret false)
              | _ => None
              end).

Definition _install_packages (self : DocumentBuilder) (packages : list string)
    : M bool :=
  info ("Installing packages: " +:+ str_join ", " packages) ;;;
  try_except
    (subprocess_run (Exec (["sudo"; "apt-get"; "install"; "-y"] ++ packages))
       None (pipe_unless (verbose self)) ;;;
     success ("Successfully installed packages: " +:+ str_join ", " packages) ;;;
     ret true)
    (fun e => match e with
              | CalledProcessError err => Some (
                  msg <- decode err ;;
                  error ("Failed to install packages: " +:+ strip msg) ;;;
                  ret false)
              | _ => None
              end).

Definition has_key {V} (d : gmap string V) (k : string) : bool :=
  match d !! k with Some _ => true | None => false end.

Definition _setup_node_environment (self : DocumentBuilder)
    (node_config : gmap string string) : M (DocumentBuilder * bool) :=
  let cap := pipe_unless (verbose self) in
  try_except
    (node_installed <-
       try_except
         (subprocess_run (Exec ["node"; "--version"]) None PipeBytes ;;; ret true)
         (fun e => match e with
                   | CalledProcessError _ | FileNotFoundError _ => Some (ret false)
                   | _ => None
                   end) ;;
     (if negb node_installed then
        url <- subscript node_config "url" ;;
        subprocess_run (Exec [url]) None NoPipe ;;;
        (if has_key node_config "version" then
           v <- subscript node_config "version" ;;
           subprocess_run (Exec ["fnm"; "install"; v]) None cap ;;;
           v <- subscript node_config "version" ;;
           subprocess_run (Exec ["fnm"; "use"; v]) None cap ;;;
           ret tt
         else ret tt) ;;;
        subprocess_run (Exec ["node"; "--version"]) None NoPipe ;;;
        ret tt
      else ret tt) ;;;
     v <- subscript node_config "version" ;;
     success ("Successfully installed node, version: " +:+ v) ;;;
     present <- path_exists (ROOT_PATH h +:+ "/package.json") ;;
     if present then
       subprocess_run (Exec ["npm"; "install"]) None cap ;;;
       self <- (if has_key node_config "install_path" then
                  ip <- subscript node_config "install_path" ;;
                  old <- subscript (env self) "PATH" ;;
                  ret (set_env (<["PATH" := ip +:+ ":" +:+ old]> (env self)) self)
                else ret self) ;;
       success "Node environment setup completed" ;;;
       ret (self, true)
     else
       error ("Could not find package.json in " +:+ ROOT_PATH h +:+ "/package.json") ;;;
       ret (self, false))
    (fun e => match e with
              | CalledProcessError err => Some (
                  msg <- decode err ;;
                  error ("Node environment setup failed: " +:+ strip msg) ;;;
                  ret (self, false))
              | _ =>
                  if is_Exception e then Some (
                    error ("Unexpected error during Node environment setup: "
                           +:+ exn_str e) ;;;
                    ret (self, false))
                  else None
              end).

Definition _setup_ruby_environment (self : DocumentBuilder)
    (ruby_config : gmap string string) (ruby_require : list string)
    : M (DocumentBuilder * bool) :=
  let cap := pipe_unless (verbose self) in
  try_except
    (debug (verbose self) "Checking bundle version..." ;;;
     subprocess_run (Exec ["bundle"; "--version"]) None cap ;;;
     info "Setting up Ruby environment..." ;;;
     debug (verbose self) "Configuring bundle path..." ;;;
     ip <- subscript ruby_config "install_path" ;;
     subprocess_run (Exec ["bundle"; "config"; "set"; "--local"; "path"; ip])
       None cap ;;;
     debug (verbose self) "Running bundle install..." ;;;
     subprocess_run (Exec ["bundle"; "install"]) None cap ;;;
     let ruby_version := "3.3.0" in
     ip <- subscript ruby_config "install_path" ;;
     let bin := ip +:+ "/ruby/" +:+ ruby_version +:+ "/bin" in
     ip <- subscript ruby_config "install_path" ;;
     let lib := ip +:+ "/ruby/" +:+ ruby_version +:+ "/gems" in
     debug (verbose self) ("Ruby Binary in " +:+ bin) ;;;
     debug (verbose self) ("Ruby Library in " +:+ lib) ;;;
     w <- get ;;
     old <- subscript (environ w) "PATH" ;;
     let new_path := bin +:+ ":" +:+ old in
     let self := set_env (<["RUBYLIB" := lib]> (<["PATH" := new_path]> (env self)))
                   (set_ruby bin lib (map (str_replace "REPLACE" lib) ruby_require)
                      self) in
     success "Ruby environment setup completed" ;;;
     ret (self, true))
    (fun e => match e with
              | CalledProcessError err => Some (
                  msg <- decode err ;;
                  error ("Ruby environment setup failed: " +:+ strip msg) ;;;
                  ret (self, false))
              | FileNotFoundError _ => Some (
                  error "Bundle command not found. Please install Bundler first." ;;;
                  ret (self, false))
              | _ => None
              end).

(** [doc.split(".")[1]] *)
Definition build_targs_of (doc : string) : M string :=
  match str_split "." doc with
  | _ :: t :: _ => ret t
  | _ => raise IndexError
  end.

(** One round of the loop of [_workdir_setup]. *)
Definition _workdir_setup_doc (doc : string) (self : DocumentBuilder)
    : M DocumentBuilder :=
  let work_path := path_join (build_dir self) (doc +:+ ".workdir") in
  present <- path_exists work_path ;;
  (if negb present then
     debug (verbose self) ("Creating work directory: " +:+ work_path) ;;;
     makedirs work_path ;;;
     symlink (ROOT_PATH h +:+ "/src") (work_path +:+ "/src") ;;;
     symlink (ROOT_PATH h +:+ "/docs-resources") (work_path +:+ "/docs-resources") ;;;
     symlink (ROOT_PATH h +:+ "/assets") (work_path +:+ "/assets") ;;;
     debug (verbose self) ("Created work directory: " +:+ work_path)
   else ret tt) ;;;
  build_targs <- build_targs_of doc ;;
  ret (set_work_dir (<[build_targs := work_path]> (work_dir self)) self).

Definition _workdir_setup (self : DocumentBuilder) : M DocumentBuilder :=
  for_each (docs self) _workdir_setup_doc self.

(** [svg_file]: the image that belongs to a diagram source. *)
Definition svg_file_of (svg_path edn_file : string) : string :=
  svg_path +:+ "/" +:+ with_suffix_name edn_file ".svg".

(** One round of the loop of [update_wave]. *)
Definition update_wave_file (self : DocumentBuilder) (svg_path edn_file : string)
    : M unit :=
  let svg_file := svg_file_of svg_path edn_file in
  try_except
    (content <- read_file edn_file ;;
     match wave_extract content with
     | None =>
         error ("No content found between .... markers in " +:+ edn_file)
     | Some wave_content =>
         tmp_path <- write_temporary_file ".edn" wave_content ;;
         subprocess_run (Exec ["wavedrom-cli"; "-i"; tmp_path; "-s"; svg_file])
           (Some (env self)) (pipe_unless (verbose self)) ;;;
         modify (fun w => set_fs (<[svg_file := File (wavedrom h wave_content)]> (fs w)) w) ;;;
         unlink tmp_path
     end)
    (fun e => match e with
              | CalledProcessError _ => Some (
                  error ("Failed to generate " +:+ svg_file +:+ ": " +:+ exn_str e))
              | _ =>
                  if is_Exception e then Some (
                    error ("Error processing " +:+ edn_file +:+ ": " +:+ exn_str e))
                  else None
              end).

Definition update_wave_files (self : DocumentBuilder) (svg_path : string)
    (edn_files : list string) : M unit :=
  for_each edn_files (fun edn_file _ => update_wave_file self svg_path edn_file) tt.

Definition update_wave (self : DocumentBuilder) (deps : dependencies)
    : M (DocumentBuilder * bool) :=
  debug (verbose self) "Updating wave..." ;;;
  r <- _setup_node_environment self (dep_node deps) ;;
  let '(self, ok) := r in
  if negb ok then ret (self, false)
  else
    let wave_path := ROOT_PATH h +:+ "/assets/images/wavedrom/edn" in
    w <- get ;;
    let edn_files := glob h (fs w) wave_path "*.edn" in
    let svg_path := ROOT_PATH h +:+ "/assets/images/wavedrom/svg" in
    debug (verbose self)
      ("Extracting content from " +:+ pretty (length edn_files) +:+ " files") ;;;
    update_wave_files self svg_path edn_files ;;;
    success ("Successfully updated wavedrom: " +:+ svg_path) ;;;
    ret (self, true).

(** The command line that [build_for_all] assembles. *)
Definition build_command (self : DocumentBuilder) (build_target : string)
    : M string :=
  base <- subscript (build_cmd self) build_target ;;
  let cmd := base in
  let cmd :=
    if String.eqb build_target "json"
    then cmd ++ ["-a tags-match-prefix='norm:' -a tags-output-suffix='-norm-tags.json'"]
    else cmd in
  w <- get ;;
  let cmd := cmd ++ deref (options self) w in
  req <- match ruby_require self with
         | Some r => ret r
         | None => raise AttributeError
         end ;;
  let cmd := cmd ++ req in
  let cmd := cmd ++ ["src/" +:+ cfg_source CONFIGS] in
  ret (str_join " " cmd).

(** What a renderer that ended well has written: the document of its
    format, in [build] under the directory it ran in. *)
Definition rendered (build_target cmd_str : string) (w : world) : world :=
  match cfg_docs CONFIGS !! build_target with
  | Some doc =>
      set_fs (<[path_join (path_join (cwd w) "build") doc :=
                  File (asciidoctor h cmd_str)]> (fs w)) w
  | None => w
  end.

(** The renderer run of [build_for_all]: from the "Building" message
    to the end of the [try] statement. *)
Definition run_renderer (self : DocumentBuilder) (build_target cmd_str : string)
    : M unit :=
  info ("Building " +:+ upper build_target +:+ " output...") ;;;
  debug (verbose self) ("Running command: " +:+ cmd_str) ;;;
  try_except
    (subprocess_run (Shell cmd_str) (Some (env self))
       (if verbose self then NoPipe else PipeText) ;;;
     modify (rendered build_target cmd_str) ;;;
     success ("Successfully built " +:+ upper build_target +:+ " output"))
    (fun e => match e with
              | CalledProcessError err => Some (
                  detail <- match err with
                            | CapturedText s | CapturedBytes s =>
                                if nonempty s
                                then msg <- decode err ;; ret (strip msg)
                                else ret "Unknown error"
                            | NotCaptured => ret "Unknown error"
                            end ;;
                  error ("Failed to build " +:+ build_target +:+ ": " +:+ detail))
              | _ => None
              end).

Definition build_for_all (self : DocumentBuilder) (build_target : string)
    : M unit :=
  cmd_str <- build_command self build_target ;;
  wd <- subscript (work_dir self) build_target ;;
  chdir wd ;;;
  run_renderer self build_target cmd_str.

Definition check_packages (packages : list string) : M (list string) :=
  for_each packages
    (fun package to_install =>
       installed <- _check_package_installed package ;;
       if negb installed then ret (to_install ++ [package]) else ret to_install)
    [].

Definition check_required_source (self : DocumentBuilder) (source : string)
    : M unit :=
  present <- path_exists source ;;
  if negb present then
    warning ("Required source file not found: " +:+ source) ;;;
    warning "You must clone with --recurse-submodules to automatically populate the submodule 'docs-resources'." ;;;
    info "Checking out submodules for you via 'git submodule update --init --recursive'..." ;;;
    try_except
      (subprocess_run (Exec ["git"; "submodule"; "update"; "--init"; "--recursive"])
         None (pipe_unless (verbose self)) ;;;
       success "Submodules updated successfully")
      (fun e => match e with
                | CalledProcessError err => Some (
                    msg <- decode err ;;
                    error ("Failed to update submodules: " +:+ strip msg))
                | _ => None
                end)
  else ret tt.

Definition prepare_env (self : DocumentBuilder) (deps : dependencies)
    : M (DocumentBuilder * bool) :=
  info "Starting environment preparation..." ;;;
  distro <- _check_distribution ;;
  if String.eqb distro "apt" then
    packages_to_install <- check_packages (dep_apt deps) ;;
    installed <- (match packages_to_install with
                  | _ :: _ => _install_packages self packages_to_install
                  | [] => info "All required packages are already installed" ;;;
                          ret true
                  end) ;;
    if negb installed then ret (self, false)
    else
      r <- _setup_ruby_environment self (dep_ruby deps) REQUIRES ;;
      let '(self, ok) := r in
      if negb ok then ret (self, false)
      else
        r <- _setup_node_environment self (dep_node deps) ;;
        let '(self, ok) := r in
        if negb ok then ret (self, false)
        else
          for_each (required_source self)
            (fun source _ => check_required_source self source) tt ;;;
          self <- _workdir_setup self ;;
          ret (self, true)
  else
    error ("Unsupported distribution: " +:+ distro) ;;;
    ret (self, false).

(** One round of the loop of [clean_work_dir]. *)
Definition clean_work_dir_doc (self : DocumentBuilder) (doc : string) : M unit :=
  build_targs <- build_targs_of doc ;;
  wd <- subscript (work_dir self) build_targs ;;
  let src_path := path_join (path_join wd "build") doc in
  let dst_path := path_join (build_dir self) doc in
  copy2 src_path dst_path ;;;
  info ("Copying " +:+ doc +:+ " to " +:+ dst_path) ;;;
  wd <- subscript (work_dir self) build_targs ;;
  rmtree wd.

Definition clean_work_dir (self : DocumentBuilder) : M unit :=
  for_each (docs self) (fun doc _ => clean_work_dir_doc self doc) tt.

(** The updates [main] makes to [CONFIGS] and [DEPENDENCIES] from the
    command line. *)
Definition configure (a : args) : config := {|
  cfg_source := cfg_source CONFIGS;
  cfg_docs := cfg_docs CONFIGS;
  cfg_version := arg_version a;
  cfg_env := cfg_env CONFIGS;
  cfg_default_type := release_type a;
  cfg_build_dir := cfg_build_dir CONFIGS;
  cfg_build_target := target a;
  cfg_build_cmd := cfg_build_cmd CONFIGS;
  cfg_type_config := cfg_type_config CONFIGS;
  cfg_required_source := cfg_required_source CONFIGS;
|}.

Definition configure_deps (a : args) : dependencies := {|
  dep_apt := dep_apt DEPENDENCIES;
  dep_ruby := dep_ruby DEPENDENCIES;
  dep_node := <["version" := node_version a]> (dep_node DEPENDENCIES);
|}.

(** The [if]/[elif]/[else] of [main] that runs the builds. *)
Definition build_requested (builder : DocumentBuilder) : M unit :=
  if bool_decide (build_target builder ∈ ["pdf"; "json"; "epub"; "html"]) then
    build_for_all builder (build_target builder)
  else if String.eqb (build_target builder) "all" then
    build_for_all builder "pdf" ;;;
    build_for_all builder "epub" ;;;
    build_for_all builder "html" ;;;
    build_for_all builder "json"
  else
    error ("Unsupported build target: " +:+ build_target builder).

(** The body of the [try] block of [main]. *)
Definition build_and_finalize (builder : DocumentBuilder) (deps : dependencies)
    : M unit :=
  r <- prepare_env builder deps ;;
  let '(builder, ok) := r in
  if negb ok then
    error "Failed to prepare environment"
  else
    build_requested builder ;;;
    clean_work_dir builder ;;;
    success "Build process completed successfully!".

Definition main (a : args) : M unit :=
  let config := configure a in
  let deps := configure_deps a in
  builder <- DocumentBuilder_init config (arg_verbose a) ;;
  if clean a then
    info "Cleaning build artifacts..." ;;;
    present <- path_exists (cfg_build_dir config) ;;
    if present then
      rmtree (cfg_build_dir config) ;;;
      success "Build directory cleaned"
    else
      info "Build directory does not exist, nothing to clean"
  else if arg_update_wave a then
    update_wave builder deps ;;; ret tt
  else
    try_except
      (build_and_finalize builder deps)
      (fun e => if is_Exception e
                then Some (error ("Unexpected error during build: " +:+ exn_str e))
                else None).

(** The exit status of a process that is left to end by itself (no
    signal interrupts it, and its output stream can be flushed at the
    end): 0 when [main] returns, the code of [sys.exit], 1 for any other
    exception that nobody caught. *)
Definition exit_status {A} (r : res A) : nat :=
  match r with
  | Ok _ => 0
  | Raise (SystemExit code) => code
  | Raise _ => 1
  end.

(** ** Vocabulary of the properties *)

(** Number of lines of a text that consist of the marker [....]. *)
Definition marker_lines (content : string) : nat :=
  count_occ string_dec (str_split NL content) "....".

(** The same below the first line of the text. *)
Definition later_marker_lines (content : string) : nat :=
  count_occ string_dec (tail (str_split NL content)) "....".

(** A text that stops where a line starts: it is empty or ends with a
    newline. *)
Definition line_end (u : string) : Prop :=
  u = "" \/ exists u', u = u' +:+ String NL "".

(** The character before a position, after passing over [s]. *)
Fixpoint last_char (prev : option ascii) (s : string) : option ascii :=
  match s with
  | EmptyString => prev
  | String c t => last_char (Some c) t
  end.

(** The workspace of a document, and the key under which
    [_workdir_setup] records it. *)
Definition work_path_of (self : DocumentBuilder) (doc : string) : string :=
  path_join (build_dir self) (doc +:+ ".workdir").

Definition targs (doc : string) : option string :=
  match str_split "." doc with
  | _ :: t :: _ => Some t
  | _ => None
  end.

(** The assignments [self.work_dir[build_targs] = work_path] of a whole
    pass over [docs]. *)
Definition record_work_dirs (self : DocumentBuilder) (docs : list string)
    (m : gmap string string) : gmap string string :=
  foldl (fun m doc => match targs doc with
                      | Some t => <[t := work_path_of self doc]> m
                      | None => m
                      end) m docs.

(** [ev] is the renderer run of the build of target [t]: the command
    line is the one [build_for_all] assembles for [t], run through the
    shell with the builder's environment. *)
Definition is_build_of (self : DocumentBuilder) (w : world) (t : string)
    (ev : event) : Prop :=
  exists c, build_command self t w = (Ok c, w) /\
            ev_cmd ev = Shell c /\ ev_env ev = Some (env self).

(** The builds of a list of targets, one after the other. *)
Definition build_sequence (self : DocumentBuilder) (targets : list string)
    : M unit :=
  for_each targets (fun t _ => build_for_all self t) tt.


(** The processes [evs], started one after the other once [started] had
    been started, have all ended with status 0. *)
Fixpoint all_completed (started evs : list event) : Prop :=
  match evs with
  | [] => True
  | ev :: rest =>
      (exists out, spawn h started ev = Completed out) /\
      all_completed (started ++ [ev]) rest
  end.

(** The three strings the constructor appends for a configuration whose
    profile is [tc]. *)
Definition appended_flags (config : config) (tc : type_cfg) : list string :=
  [watermark_opt tc;
   "-a revnumber=" +:+
     (if String.eqb (cfg_default_type config) "draft"
      then strftime_Ymd (now h) else cfg_version config);
   "-a revremark=" +:+ description tc].

(** A freshly started process: the module has just been loaded, nothing
    has been run or printed yet. *)
Definition fresh_world (files : gmap string node)
    (vars : gmap string string) : world :=
  {| OPTIONS := OPTIONS_loaded; fs := files; environ := vars;
     cwd := ROOT_PATH h; procs := []; printed := [] |}.

(** The shell command lines among the processes started so far. *)
Definition shell_lines (w : world) : list string :=
  omap (fun ev => match ev_cmd ev with
                  | Shell line => Some line
                  | Exec _ => None
                  end) (procs w).

(** The value of a result, or a default when it is an exception. *)
Definition value_or {A} (default : A) (r : res A) : A :=
  match r with Ok a => a | Raise _ => default end.

Definition raised_or {A} (default : exn) (r : res A) : exn :=
  match r with Ok _ => default | Raise e => e end.

(** A computation leaves a component of the world as it found it,
    however it ends. *)
Definition keeps {A B} (f : world -> B) (m : M A) : Prop :=
  forall w r w', m w = (r, w') -> f w' = f w.

(** When [SystemExit] leaves a computation, it carries the code 1 and
    the last line of the log is an error line. *)
Definition exits_through_error {A} (m : M A) : Prop :=
  forall w c w', m w = (Raise (SystemExit c), w') ->
    c = 1 /\ exists told msg, printed w' = told ++ [(ERROR, msg)].

(** Every command that a computation starts satisfies [P]. *)
Definition spawns_only {A} (P : command -> Prop) (m : M A) : Prop :=
  forall w r w', m w = (r, w') ->
    exists evs, procs w' = procs w ++ evs /\ Forall (fun ev => P (ev_cmd ev)) evs.

(** ** Sample hosts and worlds *)

(** The files of a Debian-like machine with a checkout of the
    repository. *)
Definition ubuntu_files : gmap string node := list_to_map
  [("/etc/os-release", File "ID=ubuntu");
   ("/repo/package.json", File "{}");
   ("/repo/docs-resources/global-config.adoc", File "= config")].

Definition usual_environ : gmap string string :=
  list_to_map [("PATH", "/usr/bin")].

(** A host on which the e-book renderer fails and every other command
    succeeds. *)
Definition epub_failing_host : host := {|
  ROOT_PATH := "/repo";
  now := {| year := 2025; month := 3; day := 7 |};
  spawn := fun _ ev =>
    match ev_cmd ev with
    | Shell line =>
        if str_in "asciidoctor-epub3" line then Failed "" else Completed ""
    | Exec _ => Completed ""
    end;
  glob := fun _ _ _ => [];
  mkstemp := fun seq => "/tmp/tmp" +:+ pad4 seq;
  wavedrom := fun src => "<svg>" +:+ src +:+ "</svg>";
  asciidoctor := fun cmd => "rendered";
|}.

(** A host with two diagram sources, listed in this order. *)
Definition wave_host : host := {|
  ROOT_PATH := "/repo";
  now := {| year := 2025; month := 3; day := 7 |};
  spawn := fun _ _ => Completed "";
  glob := fun _ _ _ =>
    ["/repo/assets/images/wavedrom/edn/a.edn";
     "/repo/assets/images/wavedrom/edn/b.edn"];
  mkstemp := fun seq => "/tmp/tmp" +:+ pad4 seq;
  wavedrom := fun src => "<svg>" +:+ src +:+ "</svg>";
  asciidoctor := fun cmd => "rendered";
|}.

(** The first source is well formed, the second has lost its closing
    marker. *)
Definition wave_files : gmap string node := list_to_map
  [("/repo/package.json", File "{}");
   ("/repo/assets/images/wavedrom/edn/a.edn",
    File ("[wavedrom]" +:+ String NL ("...." +:+ String NL
            ("{reg: [1]}" +:+ String NL "...."))));
   ("/repo/assets/images/wavedrom/edn/b.edn",
    File ("...." +:+ String NL "{reg: [2]}"))].

(** A builder as [__init__] leaves it for the selector [all]. *)
Definition new_builder : DocumentBuilder := {|
  verbose := false;
  env := <["LANG" := "C.utf8"]> usual_environ;
  version := "1.4.0";
  build_cmd := cfg_build_cmd CONFIGS;
  build_time := strftime_Ymd (now h);
  build_dir := cfg_build_dir CONFIGS;
  build_type := "draft";
  build_target := "all";
  ruby_bin := "";
  ruby_lib := "";
  required_source := cfg_required_source CONFIGS;
  work_dir := ∅;
  docs := ["openrisc-manual-norm-tags.json"; "openrisc-manual.pdf";
           "openrisc-manual.html"; "openrisc-manual.epub"];
  options := OPTIONS_object;
  ruby_require := None;
|}.

(** The same builder once [prepare_env] is through, and the workspaces
    it then finds. *)
Definition ready_builder : DocumentBuilder :=
  set_ruby "/repo/vendor/bundle/ruby/3.3.0/bin"
    "/repo/vendor/bundle/ruby/3.3.0/gems" REQUIRES
    (set_work_dir
       (list_to_map
          [("json", "/repo/build/openrisc-manual-norm-tags.json.workdir");
           ("pdf", "/repo/build/openrisc-manual.pdf.workdir");
           ("html", "/repo/build/openrisc-manual.html.workdir");
           ("epub", "/repo/build/openrisc-manual.epub.workdir")])
       new_builder).

Definition ready_files : gmap string node := list_to_map
  [("/repo/build/openrisc-manual-norm-tags.json.workdir", Dir);
   ("/repo/build/openrisc-manual.pdf.workdir", Dir);
   ("/repo/build/openrisc-manual.html.workdir", Dir);
   ("/repo/build/openrisc-manual.epub.workdir", Dir)].

(** * Properties *)

(** ** Evaluating the monad *)

Lemma bind_Ok {A B} (m : M A) (k : A -> M B) w a w' :
  m w = (Ok a, w') -> bind m k w = k a w'.
Proof. unfold bind. intros ->. reflexivity. Qed.

Lemma bind_Raise {A B} (m : M A) (k : A -> M B) w e w' :
  m w = (Raise e, w') -> bind m k w = (Raise e, w').
Proof. unfold bind. intros ->. reflexivity. Qed.

Ltac in_cases H :=
  repeat (apply elem_of_cons in H as [H|H]; [subst|]);
  try (apply elem_of_nil in H; destruct H).

(** ** The options assembled by the constructor *)

Lemma subscript_Some {V} (d : gmap string V) k v w :
  d !! k = Some v -> subscript d k w = (Ok v, w).
Proof. unfold subscript. intros ->. reflexivity. Qed.

Lemma subscript_None {V} (d : gmap string V) k w :
  d !! k = None -> subscript d k w = (Raise (KeyError k), w).
Proof. unfold subscript. intros ->. reflexivity. Qed.

(** The constructor touches nothing but the shared list, and fails only
    on a missing dictionary key. *)
Lemma DocumentBuilder_init_eq config vb w ds tc :
  select_docs config w = (Ok ds, w) ->
  cfg_type_config config !! cfg_default_type config = Some tc ->
  exists b,
    DocumentBuilder_init config vb w =
      (Ok b, set_OPTIONS (OPTIONS w ++ appended_flags config tc) w) /\
    options b = OPTIONS_object /\ docs b = ds /\ work_dir b = ∅ /\
    verbose b = vb /\ ruby_require b = None /\
    build_target b = cfg_build_target config /\
    build_type b = cfg_default_type config /\
    build_dir b = cfg_build_dir config /\
    build_cmd b = cfg_build_cmd config /\
    required_source b = cfg_required_source config.
Proof.
  intros Hd Ht.
  assert (Hs : forall w1, subscript (cfg_type_config config)
                 (cfg_default_type config) w1 = (Ok tc, w1))
    by (intros; apply subscript_Some, Ht).
  eexists. split.
  - unfold DocumentBuilder_init, get. unfold bind at 1.
    unfold bind at 1. rewrite Hd. unfold bind at 1. rewrite Hs.
    unfold appended_flags, list_append, modify, set_OPTIONS.
    destruct (String.eqb (cfg_default_type config) "draft");
      unfold bind; cbn -[strftime_Ymd String.append subscript];
      rewrite Hs; cbn -[strftime_Ymd String.append];
      rewrite <- ?app_assoc; reflexivity.
  - repeat split; reflexivity.
Qed.

Lemma select_docs_raise config vb w e w' :
  select_docs config w = (Raise e, w') ->
  DocumentBuilder_init config vb w = (Raise e, w').
Proof.
  intros Hd. unfold DocumentBuilder_init, get.
  unfold bind at 1; unfold bind at 1; rewrite Hd; reflexivity.
Qed.

Lemma select_docs_configure (a : args) (w : world) :
  target a ∈ ["all"; "pdf"; "html"; "epub"; "json"] ->
  exists ds, select_docs (configure a) w = (Ok ds, w) /\
    ds = if String.eqb (target a) "all"
         then ["openrisc-manual-norm-tags.json"; "openrisc-manual.pdf";
               "openrisc-manual.html"; "openrisc-manual.epub"]
         else if String.eqb (target a) "json"
              then ["openrisc-manual-norm-tags.json"]
              else ["openrisc-manual." +:+ target a].
Proof.
  destruct a as [rt inc cl vb ver nv uw tg]; cbn [target].
  intros Htg. in_cases Htg; eexists; (split; [|reflexivity]);
    vm_compute; reflexivity.
Qed.

Lemma type_config_configure (a : args) :
  release_type a ∈ release_type_choices ->
  exists tc, cfg_type_config (configure a) !! release_type a = Some tc /\
    tc = if String.eqb (release_type a) "draft"
         then {| watermark_opt := "-a draft-watermark";
                 description := "'DRAFT---NOT AN OFFICIAL RELEASE'" |}
         else if String.eqb (release_type a) "intermediate"
              then {| watermark_opt := "";
                      description := "'Intermediate Release'" |}
              else {| watermark_opt := ""; description := "'Official Release'" |}.
Proof.
  destruct a as [rt inc cl vb ver nv uw tg]; cbn [release_type].
  intros Hrt. in_cases Hrt; eexists; (split; [|reflexivity]);
    vm_compute; reflexivity.
Qed.

Lemma count_flags_app p l1 l2 :
  count_flags p (l1 ++ l2) = count_flags p l1 + count_flags p l2.
Proof. unfold count_flags. rewrite List.filter_app, length_app. reflexivity. Qed.

Lemma OPTIONS_loaded_counts :
  count_flags is_revnumber_flag OPTIONS_loaded = 0 /\
  count_flags is_revremark_flag OPTIONS_loaded = 0 /\
  count_flags is_watermark_flag OPTIONS_loaded = 0.
Proof. repeat split; reflexivity. Qed.

Lemma startswith_append p s : startswith p (p +:+ s) = true.
Proof. unfold startswith. induction p; simpl; [destruct s; reflexivity|].
  destruct (ascii_dec a a); [assumption|congruence]. Qed.

Lemma count_flags_cons p x l :
  count_flags p (x :: l) = (if p x then 1 else 0) + count_flags p l.
Proof. unfold count_flags. simpl. destruct (p x); reflexivity. Qed.

Lemma is_digit_digit n : is_digit (digit n) = true.
Proof.
  unfold is_digit, digit.
  assert (n mod 10 < 10) by (apply Nat.mod_upper_bound; lia).
  rewrite nat_ascii_embedding by lia.
  apply andb_true_intro; split; apply Nat.leb_le; lia.
Qed.

Lemma append_cons c s1 s2 : String c s1 +:+ s2 = String c (s1 +:+ s2).
Proof. reflexivity. Qed.

Lemma append_nil s : "" +:+ s = s.
Proof. reflexivity. Qed.

Lemma all_digits_app s1 s2 :
  all_digits (s1 +:+ s2) = all_digits s1 && all_digits s2.
Proof.
  induction s1 as [|c s1 IH]; [reflexivity|].
  rewrite append_cons. cbn [all_digits]. rewrite IH. apply andb_assoc.
Qed.

Lemma strftime_Ymd_form d : is_YYYYMMDD (strftime_Ymd d).
Proof.
  split; [reflexivity|].
  unfold strftime_Ymd. rewrite !all_digits_app. unfold pad4, pad2.
  cbn [all_digits]. rewrite !is_digit_digit. reflexivity.
Qed.

(** What the freshly built builder sees through [self.options]. *)
Lemma DocumentBuilder_init_options (a : args) (w : world) :
  release_type a ∈ release_type_choices ->
  target a ∈ ["all"; "pdf"; "html"; "epub"; "json"] ->
  exists b w' tc,
    DocumentBuilder_init (configure a) (arg_verbose a) w = (Ok b, w') /\
    cfg_type_config CONFIGS !! release_type a = Some tc /\
    options b = OPTIONS_object /\
    OPTIONS w' = OPTIONS w ++ appended_flags (configure a) tc /\
    deref (options b) w' = OPTIONS w ++ appended_flags (configure a) tc.
Proof.
  intros Hrt Htg.
  destruct (select_docs_configure a w Htg) as (ds & Hds & _).
  destruct (type_config_configure a Hrt) as (tc & Htc & _).
  destruct (DocumentBuilder_init_eq (configure a) (arg_verbose a) w ds tc Hds Htc)
    as (b & Hb & Ho & _).
  exists b, (set_OPTIONS (OPTIONS w ++ appended_flags (configure a) tc) w), tc.
  rewrite Ho. split; [exact Hb|]. split; [exact Htc|].
  split; [reflexivity|]. split; reflexivity.
Qed.

Ltac eval_eqb :=
  repeat match goal with
  | |- context [String.eqb ?x ?y] =>
      let v := eval vm_compute in (String.eqb x y) in
      change (String.eqb x y) with v
  end; cbv iota.

(** The three appended strings, profile by profile. *)
Lemma appended_flags_profile (a : args) tc :
  release_type a ∈ release_type_choices ->
  cfg_type_config CONFIGS !! release_type a = Some tc ->
  appended_flags (configure a) tc =
    if String.eqb (release_type a) "draft"
    then ["-a draft-watermark";
          "-a revnumber=" +:+ strftime_Ymd (now h);
          "-a revremark=" +:+ "'DRAFT---NOT AN OFFICIAL RELEASE'"]
    else if String.eqb (release_type a) "intermediate"
         then [""; "-a revnumber=" +:+ arg_version a;
               "-a revremark=" +:+ "'Intermediate Release'"]
         else [""; "-a revnumber=" +:+ arg_version a;
               "-a revremark=" +:+ "'Official Release'"].
Proof.
  intros Hrt Htc.
  destruct (type_config_configure a Hrt) as (tc' & Htc' & Etc).
  assert (tc' = tc) by (cbn [configure cfg_type_config] in Htc'; congruence).
  subst tc'. clear Htc Htc'.
  destruct a as [rt inc cl vb ver nv uw tg]; cbn [release_type arg_version] in *.
  unfold appended_flags; cbn [configure cfg_default_type cfg_version].
  in_cases Hrt; eval_eqb; reflexivity.
Qed.

Lemma appended_flags_counts (a : args) tc :
  release_type a ∈ release_type_choices ->
  cfg_type_config CONFIGS !! release_type a = Some tc ->
  count_flags is_revnumber_flag (appended_flags (configure a) tc) = 1 /\
  count_flags is_revremark_flag (appended_flags (configure a) tc) = 1 /\
  (existsb is_watermark_flag (appended_flags (configure a) tc) = true <->
   release_type a = "draft").
Proof.
  intros Hrt Htc. rewrite (appended_flags_profile a tc Hrt Htc).
  generalize (strftime_Ymd (now h)); intros today.
  destruct a as [rt inc cl vb ver nv uw tg]; cbn [release_type arg_version] in *.
  clear Htc.
  in_cases Hrt; eval_eqb;
    rewrite !count_flags_cons; cbn [existsb];
    unfold is_revnumber_flag, is_revremark_flag, is_watermark_flag;
    rewrite !startswith_append;
    (split; [reflexivity|]; split; [reflexivity|]; split;
       [intros H; try reflexivity; discriminate H
       |intros H; try reflexivity; discriminate H]).
Qed.

(** C1: for each of the three release profiles, the options the builder
    holds after construction in a freshly started process contain exactly
    one [revnumber] flag and exactly one [revremark] flag, and contain a
    watermark flag exactly when the profile is [draft]. *)
Theorem C1_one_revision_one_description (a : args) (w : world) :
  release_type a ∈ release_type_choices ->
  target a ∈ ["all"; "pdf"; "html"; "epub"; "json"] ->
  OPTIONS w = OPTIONS_loaded ->
  exists b w',
    DocumentBuilder_init (configure a) (arg_verbose a) w = (Ok b, w') /\
    count_flags is_revnumber_flag (deref (options b) w') = 1 /\
    count_flags is_revremark_flag (deref (options b) w') = 1 /\
    (existsb is_watermark_flag (deref (options b) w') = true <->
     release_type a = "draft").
Proof.
  intros Hrt Htg Hw.
  destruct (DocumentBuilder_init_options a w Hrt Htg)
    as (b & w' & tc & Hb & Htc & _ & _ & Hd).
  exists b, w'. split; [exact Hb|]. rewrite Hd, Hw.
  destruct OPTIONS_loaded_counts as (C1 & C2 & C3).
  destruct (appended_flags_counts a tc Hrt Htc) as (A1 & A2 & A3).
  rewrite !count_flags_app, C1, C2, A1, A2, existsb_app.
  assert (Hnw : existsb is_watermark_flag OPTIONS_loaded = false) by reflexivity.
  rewrite Hnw. auto.
Qed.

Lemma elem_of_filter_singleton (p : string -> bool) (l : list string) x :
  List.filter p l = [x] ->
  x ∈ l /\ forall f, f ∈ l -> p f = true -> f = x.
Proof.
  intros E. split.
  - apply list_elem_of_In. apply (proj1 (List.filter_In p x l)).
    rewrite E. left. reflexivity.
  - intros f Hf Hp. apply list_elem_of_In in Hf.
    assert (Hin : List.In f (List.filter p l)) by (apply List.filter_In; auto).
    rewrite E in Hin. destruct Hin as [->|[]]. reflexivity.
Qed.

(** C7: with the [draft] profile the options hold the watermark flag and
    a [revnumber] flag whose value is the date of the run as eight
    digits; with the [official] profile and version [2.0.0] they hold the
    [revnumber] flag with value [2.0.0] and no watermark flag. *)
Theorem C7_draft_and_official_scenarios (a : args) (w : world) :
  target a ∈ ["all"; "pdf"; "html"; "epub"; "json"] ->
  OPTIONS w = OPTIONS_loaded ->
  (release_type a = "draft" ->
   exists b w',
     DocumentBuilder_init (configure a) (arg_verbose a) w = (Ok b, w') /\
     "-a draft-watermark" ∈ deref (options b) w' /\
     "-a revnumber=" +:+ strftime_Ymd (now h) ∈ deref (options b) w' /\
     is_YYYYMMDD (strftime_Ymd (now h)) /\
     (forall f, f ∈ deref (options b) w' -> is_revnumber_flag f = true ->
                f = "-a revnumber=" +:+ strftime_Ymd (now h))) /\
  (release_type a = "official" -> arg_version a = "2.0.0" ->
   exists b w',
     DocumentBuilder_init (configure a) (arg_verbose a) w = (Ok b, w') /\
     "-a revnumber=2.0.0" ∈ deref (options b) w' /\
     (forall f, f ∈ deref (options b) w' -> is_revnumber_flag f = true ->
                f = "-a revnumber=2.0.0") /\
     existsb is_watermark_flag (deref (options b) w') = false).
Proof.
  intros Htg Hw. split.
  - intros Hrt.
    assert (Hc : release_type a ∈ release_type_choices)
      by (rewrite Hrt; repeat constructor).
    destruct (DocumentBuilder_init_options a w Hc Htg)
      as (b & w' & tc & Hb & Htc & _ & _ & Hd).
    exists b, w'. split; [exact Hb|]. rewrite Hd, Hw.
    rewrite (appended_flags_profile a tc Hc Htc), Hrt. eval_eqb.
    generalize (strftime_Ymd_form (now h)).
    generalize (strftime_Ymd (now h)); intros today Hform.
    assert (E : List.filter is_revnumber_flag
                  (OPTIONS_loaded ++
                   ["-a draft-watermark"; "-a revnumber=" +:+ today;
                    "-a revremark=" +:+ "'DRAFT---NOT AN OFFICIAL RELEASE'"])
                = ["-a revnumber=" +:+ today]).
    { rewrite List.filter_app. cbn [List.filter].
      unfold is_revnumber_flag. rewrite startswith_append. reflexivity. }
    destruct (elem_of_filter_singleton _ _ _ E) as (Hin & Huniq).
    split; [|split; [exact Hin|split; [exact Hform|exact Huniq]]].
    apply elem_of_app. right. constructor.
  - intros Hrt Hver.
    assert (Hc : release_type a ∈ release_type_choices)
      by (rewrite Hrt; repeat constructor).
    destruct (DocumentBuilder_init_options a w Hc Htg)
      as (b & w' & tc & Hb & Htc & _ & _ & Hd).
    exists b, w'. split; [exact Hb|]. rewrite Hd, Hw.
    rewrite (appended_flags_profile a tc Hc Htc), Hrt, Hver. eval_eqb.
    assert (E : List.filter is_revnumber_flag
                  (OPTIONS_loaded ++
                   [""; "-a revnumber=" +:+ "2.0.0";
                    "-a revremark=" +:+ "'Official Release'"])
                = ["-a revnumber=2.0.0"]) by reflexivity.
    destruct (elem_of_filter_singleton _ _ _ E) as (Hin & Huniq).
    split; [exact Hin|]. split; [exact Huniq|]. reflexivity.
Qed.

(** C9: the constructor appends to the module-level list itself, to
    which [self.options] is only another name.  A second builder made in
    the same process therefore sees the per-profile flags of both
    constructions, two [revnumber] and two [revremark] flags, and so does
    the first builder from then on. *)
Theorem C9_second_builder_sees_flags_twice (a1 a2 : args) (w : world) :
  release_type a1 ∈ release_type_choices ->
  target a1 ∈ ["all"; "pdf"; "html"; "epub"; "json"] ->
  release_type a2 ∈ release_type_choices ->
  target a2 ∈ ["all"; "pdf"; "html"; "epub"; "json"] ->
  OPTIONS w = OPTIONS_loaded ->
  exists b1 w1 b2 w2 tc1 tc2,
    DocumentBuilder_init (configure a1) (arg_verbose a1) w = (Ok b1, w1) /\
    DocumentBuilder_init (configure a2) (arg_verbose a2) w1 = (Ok b2, w2) /\
    cfg_type_config CONFIGS !! release_type a1 = Some tc1 /\
    cfg_type_config CONFIGS !! release_type a2 = Some tc2 /\
    options b1 = OPTIONS_object /\ options b2 = OPTIONS_object /\
    OPTIONS w1 = OPTIONS_loaded ++ appended_flags (configure a1) tc1 /\
    OPTIONS w2 = OPTIONS_loaded ++ appended_flags (configure a1) tc1
                                ++ appended_flags (configure a2) tc2 /\
    deref (options b2) w2 = OPTIONS w2 /\
    deref (options b1) w2 = OPTIONS w2 /\
    count_flags is_revnumber_flag (deref (options b1) w1) = 1 /\
    count_flags is_revnumber_flag (deref (options b2) w2) = 2 /\
    count_flags is_revremark_flag (deref (options b2) w2) = 2.
Proof.
  intros Hr1 Ht1 Hr2 Ht2 Hw.
  destruct (DocumentBuilder_init_options a1 w Hr1 Ht1)
    as (b1 & w1 & tc1 & Hb1 & Htc1 & Ho1 & Hw1 & Hd1).
  destruct (DocumentBuilder_init_options a2 w1 Hr2 Ht2)
    as (b2 & w2 & tc2 & Hb2 & Htc2 & Ho2 & Hw2 & Hd2).
  exists b1, w1, b2, w2, tc1, tc2.
  rewrite Hw in Hw1, Hd1. rewrite Hw1 in Hw2, Hd2.
  rewrite <- app_assoc in Hw2, Hd2.
  destruct OPTIONS_loaded_counts as (C1 & C2 & C3).
  destruct (appended_flags_counts a1 tc1 Hr1 Htc1) as (A1 & A2 & _).
  destruct (appended_flags_counts a2 tc2 Hr2 Htc2) as (B1 & B2 & _).
  split; [exact Hb1|]. split; [exact Hb2|].
  split; [exact Htc1|]. split; [exact Htc2|].
  split; [exact Ho1|]. split; [exact Ho2|].
  split; [exact Hw1|]. split; [exact Hw2|].
  split; [rewrite Ho2; reflexivity|].
  split; [rewrite Ho1; reflexivity|].
  split; [rewrite Hd1, count_flags_app, C1, A1; reflexivity|].
  split.
  - rewrite Hd2, !count_flags_app, C1, A1, B1. reflexivity.
  - rewrite Hd2, !count_flags_app, C2, A2, B2. reflexivity.
Qed.


(** ** Lines *)

Lemma append_assoc (a b c : string) : (a +:+ b) +:+ c = a +:+ (b +:+ c).
Proof. induction a as [|x a IH]; [reflexivity|]. rewrite !append_cons, IH. reflexivity. Qed.

Lemma append_empty_r (a : string) : a +:+ "" = a.
Proof. induction a as [|x a IH]; [reflexivity|]. rewrite append_cons, IH. reflexivity. Qed.

Lemma str_split_nonnil sep s : str_split sep s <> [].
Proof.
  destruct s as [|c s]; simpl; [discriminate|].
  destruct (Ascii.eqb c sep); [discriminate|].
  destruct (str_split sep s); discriminate.
Qed.

Lemma str_split_app_sep sep a b :
  str_split sep (a +:+ String sep b) = str_split sep a ++ str_split sep b.
Proof.
  induction a as [|c a IH].
  - rewrite append_nil. simpl. rewrite Ascii.eqb_refl. reflexivity.
  - rewrite append_cons. simpl. destruct (Ascii.eqb c sep); [rewrite IH; reflexivity|].
    rewrite IH. destruct (str_split sep a) as [|f fs] eqn:E; [|reflexivity].
    destruct (str_split_nonnil _ _ E).
Qed.

Lemma marker_lines_app_nl a b :
  marker_lines (a +:+ String NL b) = marker_lines a + marker_lines b.
Proof. unfold marker_lines. rewrite str_split_app_sep, count_occ_app. reflexivity. Qed.

Lemma marker_lines_empty : marker_lines "" = 0.
Proof. reflexivity. Qed.

Lemma marker_lines_marker : marker_lines "...." = 1.
Proof. reflexivity. Qed.

(** ** The matcher *)

Lemma last_char_app prev u v :
  last_char prev (u +:+ v) = last_char (last_char prev u) v.
Proof.
  revert prev. induction u as [|c u IH]; intros prev; [reflexivity|].
  rewrite append_cons. simpl. apply IH.
Qed.

Lemma at_bol_last_char u :
  at_bol (last_char None u) = true ->
  u = "" \/ exists u', u = u' +:+ String NL "".
Proof.
  assert (G : forall prev u, at_bol (last_char prev u) = true ->
            (u = "" /\ at_bol prev = true) \/ exists u', u = u' +:+ String NL "").
  { clear u. intros prev u. revert prev.
    induction u as [|c u IH]; intros prev H; [left; auto|].
    right. simpl in H. destruct (IH _ H) as [[-> Hc]|[u' ->]].
    - exists "". simpl in Hc. apply Ascii.eqb_eq in Hc. subst c. reflexivity.
    - exists (String c u'). reflexivity. }
  intros H. destruct (G _ _ H) as [[-> _]|?]; auto.
Qed.

Lemma at_eol_cases r :
  at_eol r = true -> r = "" \/ exists r', r = String NL r'.
Proof.
  destruct r as [|c r]; [auto|]. simpl. intros H. apply Ascii.eqb_eq in H.
  subst. right. eauto.
Qed.

Ltac lit_step H :=
  match type of H with
  | context [match ?s with EmptyString => _ | String _ _ => _ end] =>
      destruct s as [|?c ?s]; [discriminate H|]
  end;
  match type of H with
  | context [Ascii.eqb ?c ?d] =>
      destruct (Ascii.eqb_spec c d) as [->|]; [|discriminate H]
  end.

Lemma closing_sound prev s g :
  re_match closing prev s = Some g ->
  exists r, s = String NL ("...." +:+ r) /\ at_eol r = true.
Proof.
  unfold closing, marker. cbn [app re_match]. intros H.
  do 5 lit_step H.
  destruct (at_eol s) eqn:E; [|discriminate H].
  exists s. split; [reflexivity|exact E].
Qed.

Lemma closing_complete prev r :
  at_eol r = true -> re_match closing prev (String NL ("...." +:+ r)) = Some "".
Proof.
  intros E. unfold closing, marker. cbn [app re_match].
  change ("...." +:+ r) with (String "." (String "." (String "." (String "." r)))).
  cbn [Ascii.eqb Bool.eqb]. rewrite !Ascii.eqb_refl, E. reflexivity.
Qed.

Lemma lazy_any_sound k prev s g :
  lazy_any k prev s = Some g ->
  exists r x, s = g +:+ r /\ k (last_char prev g) r = Some x.
Proof.
  revert prev g. induction s as [|c s IH]; intros prev g; simpl.
  - destruct (k prev "") eqn:E; [|discriminate].
    intros [= <-]. exists "", s. auto.
  - destruct (k prev (String c s)) eqn:E.
    + intros [= <-]. exists (String c s), s0. auto.
    + destruct (lazy_any k (Some c) s) eqn:L; [|discriminate].
      intros [= <-]. destruct (IH _ _ L) as (r & x & -> & Hk).
      exists r, x. auto.
Qed.

Lemma lazy_any_complete k prev g r x :
  (forall g1 g2, g = g1 +:+ g2 -> g2 <> "" ->
                 k (last_char prev g1) (g2 +:+ r) = None) ->
  k (last_char prev g) r = Some x ->
  lazy_any k prev (g +:+ r) = Some g.
Proof.
  revert prev. induction g as [|c g IH]; intros prev Hmin Hk.
  - rewrite append_nil. simpl in Hk. destruct r; simpl; rewrite Hk; reflexivity.
  - rewrite append_cons. simpl.
    pose proof (Hmin "" (String c g) eq_refl ltac:(discriminate)) as H0.
    simpl in H0. rewrite append_cons in H0. rewrite H0.
    rewrite (IH (Some c)); [reflexivity| |exact Hk].
    intros g1 g2 -> Hne. apply (Hmin (String c g1) g2); [reflexivity|exact Hne].
Qed.

Lemma wave_pattern_sound prev s g :
  re_match wave_pattern prev s = Some g ->
  at_bol prev = true /\
  exists r, s = "...." +:+ String NL (g +:+ String NL ("...." +:+ r)) /\
            at_eol r = true.
Proof.
  change wave_pattern with
    ([BOL; Lit "."; Lit "."; Lit "."; Lit "."; Lit NL; LazyAnyGroup] ++ closing).
  cbn [app re_match]. intros H.
  destruct (at_bol prev) eqn:B; [|discriminate H]. split; [reflexivity|].
  do 5 lit_step H.
  apply lazy_any_sound in H. destruct H as (r & x & -> & Hk).
  apply (closing_sound _ _ x) in Hk. destruct Hk as (r' & -> & E).
  exists r'. split; [reflexivity|exact E].
Qed.

Lemma wave_pattern_complete prev g r :
  at_bol prev = true -> at_eol r = true ->
  (forall g1 g2 r', g = g1 +:+ g2 -> g2 <> "" -> at_eol r' = true ->
                    g2 +:+ String NL ("...." +:+ r) <> String NL ("...." +:+ r')) ->
  re_match wave_pattern prev
    ("...." +:+ String NL (g +:+ String NL ("...." +:+ r))) = Some g.
Proof.
  intros B E Hmin.
  change wave_pattern with
    ([BOL; Lit "."; Lit "."; Lit "."; Lit "."; Lit NL; LazyAnyGroup] ++ closing).
  cbn [app re_match]. rewrite B.
  change ("...." +:+ ?x) with (String "." (String "." (String "." (String "." x)))).
  cbn [Ascii.eqb Bool.eqb]. rewrite !Ascii.eqb_refl.
  apply (lazy_any_complete _ _ g _ "").
  - intros g1 g2 -> Hne.
    destruct (re_match _ _ _) eqn:K; [|reflexivity].
    apply closing_sound in K. destruct K as (r' & K & E').
    destruct (Hmin g1 g2 r' eq_refl Hne E'). exact K.
  - apply (closing_complete _ r E).
Qed.

Lemma re_search_sound items prev s g :
  re_search items prev s = Some g ->
  exists u v, s = u +:+ v /\ re_match items (last_char prev u) v = Some g.
Proof.
  revert prev. induction s as [|c s IH]; intros prev; simpl.
  - destruct (re_match items prev "") eqn:E; [|discriminate].
    intros [= <-]. exists "", "". auto.
  - destruct (re_match items prev (String c s)) eqn:E.
    + intros [= <-]. exists "", (String c s). auto.
    + intros H. destruct (IH _ H) as (u & v & -> & Hm).
      exists (String c u), v. auto.
Qed.

Lemma re_search_skip items prev u v :
  (forall u1 u2, u = u1 +:+ u2 -> u2 <> "" ->
                 re_match items (last_char prev u1) (u2 +:+ v) = None) ->
  re_search items prev (u +:+ v) = re_search items (last_char prev u) v.
Proof.
  revert prev. induction u as [|c u IH]; intros prev Hno; [reflexivity|].
  rewrite append_cons. simpl.
  pose proof (Hno "" (String c u) eq_refl ltac:(discriminate)) as H0.
  simpl in H0. rewrite append_cons in H0. rewrite H0.
  apply IH. intros u1 u2 -> Hne.
  apply (Hno (String c u1) u2); [reflexivity|exact Hne].
Qed.

Lemma re_search_here items prev s g :
  re_match items prev s = Some g -> re_search items prev s = Some g.
Proof. intros H. destruct s; simpl; rewrite H; reflexivity. Qed.

(** ** Counting marker lines around a match *)

Lemma line_end_bol u : line_end u -> at_bol (last_char None u) = true.
Proof.
  intros [->|[u' ->]]; [reflexivity|].
  rewrite last_char_app. reflexivity.
Qed.

Lemma marker_lines_after u x :
  line_end u -> marker_lines (u +:+ x) = marker_lines u + marker_lines x.
Proof.
  intros [->|[u' ->]]; [reflexivity|].
  rewrite append_assoc, append_cons, append_nil, !marker_lines_app_nl.
  rewrite marker_lines_empty. lia.
Qed.

Lemma marker_lines_before x r :
  at_eol r = true -> marker_lines (x +:+ r) = marker_lines x + marker_lines r.
Proof.
  intros E. destruct (at_eol_cases r E) as [->|[r' ->]].
  - rewrite append_empty_r, marker_lines_empty. lia.
  - rewrite marker_lines_app_nl.
    change (String NL r') with ("" +:+ String NL r').
    rewrite (marker_lines_app_nl "" r'), marker_lines_empty. lia.
Qed.

Lemma marker_lines_framed u g r :
  line_end u -> at_eol r = true ->
  marker_lines (u +:+ "...." +:+ String NL (g +:+ String NL ("...." +:+ r))) =
  marker_lines u + marker_lines g + marker_lines r + 2.
Proof.
  intros Hu Hr. rewrite (marker_lines_after _ _ Hu), !marker_lines_app_nl.
  rewrite (marker_lines_before _ _ Hr), marker_lines_marker. lia.
Qed.

(** A text that begins with the marker, cut at a newline. *)
Lemma marker_prefix t z y :
  t +:+ String NL z = "...." +:+ y ->
  exists t', t = "...." +:+ t' /\ y = t' +:+ String NL z.
Proof.
  intros H.
  do 4 (destruct t as [|? t];
        [rewrite append_nil in H; discriminate H|];
        rewrite append_cons in H; injection H as -> H).
  exists t. split; [reflexivity|]. symmetry. exact H.
Qed.

(** Such a text holds a marker line as soon as the marker is followed
    by the end of a line. *)
Lemma marker_prefix_line t z y :
  t +:+ String NL z = "...." +:+ y -> at_eol y = true ->
  1 <= marker_lines t.
Proof.
  intros H E. destruct (marker_prefix _ _ _ H) as (t' & -> & ->).
  destruct t' as [|c t'].
  - rewrite append_empty_r, marker_lines_marker. lia.
  - rewrite append_cons in E. simpl in E. apply Ascii.eqb_eq in E. subst c.
    rewrite marker_lines_app_nl, marker_lines_marker. lia.
Qed.

Lemma suffix_of_line u1 u2 p :
  u1 +:+ u2 = p +:+ String NL "" -> u2 <> "" ->
  exists u2', u2 = u2' +:+ String NL "" /\ p = u1 +:+ u2'.
Proof.
  revert p. induction u1 as [|c u1 IH]; intros p H Hne.
  - rewrite append_nil in H. exists p. auto.
  - destruct p as [|c' p].
    + rewrite append_cons, append_nil in H. injection H as _ H.
      destruct u1; [|discriminate H]. rewrite append_nil in H. contradiction.
    + rewrite !append_cons in H. injection H as -> H.
      destruct (IH _ H Hne) as (u2' & -> & ->). exists u2'. auto.
Qed.

(** ** Extraction *)

Lemma wave_extract_Some content g :
  wave_extract content = Some g ->
  exists u r, line_end u /\ at_eol r = true /\
    content = u +:+ "...." +:+ String NL (g +:+ String NL ("...." +:+ r)).
Proof.
  intros H. apply re_search_sound in H. destruct H as (u & v & -> & Hm).
  apply wave_pattern_sound in Hm. destruct Hm as (B & r & -> & E).
  exists u, r. split; [|auto].
  destruct (at_bol_last_char _ B) as [->|[u' ->]]; [left|right]; eauto.
Qed.

Lemma wave_extract_few_markers content :
  marker_lines content <= 1 -> wave_extract content = None.
Proof.
  intros Hle. destruct (wave_extract content) as [g|] eqn:E; [|reflexivity].
  apply wave_extract_Some in E. destruct E as (u & r & Hu & Hr & ->).
  rewrite (marker_lines_framed _ _ _ Hu Hr) in Hle. lia.
Qed.

Lemma wave_extract_two_markers pre X post :
  line_end pre -> at_eol post = true ->
  marker_lines
    (pre +:+ "...." +:+ String NL (X +:+ String NL ("...." +:+ post))) = 2 ->
  wave_extract
    (pre +:+ "...." +:+ String NL (X +:+ String NL ("...." +:+ post))) = Some X.
Proof.
  intros Hpre Hpost Hml.
  rewrite (marker_lines_framed _ _ _ Hpre Hpost) in Hml.
  unfold wave_extract. rewrite re_search_skip.
  - apply re_search_here, wave_pattern_complete;
      [apply line_end_bol, Hpre|exact Hpost|].
    intros g1 g2 r' -> Hne Er' Heq.
    destruct g2 as [|c g2]; [contradiction|].
    rewrite append_cons in Heq. injection Heq as -> Heq.
    pose proof (marker_prefix_line _ _ _ Heq Er') as H1.
    rewrite marker_lines_app_nl in Hml. lia.
  - intros u1 u2 -> Hne.
    destruct (re_match _ _ _) as [g|] eqn:Hm; [|reflexivity]. exfalso.
    apply wave_pattern_sound in Hm. destruct Hm as (B & r & Heq & Er).
    destruct Hpre as [Hpre|[p Hpre]].
    + destruct u1; [|discriminate Hpre]. rewrite append_nil in Hpre. contradiction.
    + destruct (suffix_of_line _ _ _ Hpre Hne) as (u2' & -> & ->).
      rewrite append_assoc, append_cons, append_nil in Heq.
      assert (E1 : at_eol (String NL (g +:+ String NL ("...." +:+ r))) = true)
        by reflexivity.
      pose proof (marker_prefix_line _ _ _ Heq E1) as H1.
      assert (Hu1 : line_end u1).
      { destruct (at_bol_last_char _ B) as [->|[u' ->]]; [left|right]; eauto. }
      rewrite Hpre, marker_lines_app_nl, (marker_lines_after _ _ Hu1) in Hml.
      lia.
Qed.

Lemma wave_extract_adjacent_markers :
  wave_extract ("...." +:+ String NL "....") = None.
Proof. reflexivity. Qed.

(** Reading a field of an updated world. *)
Lemma OPTIONS_set_OPTIONS v w : OPTIONS (set_OPTIONS v w) = v.
Proof. reflexivity. Qed.

Lemma fs_set_OPTIONS v w : fs (set_OPTIONS v w) = fs w.
Proof. reflexivity. Qed.

Lemma environ_set_OPTIONS v w : environ (set_OPTIONS v w) = environ w.
Proof. reflexivity. Qed.

Lemma cwd_set_OPTIONS v w : cwd (set_OPTIONS v w) = cwd w.
Proof. reflexivity. Qed.

Lemma procs_set_OPTIONS v w : procs (set_OPTIONS v w) = procs w.
Proof. reflexivity. Qed.

Lemma printed_set_OPTIONS v w : printed (set_OPTIONS v w) = printed w.
Proof. reflexivity. Qed.

Lemma OPTIONS_set_fs v w : OPTIONS (set_fs v w) = OPTIONS w.
Proof. reflexivity. Qed.

Lemma fs_set_fs v w : fs (set_fs v w) = v.
Proof. reflexivity. Qed.

Lemma environ_set_fs v w : environ (set_fs v w) = environ w.
Proof. reflexivity. Qed.

Lemma cwd_set_fs v w : cwd (set_fs v w) = cwd w.
Proof. reflexivity. Qed.

Lemma procs_set_fs v w : procs (set_fs v w) = procs w.
Proof. reflexivity. Qed.

Lemma printed_set_fs v w : printed (set_fs v w) = printed w.
Proof. reflexivity. Qed.

Lemma OPTIONS_set_cwd v w : OPTIONS (set_cwd v w) = OPTIONS w.
Proof. reflexivity. Qed.

Lemma fs_set_cwd v w : fs (set_cwd v w) = fs w.
Proof. reflexivity. Qed.

Lemma environ_set_cwd v w : environ (set_cwd v w) = environ w.
Proof. reflexivity. Qed.

Lemma cwd_set_cwd v w : cwd (set_cwd v w) = v.
Proof. reflexivity. Qed.

Lemma procs_set_cwd v w : procs (set_cwd v w) = procs w.
Proof. reflexivity. Qed.

Lemma printed_set_cwd v w : printed (set_cwd v w) = printed w.
Proof. reflexivity. Qed.

Lemma OPTIONS_set_procs v w : OPTIONS (set_procs v w) = OPTIONS w.
Proof. reflexivity. Qed.

Lemma fs_set_procs v w : fs (set_procs v w) = fs w.
Proof. reflexivity. Qed.

Lemma environ_set_procs v w : environ (set_procs v w) = environ w.
Proof. reflexivity. Qed.

Lemma cwd_set_procs v w : cwd (set_procs v w) = cwd w.
Proof. reflexivity. Qed.

Lemma procs_set_procs v w : procs (set_procs v w) = v.
Proof. reflexivity. Qed.

Lemma printed_set_procs v w : printed (set_procs v w) = printed w.
Proof. reflexivity. Qed.

Lemma OPTIONS_set_printed v w : OPTIONS (set_printed v w) = OPTIONS w.
Proof. reflexivity. Qed.

Lemma fs_set_printed v w : fs (set_printed v w) = fs w.
Proof. reflexivity. Qed.

Lemma environ_set_printed v w : environ (set_printed v w) = environ w.
Proof. reflexivity. Qed.

Lemma cwd_set_printed v w : cwd (set_printed v w) = cwd w.
Proof. reflexivity. Qed.

Lemma procs_set_printed v w : procs (set_printed v w) = procs w.
Proof. reflexivity. Qed.

Lemma printed_set_printed v w : printed (set_printed v w) = v.
Proof. reflexivity. Qed.

Ltac world_simpl :=
  cbv beta;
  repeat (progress (rewrite ?OPTIONS_set_OPTIONS, ?fs_set_OPTIONS, ?environ_set_OPTIONS, ?cwd_set_OPTIONS,
    ?procs_set_OPTIONS, ?printed_set_OPTIONS, ?OPTIONS_set_fs, ?fs_set_fs,
    ?environ_set_fs, ?cwd_set_fs, ?procs_set_fs, ?printed_set_fs,
    ?OPTIONS_set_cwd, ?fs_set_cwd, ?environ_set_cwd, ?cwd_set_cwd,
    ?procs_set_cwd, ?printed_set_cwd, ?OPTIONS_set_procs, ?fs_set_procs,
    ?environ_set_procs, ?cwd_set_procs, ?procs_set_procs, ?printed_set_procs,
    ?OPTIONS_set_printed, ?fs_set_printed, ?environ_set_printed, ?cwd_set_printed,
    ?procs_set_printed, ?printed_set_printed)).

(** ** Diagram regeneration *)

Lemma mkstemp_inner_fresh n seq files suffix name :
  mkstemp_inner n seq files suffix = Some name ->
  files !! name = None /\ exists k, name = mkstemp h k +:+ suffix.
Proof.
  revert seq. induction n as [|n IH]; intros seq; simpl; [discriminate|].
  destruct (files !! (mkstemp h seq +:+ suffix)) eqn:E.
  - apply IH.
  - intros [= <-]. eauto.
Qed.

Lemma length_append (a b : string) :
  String.length (a +:+ b) = String.length a + String.length b.
Proof.
  induction a as [|x a IH]; [reflexivity|].
  rewrite append_cons. simpl. rewrite IH. reflexivity.
Qed.

Lemma append_same_length a b s t :
  String.length s = String.length t -> a +:+ s = b +:+ t -> s = t.
Proof.
  intros Hl. revert b. induction a as [|x a IH]; intros b H.
  - rewrite append_nil in H. destruct b as [|y b].
    + rewrite append_nil in H. exact H.
    + exfalso. subst s. rewrite append_cons in Hl. simpl in Hl.
      rewrite length_append in Hl. lia.
  - destruct b as [|y b].
    + exfalso. rewrite append_nil in H. subst t.
      rewrite append_cons in Hl. simpl in Hl.
      rewrite length_append in Hl. lia.
    + rewrite !append_cons in H. injection H as _ H. apply (IH _ H).
Qed.

Lemma with_suffix_name_ends p suffix :
  exists stem, with_suffix_name p suffix = stem +:+ suffix.
Proof. unfold with_suffix_name. eauto. Qed.

(** A temporary [.edn] file is never the image of a diagram. *)
Lemma tmp_is_not_svg k svg_path edn_file :
  mkstemp h k +:+ ".edn" <> svg_file_of svg_path edn_file.
Proof.
  unfold svg_file_of. destruct (with_suffix_name_ends edn_file ".svg") as (stem & ->).
  rewrite <- !append_assoc. intros H.
  apply append_same_length in H; [discriminate H|reflexivity].
Qed.

(** What one round of the loop does to the world. *)
Lemma update_wave_file_effect self svg_path edn_file w r w' :
  update_wave_file self svg_path edn_file w = (r, w') ->
  OPTIONS w' = OPTIONS w /\
  match r with
  | Ok _ =>
      exists content X tmp,
        read_file edn_file w = (Ok content, w) /\
        wave_extract content = Some X /\
        fs w !! tmp = None /\ tmp <> svg_file_of svg_path edn_file /\
        fs w' = delete tmp (<[svg_file_of svg_path edn_file := File (wavedrom h X)]>
                              (<[tmp := File X]> (fs w)))
  | Raise e =>
      e = SystemExit 1 /\
      (fs w' = fs w \/
       exists X tmp, fs w !! tmp = None /\ fs w' = <[tmp := File X]> (fs w))
  end.
Proof.
  unfold update_wave_file, try_except. unfold bind at 1.
  destruct (read_file edn_file w) as [[content|e] w1] eqn:R.
  - assert (w1 = w) as ->.
    { unfold read_file, bind, get in R.
      destruct (fs w !! edn_file) as [[|c|t]|]; try (injection R; auto).
      destruct (fs w !! t) as [[|c|t']|]; injection R; auto. }
    destruct (wave_extract content) as [X|] eqn:W.
    + unfold bind at 1. unfold write_temporary_file at 1. unfold bind at 1, get at 1.
      destruct (mkstemp_inner TMP_MAX 0 (fs w) ".edn") as [tmp|] eqn:T.
      * destruct (mkstemp_inner_fresh _ _ _ _ _ T) as (Hfresh & k & Hk).
        unfold subprocess_run, unlink, error, log.
        unfold modify, bind, get, ret, raise. world_simpl.
        destruct (spawn h _ _) as [out| err|]; world_simpl.
        -- assert (L : exists c, <[svg_file_of svg_path edn_file:=File (wavedrom h X)]>
                         (<[tmp:=File X]> (fs w)) !! tmp = Some (File c)).
           { destruct (decide (svg_file_of svg_path edn_file = tmp)) as [->|Hne].
             - rewrite lookup_insert_eq. eauto.
             - rewrite lookup_insert_ne, lookup_insert_eq by exact Hne. eauto. }
           destruct L as (c & ->). cbn [is_Exception].
           intros [= <- <-]. split; [reflexivity|].
           exists content, X, tmp. repeat split; try assumption.
           subst tmp. apply tmp_is_not_svg.
        -- cbn [is_Exception]. intros [= <- <-]. split; [reflexivity|].
           split; [reflexivity|]. right. exists X, tmp. auto.
        -- cbn [is_Exception]. intros [= <- <-]. split; [reflexivity|].
           split; [reflexivity|]. right. exists X, tmp. auto.
      * unfold raise, error, log, modify, bind. cbn [is_Exception].
        intros [= <- <-]. split; [reflexivity|]. split; [reflexivity|]. left. reflexivity.
    + unfold error, log, modify, bind, raise. cbn [is_Exception].
      intros [= <- <-]. split; [reflexivity|]. split; [reflexivity|]. left. reflexivity.
  - assert (w1 = w /\ is_Exception e = true /\ forall s, e <> CalledProcessError s)
      as (-> & Hex & Hncp).
    { unfold read_file, bind, get, raise, ret in R.
      destruct (fs w !! edn_file) as [[|c|t]|]; try (injection R as <- <-; auto; fail);
        try discriminate R.
      destruct (fs w !! t) as [[|c|t']|]; try discriminate R;
        injection R as <- <-; auto. }
    destruct e; try discriminate Hex; try (destruct (Hncp _ eq_refl));
      unfold error, log, modify, bind, raise; cbn [is_Exception];
      intros [= <- <-]; (split; [reflexivity|]; split; [reflexivity|]; left; reflexivity).
Qed.


Lemma for_each_app {A S} (l1 l2 : list A) (body : A -> S -> M S) s w s1 w1 :
  for_each l1 body s w = (Ok s1, w1) ->
  for_each (l1 ++ l2) body s w = for_each l2 body s1 w1.
Proof.
  revert s w. induction l1 as [|x l1 IH]; intros s w; simpl.
  - unfold ret. intros [= <- <-]. reflexivity.
  - unfold bind. destruct (body x s w) as [[s'|e] w'] eqn:E; [|discriminate].
    apply IH.
Qed.

Lemma update_wave_file_malformed self svg_path edn_file w content :
  read_file edn_file w = (Ok content, w) ->
  marker_lines content <= 1 ->
  update_wave_file self svg_path edn_file w =
    (Raise (SystemExit 1),
     set_printed (printed w ++
       [(ERROR, "No content found between .... markers in " +:+ edn_file)]) w).
Proof.
  intros R Hml. unfold update_wave_file, try_except. unfold bind at 1.
  rewrite R, (wave_extract_few_markers _ Hml). reflexivity.
Qed.

(** C2: when the marker line [....] occurs exactly twice in a diagram
    source, with the text [X] between the two marker lines, extraction
    returns exactly [X]; when it occurs at most once, extraction finds
    nothing, and the round of [update_wave] for that file ends the run
    with exit code 1 without having started the renderer or written any
    file. *)
Theorem C2_diagram_extraction :
  (forall pre X post,
     line_end pre -> at_eol post = true ->
     marker_lines
       (pre +:+ "...." +:+ String NL (X +:+ String NL ("...." +:+ post))) = 2 ->
     wave_extract
       (pre +:+ "...." +:+ String NL (X +:+ String NL ("...." +:+ post))) = Some X) /\
  (forall content,
     marker_lines content <= 1 ->
     wave_extract content = None /\
     forall self svg_path edn_file w,
       read_file edn_file w = (Ok content, w) ->
       exists w',
         update_wave_file self svg_path edn_file w = (Raise (SystemExit 1), w') /\
         fs w' = fs w /\ procs w' = procs w).
Proof.
  split.
  - apply wave_extract_two_markers.
  - intros content Hml. split; [apply wave_extract_few_markers, Hml|].
    intros self svg_path edn_file w R. eexists. split.
    + apply (update_wave_file_malformed _ _ _ _ _ R Hml).
    + split; reflexivity.
Qed.

Lemma update_wave_file_writes_image self svg_path edn_file w w' :
  update_wave_file self svg_path edn_file w = (Ok tt, w') ->
  exists X, fs w' !! svg_file_of svg_path edn_file = Some (File (wavedrom h X)).
Proof.
  intros H. apply update_wave_file_effect in H.
  destruct H as (_ & content & X & tmp & _ & _ & _ & Hne & ->).
  exists X. rewrite lookup_delete_ne, lookup_insert_eq by exact Hne. reflexivity.
Qed.

Lemma update_wave_file_keeps self svg_path edn_file w r w' p :
  update_wave_file self svg_path edn_file w = (r, w') ->
  is_Some (fs w !! p) ->
  fs w' !! p = fs w !! p \/
  (p = svg_file_of svg_path edn_file /\
   exists X, fs w' !! p = Some (File (wavedrom h X))).
Proof.
  intros H [n Hp]. apply update_wave_file_effect in H. destruct H as (_ & H).
  destruct r as [[]|e].
  - destruct H as (content & X & tmp & _ & _ & Hfresh & Hne & ->).
    assert (tmp <> p) by congruence.
    rewrite lookup_delete_ne by assumption.
    destruct (decide (svg_file_of svg_path edn_file = p)) as [<-|Hsvg].
    + right. split; [reflexivity|]. rewrite lookup_insert_eq. eauto.
    + left. rewrite !lookup_insert_ne by assumption. reflexivity.
  - destruct H as (_ & [->|(X & tmp & Hfresh & ->)]); [left; reflexivity|].
    left. rewrite lookup_insert_ne by congruence. reflexivity.
Qed.

Lemma update_wave_file_raises self svg_path edn_file w e w' p :
  update_wave_file self svg_path edn_file w = (Raise e, w') ->
  is_Some (fs w !! p) -> fs w' !! p = fs w !! p.
Proof.
  intros H [n Hp]. apply update_wave_file_effect in H.
  destruct H as (_ & _ & [->|(X & tmp & Hfresh & ->)]); [reflexivity|].
  rewrite lookup_insert_ne by congruence. reflexivity.
Qed.

(** An image that has been written is still one after any number of
    further rounds, whether they end well or not. *)
Lemma update_wave_files_keep_image self svg_path files w r w' p X :
  update_wave_files self svg_path files w = (r, w') ->
  fs w !! p = Some (File (wavedrom h X)) ->
  exists X', fs w' !! p = Some (File (wavedrom h X')).
Proof.
  unfold update_wave_files. revert w X.
  induction files as [|f files IH]; intros w X; simpl.
  - unfold ret. intros [= <- <-]. eauto.
  - unfold bind. destruct (update_wave_file self svg_path f w) as [[[]|e] w1] eqn:E;
      intros H Hp.
    + destruct (update_wave_file_keeps _ _ _ _ _ _ p E) as [K|[_ [X' K]]];
        [rewrite Hp; eauto| |]; [rewrite Hp in K|]; eapply IH; eauto.
    + injection H as <- <-.
      rewrite (update_wave_file_raises _ _ _ _ _ _ p E), Hp by (rewrite Hp; eauto).
      eauto.
Qed.

Lemma update_wave_files_images self svg_path files w w' :
  update_wave_files self svg_path files w = (Ok tt, w') ->
  forall g, g ∈ files ->
    exists X, fs w' !! svg_file_of svg_path g = Some (File (wavedrom h X)).
Proof.
  unfold update_wave_files. revert w.
  induction files as [|f files IH]; intros w H g Hg.
  - apply elem_of_nil in Hg. destruct Hg.
  - simpl in H. unfold bind in H.
    destruct (update_wave_file self svg_path f w) as [[[]|e] w1] eqn:E;
      [|discriminate H].
    apply elem_of_cons in Hg. destruct Hg as [->|Hg].
    + destruct (update_wave_file_writes_image _ _ _ _ _ E) as (X & HX).
      apply (update_wave_files_keep_image self svg_path files w1 (Ok tt) w' _ X H HX).
    + apply (IH w1 H g Hg).
Qed.

(** The loop stops at the first round that fails. *)
Lemma update_wave_files_stop self svg_path done f rest w w1 e w2 :
  update_wave_files self svg_path done w = (Ok tt, w1) ->
  update_wave_file self svg_path f w1 = (Raise e, w2) ->
  update_wave_files self svg_path (done ++ f :: rest) w = (Raise e, w2).
Proof.
  intros Hdone Hfail.
  unfold update_wave_files in *. rewrite (for_each_app _ _ _ _ _ _ _ Hdone).
  simpl. unfold bind. rewrite Hfail. reflexivity.
Qed.

(** C10: the diagram sources are treated one after the other, in the
    order of the directory listing.  When the round of one file fails
    after the rounds of the files before it went well, [update_wave]
    stops there with exit code 1; the images of the earlier files are on
    disk, no existing file has been changed by the failing round (nothing
    is rolled back), and the failing file and the files after it get no
    image from this run: the world the run ends in is the one the failing
    round left. *)
Theorem C10_regeneration_is_not_atomic
    self deps w self1 w1 done f rest w2 e w3 :
  let svg_path := ROOT_PATH h +:+ "/assets/images/wavedrom/svg" in
  let edn_files :=
    glob h (fs w1) (ROOT_PATH h +:+ "/assets/images/wavedrom/edn") "*.edn" in
  _setup_node_environment self (dep_node deps)
    (snd (debug (verbose self) "Updating wave..." w)) = (Ok (self1, true), w1) ->
  edn_files = done ++ f :: rest ->
  update_wave_files self1 svg_path done
    (snd (debug (verbose self1)
            ("Extracting content from " +:+ pretty (length edn_files) +:+ " files")
            w1)) = (Ok tt, w2) ->
  update_wave_file self1 svg_path f w2 = (Raise e, w3) ->
  update_wave self deps w = (Raise e, w3) /\
  e = SystemExit 1 /\
  (forall g, g ∈ done ->
     exists X, fs w3 !! svg_file_of svg_path g = Some (File (wavedrom h X))) /\
  (forall p, is_Some (fs w2 !! p) -> fs w3 !! p = fs w2 !! p).
Proof.
  intros svg_path edn_files Hnode Hglob Hdone Hfail.
  split; [|split; [|split]].
  - unfold update_wave. unfold bind at 1.
    destruct (debug (verbose self) "Updating wave..." w) as [[[]|e0] wa] eqn:D;
      [|destruct (verbose self); discriminate D].
    simpl in Hnode. unfold bind at 1. rewrite Hnode. cbn [negb].
    unfold bind at 1, get at 1. unfold bind at 1.
    fold edn_files svg_path.
    destruct (debug (verbose self1) _ w1) as [[[]|e0] wb] eqn:D1;
      [|destruct (verbose self1); discriminate D1].
    simpl in Hdone. unfold bind at 1.
    rewrite Hglob, (update_wave_files_stop _ _ _ _ _ _ _ _ _ Hdone Hfail).
    reflexivity.
  - apply update_wave_file_effect in Hfail. tauto.
  - intros g Hg.
    destruct (update_wave_files_images _ _ _ _ _ Hdone g Hg) as (X & HX).
    rewrite (update_wave_file_raises _ _ _ _ _ _ _ Hfail), HX by (rewrite HX; eauto).
    eauto.
  - intros p Hp. apply (update_wave_file_raises _ _ _ _ _ _ _ Hfail Hp).
Qed.


(** ** The target selectors *)

(** C5: the selector [tags], which [parse_args] accepts and the usage
    text announces as "Build norm tags only", is not a key of
    [CONFIGS["docs"]]: the constructor raises [KeyError] before anything
    is built, whatever the other arguments are. *)
Theorem C5_tags_selector_raises_KeyError rt inc cl vb ver nv uw w :
  let a := {| release_type := rt; incremental := inc; clean := cl;
              arg_verbose := vb; arg_version := ver; node_version := nv;
              arg_update_wave := uw; target := "tags" |} in
  "tags" ∈ target_choices /\
  main a w = (Raise (KeyError "tags"), w) /\
  exit_status (fst (main a w)) = 1.
Proof.
  intros a.
  assert (E : main a w = (Raise (KeyError "tags"), w)).
  { unfold main. unfold bind at 1.
    rewrite (select_docs_raise (configure a) (arg_verbose a) w (KeyError "tags") w);
      [reflexivity|].
    vm_compute. reflexivity. }
  split; [unfold target_choices; repeat constructor|].
  split; [exact E|]. rewrite E. reflexivity.
Qed.

(** ** The package query *)

Lemma _check_package_installed_eq package w :
  let ev := Spawned (cwd w) (Exec ["dpkg"; "-s"; package]) None in
  let w' := set_procs (procs w ++ [ev]) w in
  _check_package_installed package w =
    match spawn h (procs w) ev with
    | Completed out =>
        (if utf8_valid out
         then Ok (str_in "Status: install ok installed" out)
         else Raise UnicodeDecodeError, w')
    | Failed _ => (Ok false, w')
    | NotLaunched => (Raise (FileNotFoundError "dpkg"), w')
    end.
Proof.
  intros ev w'. unfold _check_package_installed, try_except, subprocess_run, decode.
  unfold bind, get, modify, ret, raise. world_simpl. fold ev.
  destruct (spawn h (procs w) ev) as [out| |]; [|reflexivity|reflexivity].
  destruct (utf8_valid out); reflexivity.
Qed.

(** C8, as amended: the query returns [false] when [dpkg] exits with a
    non-zero status (package absent or package-manager error); when
    [dpkg] exits with status 0 and its output is well-formed UTF-8, it
    returns whether the output reports the package as installed.  It
    raises in two cases that its handler does not cover: a
    [UnicodeDecodeError] when the output of [dpkg] is not UTF-8, and the
    [FileNotFoundError] of [subprocess.run] when [dpkg] cannot be
    started.  In each case [dpkg] has been asked exactly once. *)
Theorem C8_query_is_false_on_nonzero_exit package w :
  let ev := Spawned (cwd w) (Exec ["dpkg"; "-s"; package]) None in
  let w' := set_procs (procs w ++ [ev]) w in
  (forall err, spawn h (procs w) ev = Failed err ->
     _check_package_installed package w = (Ok false, w')) /\
  (forall out, spawn h (procs w) ev = Completed out -> utf8_valid out = true ->
     _check_package_installed package w =
       (Ok (str_in "Status: install ok installed" out), w')) /\
  (forall out, spawn h (procs w) ev = Completed out -> utf8_valid out = false ->
     _check_package_installed package w = (Raise UnicodeDecodeError, w')) /\
  (spawn h (procs w) ev = NotLaunched ->
     _check_package_installed package w = (Raise (FileNotFoundError "dpkg"), w')).
Proof.
  intros ev w'. pose proof (_check_package_installed_eq package w) as E.
  cbv zeta in E. fold ev w' in E. rewrite E. clear E.
  split; [intros err ->; reflexivity|].
  split; [intros out -> ->; reflexivity|].
  split; [intros out -> ->; reflexivity|].
  intros ->. reflexivity.
Qed.


(** ** Workspaces *)

Lemma build_targs_of_eq doc w :
  build_targs_of doc w =
    match targs doc with
    | Some t => (Ok t, w)
    | None => (Raise IndexError, w)
    end.
Proof.
  unfold build_targs_of, targs.
  destruct (str_split "." doc) as [|? [|? ?]]; reflexivity.
Qed.

Lemma foldl_mkdir_if_absent_mono dirs files p :
  is_Some (files !! p) -> is_Some (foldl mkdir_if_absent files dirs !! p).
Proof.
  revert files. induction dirs as [|d dirs IH]; intros files Hp; [exact Hp|].
  simpl. apply IH. unfold mkdir_if_absent.
  destruct (files !! d); [exact Hp|].
  rewrite lookup_insert. case_decide; [eauto|exact Hp].
Qed.

Lemma insert_mono (files : gmap string node) q n p :
  is_Some (files !! p) -> is_Some (<[q := n]> files !! p).
Proof. intros Hp. rewrite lookup_insert. case_decide; [eauto|exact Hp]. Qed.

(** A round of the loop for a workspace that is already there: nothing
    is created, nothing is printed. *)
Lemma _workdir_setup_doc_present doc self w :
  is_Some (fs w !! work_path_of self doc) ->
  _workdir_setup_doc doc self w =
    match targs doc with
    | Some t =>
        (Ok (set_work_dir (<[t := work_path_of self doc]> (work_dir self)) self), w)
    | None => (Raise IndexError, w)
    end.
Proof.
  intros [n Hp]. unfold _workdir_setup_doc. fold (work_path_of self doc).
  unfold path_exists. unfold bind at 1. unfold bind at 1, get at 1.
  rewrite Hp. unfold ret at 1. cbn [negb]. unfold bind at 1, ret at 1.
  unfold bind. rewrite build_targs_of_eq.
  destruct (targs doc); reflexivity.
Qed.

(** A round of the loop that ends well leaves the workspace in place
    and removes nothing. *)
Lemma _workdir_setup_doc_Ok doc self w self' w' :
  _workdir_setup_doc doc self w = (Ok self', w') ->
  exists t,
    targs doc = Some t /\
    self' = set_work_dir (<[t := work_path_of self doc]> (work_dir self)) self /\
    is_Some (fs w' !! work_path_of self doc) /\
    (forall p, is_Some (fs w !! p) -> is_Some (fs w' !! p)).
Proof.
  destruct (fs w !! work_path_of self doc) as [n|] eqn:Hp.
  - rewrite _workdir_setup_doc_present by eauto.
    destruct (targs doc) as [t|]; [|discriminate].
    intros [= <- <-]. exists t. rewrite Hp. eauto.
  - unfold _workdir_setup_doc. fold (work_path_of self doc).
    set (wp := work_path_of self doc) in *.
    unfold path_exists. unfold bind at 1. unfold bind at 1, get at 1.
    rewrite Hp. unfold ret at 1. cbn [negb].
    unfold makedirs, symlink, debug, log.
    destruct (verbose self);
      unfold bind, get, modify, ret, raise; world_simpl; rewrite Hp; world_simpl;
      (destruct (_ !! (wp +:+ "/src")) eqn:L1; [discriminate|]); world_simpl;
      (destruct (_ !! (wp +:+ "/docs-resources")) eqn:L2; [discriminate|]);
      world_simpl;
      (destruct (_ !! (wp +:+ "/assets")) eqn:L3; [discriminate|]); world_simpl;
      rewrite build_targs_of_eq; (destruct (targs doc) as [t|]; [|discriminate]);
      intros [= <- <-]; exists t; world_simpl;
      (split; [reflexivity|]; split; [reflexivity|]; split);
      [ do 3 apply insert_mono; rewrite lookup_insert_eq; eauto
      | intros p Hq; do 4 apply insert_mono;
        apply foldl_mkdir_if_absent_mono, Hq
      | do 3 apply insert_mono; rewrite lookup_insert_eq; eauto
      | intros p Hq; do 4 apply insert_mono;
        apply foldl_mkdir_if_absent_mono, Hq ].
Qed.

Lemma work_path_of_set_work_dir m self doc :
  work_path_of (set_work_dir m self) doc = work_path_of self doc.
Proof. reflexivity. Qed.

Lemma set_work_dir_twice m1 m2 self :
  set_work_dir m1 (set_work_dir m2 self) = set_work_dir m1 self.
Proof. reflexivity. Qed.

Lemma record_work_dirs_set_work_dir m0 self docs m :
  record_work_dirs (set_work_dir m0 self) docs m = record_work_dirs self docs m.
Proof. reflexivity. Qed.

Lemma record_work_dirs_cons self d docs m :
  record_work_dirs self (d :: docs) m =
  record_work_dirs self docs
    (match targs d with
     | Some t => <[t := work_path_of self d]> m
     | None => m
     end).
Proof. reflexivity. Qed.

(** The whole pass, when it ends well. *)
Lemma _workdir_setup_pass docs self0 m w self' w' :
  for_each docs _workdir_setup_doc (set_work_dir m self0) w = (Ok self', w') ->
  self' = set_work_dir (record_work_dirs self0 docs m) self0 /\
  (forall doc, doc ∈ docs ->
     is_Some (fs w' !! work_path_of self0 doc) /\ is_Some (targs doc)) /\
  (forall p, is_Some (fs w !! p) -> is_Some (fs w' !! p)).
Proof.
  revert m w. induction docs as [|d docs IH]; intros m w; cbn [for_each].
  - unfold ret. intros [= <- <-]. split; [reflexivity|]. split; [|auto].
    intros doc Hd. apply elem_of_nil in Hd. destruct Hd.
  - unfold bind.
    destruct (_workdir_setup_doc d (set_work_dir m self0) w) as [[s1|e] w1] eqn:E;
      [|discriminate].
    apply _workdir_setup_doc_Ok in E.
    destruct E as (t & Ht & -> & Hwp & Hmono).
    rewrite set_work_dir_twice. intros H. apply IH in H.
    destruct H as (-> & Hall & Hmono').
    split; [rewrite record_work_dirs_cons, Ht; reflexivity|].
    split; [|auto].
    intros doc Hd. apply elem_of_cons in Hd. destruct Hd as [->|Hd]; [|auto].
    split; [apply Hmono', Hwp|rewrite Ht; eauto].
Qed.

(** The whole pass over workspaces that are all there. *)
Lemma _workdir_setup_pass_present docs self0 m w :
  (forall doc, doc ∈ docs ->
     is_Some (fs w !! work_path_of self0 doc) /\ is_Some (targs doc)) ->
  for_each docs _workdir_setup_doc (set_work_dir m self0) w =
    (Ok (set_work_dir (record_work_dirs self0 docs m) self0), w).
Proof.
  revert m. induction docs as [|d docs IH]; intros m Hall; [reflexivity|].
  cbn [for_each]. unfold bind.
  destruct (Hall d) as (Hp & t & Ht); [constructor|].
  rewrite _workdir_setup_doc_present by exact Hp. rewrite Ht.
  rewrite set_work_dir_twice, IH.
  - rewrite record_work_dirs_cons, Ht. reflexivity.
  - intros doc Hd. apply Hall. constructor. exact Hd.
Qed.

(** Keys that a pass assigns do not depend on what was there before. *)
Lemma record_work_dirs_lookup self docs m k :
  record_work_dirs self docs m !! k = m !! k \/
  exists doc, doc ∈ docs /\ targs doc = Some k.
Proof.
  revert m. induction docs as [|d docs IH]; intros m; [left; reflexivity|].
  rewrite record_work_dirs_cons.
  destruct (IH (match targs d with
                | Some t => <[t:=work_path_of self d]> m
                | None => m
                end)) as [E|(doc & Hd & Ht)].
  - rewrite E. destruct (targs d) as [t|] eqn:Ht; [|left; reflexivity].
    destruct (decide (t = k)) as [->|Hne].
    + right. exists d. split; [constructor|exact Ht].
    + left. apply lookup_insert_ne, Hne.
  - right. exists doc. split; [constructor; exact Hd|exact Ht].
Qed.

Lemma record_work_dirs_agree self docs m m' :
  (forall k, m' !! k = m !! k \/ exists doc, doc ∈ docs /\ targs doc = Some k) ->
  record_work_dirs self docs m' = record_work_dirs self docs m.
Proof.
  revert m m'. induction docs as [|d docs IH]; intros m m' H.
  - apply map_eq. intros k. destruct (H k) as [E|(doc & Hd & _)]; [exact E|].
    apply elem_of_nil in Hd. destruct Hd.
  - rewrite !record_work_dirs_cons.
    apply IH. intros k.
    destruct (targs d) as [t|] eqn:Ht.
    + destruct (decide (t = k)) as [->|Hne].
      * left. rewrite !lookup_insert_eq. reflexivity.
      * rewrite !lookup_insert_ne by exact Hne.
        destruct (H k) as [E|(doc & Hd & Hk)]; [left; exact E|].
        apply elem_of_cons in Hd. destruct Hd as [->|Hd]; [congruence|].
        right. eauto.
    + destruct (H k) as [E|(doc & Hd & Hk)]; [left; exact E|].
      apply elem_of_cons in Hd. destruct Hd as [->|Hd]; [congruence|].
      right. eauto.
Qed.

Lemma record_work_dirs_idempotent self docs m :
  record_work_dirs self docs (record_work_dirs self docs m) =
  record_work_dirs self docs m.
Proof. apply record_work_dirs_agree. intros k. apply record_work_dirs_lookup. Qed.

Lemma set_work_dir_same self : set_work_dir (work_dir self) self = self.
Proof. destruct self. reflexivity. Qed.

(** C6: when [_workdir_setup] has run without error, running it again
    on the workspaces it left raises no error and changes nothing: no
    directory or link is created, nothing is printed, and the builder
    holds the same workspace paths. *)
Theorem C6_workdir_setup_is_idempotent self w self1 w1 :
  _workdir_setup self w = (Ok self1, w1) ->
  _workdir_setup self1 w1 = (Ok self1, w1).
Proof.
  unfold _workdir_setup. intros H.
  rewrite <- (set_work_dir_same self) in H at 2.
  apply _workdir_setup_pass in H. destruct H as (-> & Hall & _).
  cbn [docs set_work_dir].
  rewrite (_workdir_setup_pass_present (docs self) self _ w1 Hall).
  rewrite record_work_dirs_idempotent. reflexivity.
Qed.


(** ** Builds *)

Lemma build_command_cases self t w :
  (exists e, build_command self t w = (Raise e, w) /\ is_Exception e = true) \/
  (exists c, build_command self t w = (Ok c, w)).
Proof.
  unfold build_command, subscript, bind, get, ret, raise.
  destruct (build_cmd self !! t); [|left; eauto].
  destruct (ruby_require self); [right; eauto|left; eauto].
Qed.

Lemma build_command_OPTIONS self t w w2 c :
  OPTIONS w2 = OPTIONS w ->
  build_command self t w = (Ok c, w) -> build_command self t w2 = (Ok c, w2).
Proof.
  intros HO. unfold build_command, subscript, bind, get, ret, raise.
  destruct (build_cmd self !! t); [|discriminate].
  destruct (options self). unfold deref. rewrite HO.
  destruct (ruby_require self); [|discriminate].
  intros [= <-]. reflexivity.
Qed.

Lemma is_build_of_OPTIONS self w w2 t ev :
  OPTIONS w2 = OPTIONS w -> is_build_of self w t ev -> is_build_of self w2 t ev.
Proof.
  intros HO (c & Hc & Hcmd & Henv). exists c.
  split; [apply (build_command_OPTIONS _ _ _ _ _ HO Hc)|auto].
Qed.

Lemma rendered_fields t c w :
  OPTIONS (rendered t c w) = OPTIONS w /\ procs (rendered t c w) = procs w /\
  cwd (rendered t c w) = cwd w /\ printed (rendered t c w) = printed w.
Proof. unfold rendered. destruct (cfg_docs CONFIGS !! t); auto. Qed.

(** The renderer is started exactly once; a failure leaves the files as
    they were. *)
Lemma run_renderer_effect self t c w r w' :
  run_renderer self t c w = (r, w') ->
  OPTIONS w' = OPTIONS w /\
  procs w' = procs w ++ [Spawned (cwd w) (Shell c) (Some (env self))] /\
  match r with
  | Ok _ => True
  | Raise e => (e = SystemExit 1 \/ is_Exception e = true) /\ fs w' = fs w
  end.
Proof.
  unfold run_renderer, info, debug, success, error, log, try_except, subprocess_run.
  destruct (verbose self); unfold bind, get, modify, ret, raise; world_simpl;
    (destruct (spawn h _ _) as [out|err|]; world_simpl;
     [ match goal with
       | |- context [rendered t c ?x] =>
           destruct (rendered_fields t c x) as (R1 & R2 & _ & _)
       end
     | try (destruct err as [|? err]; cbn [captured nonempty decode];
            unfold raise, ret; world_simpl)
     | ]);
    intros [= <- <-]; world_simpl; rewrite ?R1, ?R2; world_simpl;
    repeat split; auto.
Qed.

(** What one build does: it either fails before the renderer is
    started, or starts it exactly once. *)
Lemma build_for_all_effect self t w r w' :
  build_for_all self t w = (r, w') ->
  OPTIONS w' = OPTIONS w /\
  ((procs w' = procs w /\ fs w' = fs w /\
    exists e, r = Raise e /\ is_Exception e = true) \/
   (exists ev, procs w' = procs w ++ [ev] /\ is_build_of self w t ev /\
      match r with
      | Ok _ => True
      | Raise e => (e = SystemExit 1 \/ is_Exception e = true) /\ fs w' = fs w
      end)).
Proof.
  unfold build_for_all. unfold bind at 1.
  destruct (build_command_cases self t w) as [(e & -> & He)|(c & Hc)].
  { intros [= <- <-]. split; [reflexivity|]. left. eauto. }
  rewrite Hc. unfold bind at 1, subscript at 1.
  destruct (work_dir self !! t) as [wd|];
    [|unfold raise; intros [= <- <-]; split; [reflexivity|]; left; eauto 6].
  unfold ret at 1. unfold bind at 1, chdir at 1. unfold bind at 1, get at 1.
  assert (Hgo : forall w1, OPTIONS w1 = OPTIONS w -> procs w1 = procs w ->
                  fs w1 = fs w -> run_renderer self t c w1 = (r, w') ->
                  OPTIONS w' = OPTIONS w /\
                  (exists ev, procs w' = procs w ++ [ev] /\ is_build_of self w t ev /\
                     match r with
                     | Ok _ => True
                     | Raise e => (e = SystemExit 1 \/ is_Exception e = true) /\
                                  fs w' = fs w
                     end)).
  { intros w1 HO HP HF H. apply run_renderer_effect in H.
    destruct H as (HO' & HP' & Hr). split; [congruence|].
    eexists. split; [rewrite HP', HP; reflexivity|].
    split; [exists c; split; [exact Hc|split; reflexivity]|].
    destruct r; [exact I|]. destruct Hr as (He & Hf). split; [exact He|congruence]. }
  destruct (fs w !! path_join (cwd w) wd) as [[|f|l]|];
    unfold modify, raise;
    try (intros [= <- <-]; split; [reflexivity|]; left; eauto 6; fail);
    intros H;
    destruct (Hgo (set_cwd (path_join (cwd w) wd) w) eq_refl eq_refl eq_refl H)
      as (HO & Hev);
    (split; [exact HO|right; exact Hev]).
Qed.


Lemma build_sequence_effect self ts w r w' :
  build_sequence self ts w = (r, w') ->
  OPTIONS w' = OPTIONS w /\
  (forall e, r = Raise e -> e = SystemExit 1 \/ is_Exception e = true) /\
  exists evs,
    procs w' = procs w ++ evs /\
    Forall2 (is_build_of self w) (take (length evs) ts) evs /\
    (r = Ok tt -> length evs = length ts).
Proof.
  unfold build_sequence. revert w.
  induction ts as [|t ts IH]; intros w; cbn [for_each].
  - unfold ret. intros [= <- <-]. split; [reflexivity|]. split; [discriminate|].
    exists []. rewrite app_nil_r. repeat split. constructor.
  - unfold bind. destruct (build_for_all self t w) as [[[]|e] w1] eqn:E;
      apply build_for_all_effect in E; destruct E as (HO & E).
    + destruct E as [(_ & _ & e & He & _)|(ev & HP & Hev & _)]; [discriminate He|].
      intros H. apply IH in H. destruct H as (HO' & Hr & evs & HP' & HF & Hlen).
      split; [congruence|]. split; [exact Hr|].
      exists (ev :: evs). split; [rewrite HP', HP, <- app_assoc; reflexivity|].
      split; [|intros Hok; cbn [length]; rewrite (Hlen Hok); reflexivity].
      cbn [length take]. constructor; [exact Hev|].
      eapply Forall2_impl; [exact HF|].
      intros t' ev'. apply is_build_of_OPTIONS. congruence.
    + intros [= <- <-]. split; [exact HO|].
      destruct E as [(HP & _ & e' & [= <-] & He)|(ev & HP & Hev & He & _)].
      * split; [intros ? [= <-]; auto|].
        exists []. rewrite app_nil_r. repeat split; [exact HP|constructor|discriminate].
      * split; [intros ? [= <-]; exact He|].
        exists [ev]. repeat split; [exact HP| |discriminate].
        cbn [length take]. repeat constructor. exact Hev.
Qed.

Lemma all_is_not_a_format : "all" ∉ ["pdf"; "json"; "epub"; "html"].
Proof.
  intros Hin.
  repeat (apply elem_of_cons in Hin as [Hin|Hin]; [discriminate Hin|]).
  apply elem_of_nil in Hin. exact Hin.
Qed.

(** For the selector [all], [main] runs this sequence. *)
Lemma build_requested_all self w :
  build_target self = "all" ->
  build_requested self w =
    build_sequence self ["pdf"; "epub"; "html"; "json"] w.
Proof.
  intros Ht. unfold build_requested, build_sequence. rewrite Ht.
  rewrite (bool_decide_eq_false_2 _ all_is_not_a_format).
  change ("all" =? "all")%string with true. cbn [for_each]. unfold bind.
  destruct (build_for_all self "pdf" w) as [[[]|?] w1]; [|reflexivity].
  destruct (build_for_all self "epub" w1) as [[[]|?] w2]; [|reflexivity].
  destruct (build_for_all self "html" w2) as [[[]|?] w3]; [|reflexivity].
  destruct (build_for_all self "json" w3) as [[[]|?] w4]; reflexivity.
Qed.

(** Whatever stops the builds is an exception that the handler of
    [main] turns into exit code 1, or that exit itself. *)
Lemma build_requested_raises self w e w' :
  build_requested self w = (Raise e, w') ->
  e = SystemExit 1 \/ is_Exception e = true.
Proof.
  destruct (String.eqb_spec (build_target self) "all") as [Ht|Ht].
  - rewrite (build_requested_all _ _ Ht). intros H.
    apply build_sequence_effect in H. destruct H as (_ & Hr & _). auto.
  - unfold build_requested. case_bool_decide as Hin.
    + intros H. apply build_for_all_effect in H.
      destruct H as (_ & [(_ & _ & e' & [= <-] & He)|(ev & _ & _ & He & _)]); auto.
    + rewrite (proj2 (String.eqb_neq _ _) Ht).
      unfold error, log, modify, bind, raise. intros [= <- <-]. auto.
Qed.

(** A renderer that exits with a non-zero status makes the build raise. *)
Lemma run_renderer_failed self t c w err :
  spawn h (procs w) (Spawned (cwd w) (Shell c) (Some (env self))) = Failed err ->
  exists e w', run_renderer self t c w = (Raise e, w') /\
               (e = SystemExit 1 \/ e = AttributeError).
Proof.
  intros Hs.
  unfold run_renderer, info, debug, success, error, log, try_except, subprocess_run.
  destruct (verbose self); unfold bind, get, modify, ret, raise; world_simpl;
    rewrite Hs; world_simpl;
    try (destruct err as [|? err]; cbn [captured nonempty decode];
         unfold raise, ret; world_simpl);
    eauto.
Qed.

(** C4, as amended: when a build of a run fails, [main] ends at once
    with exit code 1.  [clean_work_dir] is not reached: the files are
    left as they were when the build failed and no further process is
    started, so no artifact is promoted, not even for the targets that
    had been built before. *)
Theorem C4_failed_build_ends_run_without_finalization
    a w builder w0 builder1 w1 e w2 :
  clean a = false -> arg_update_wave a = false ->
  DocumentBuilder_init (configure a) (arg_verbose a) w = (Ok builder, w0) ->
  prepare_env builder (configure_deps a) w0 = (Ok (builder1, true), w1) ->
  build_requested builder1 w1 = (Raise e, w2) ->
  exists w3,
    main a w = (Raise (SystemExit 1), w3) /\
    fs w3 = fs w2 /\ procs w3 = procs w2 /\
    exit_status (fst (main a w)) = 1.
Proof.
  intros Hc Hu Hi Hp Hb.
  assert (E : exists w3, main a w = (Raise (SystemExit 1), w3) /\
                         fs w3 = fs w2 /\ procs w3 = procs w2).
  { unfold main. unfold bind at 1. rewrite Hi, Hc, Hu.
    unfold try_except, build_and_finalize. unfold bind at 1. rewrite Hp.
    cbn [negb]. unfold bind at 1. rewrite Hb.
    destruct (build_requested_raises _ _ _ _ Hb) as [->|He].
    - cbn [is_Exception]. eauto.
    - rewrite He. unfold error, log, modify, bind, raise. eexists.
      split; [reflexivity|]. split; reflexivity. }
  destruct E as (w3 & E & Hf & Hq). exists w3.
  repeat split; try assumption. rewrite E. reflexivity.
Qed.


(** * Further properties of the script *)

(** ** The constructor *)

(** X1: a constructor call that fails has failed on a dictionary key,
    the target or the profile, and has not touched the shared option
    list or anything else: the lookups come before the first [append]. *)
Theorem X1_init_failure_is_a_KeyError_and_changes_nothing config vb w e w' :
  DocumentBuilder_init config vb w = (Raise e, w') ->
  w' = w /\
  (e = KeyError (cfg_build_target config) \/
   e = KeyError (cfg_default_type config) \/
   (cfg_build_target config = "all" /\
    exists k, k ∈ ["json"; "pdf"; "html"; "epub"] /\ e = KeyError k)).
Proof.
  unfold DocumentBuilder_init, get. unfold bind at 1. unfold bind at 1.
  destruct (select_docs config w) as [[ds|e0] w0] eqn:D.
  - assert (w0 = w) as ->.
    { unfold select_docs, subscript, bind, ret, raise in D.
      destruct (String.eqb (cfg_build_target config) "all");
        repeat match type of D with
               | context [match ?d !! ?k with _ => _ end] => destruct (d !! k)
               end; congruence. }
    unfold bind at 1, subscript at 1.
    destruct (cfg_type_config config !! cfg_default_type config) as [tc|] eqn:T.
    + unfold list_append, modify, bind, ret, subscript.
      destruct (String.eqb (cfg_default_type config) "draft");
        cbv beta; world_simpl; rewrite T; discriminate.
    + unfold raise. intros [= <- <-]. auto.
  - intros [= <- <-].
    unfold select_docs, subscript, bind, ret, raise in D.
    destruct (String.eqb_spec (cfg_build_target config) "all") as [Ht|Ht].
    + repeat match type of D with
             | context [match ?d !! ?k with _ => _ end] => destruct (d !! k)
             end; try discriminate D; injection D as <- <-;
        (split; [reflexivity|]); right; right; (split; [exact Ht|]);
        eexists; (split; [|reflexivity]); repeat constructor.
    + destruct (cfg_docs config !! cfg_build_target config);
        [discriminate D|]. injection D as <- <-. auto.
Qed.

(** ** Extraction of the diagram text *)

Lemma later_marker_lines_app_nl a b :
  later_marker_lines (a +:+ String NL b) = later_marker_lines a + marker_lines b.
Proof.
  unfold later_marker_lines, marker_lines. rewrite str_split_app_sep.
  destruct (str_split NL a) as [|x l] eqn:E; [destruct (str_split_nonnil _ _ E)|].
  cbn [tail app]. apply count_occ_app.
Qed.

(** X2: the text extracted starts right after the first marker line and
    ends before the first marker line that stands at least two lines
    further down; marker lines below that one play no part.  The line
    directly after the opening marker line always belongs to the text,
    also when it is a marker line itself: the pattern asks for a newline
    between the text and the closing marker line. *)
Theorem X2_extraction_takes_the_first_region pre X post :
  line_end pre -> at_eol post = true ->
  marker_lines pre = 0 -> later_marker_lines X = 0 ->
  wave_extract
    (pre +:+ "...." +:+ String NL (X +:+ String NL ("...." +:+ post))) = Some X.
Proof.
  intros Hpre Hpost Hp HX.
  unfold wave_extract. rewrite re_search_skip.
  - apply re_search_here, wave_pattern_complete;
      [apply line_end_bol, Hpre|exact Hpost|].
    intros g1 g2 r' -> Hne Er' Heq.
    destruct g2 as [|c g2]; [contradiction|].
    rewrite append_cons in Heq. injection Heq as -> Heq.
    pose proof (marker_prefix_line _ _ _ Heq Er') as H1.
    rewrite later_marker_lines_app_nl in HX. lia.
  - intros u1 u2 -> Hne.
    destruct (re_match _ _ _) as [g|] eqn:Hm; [|reflexivity]. exfalso.
    apply wave_pattern_sound in Hm. destruct Hm as (B & r & Heq & Er).
    destruct Hpre as [Hpre|[p Hpre]].
    + destruct u1; [|discriminate Hpre]. rewrite append_nil in Hpre. contradiction.
    + destruct (suffix_of_line _ _ _ Hpre Hne) as (u2' & -> & ->).
      rewrite append_assoc, append_cons, append_nil in Heq.
      assert (E1 : at_eol (String NL (g +:+ String NL ("...." +:+ r))) = true)
        by reflexivity.
      pose proof (marker_prefix_line _ _ _ Heq E1) as H1.
      assert (Hu1 : line_end u1).
      { destruct (at_bol_last_char _ B) as [->|[u' ->]]; [left|right]; eauto. }
      rewrite Hpre, marker_lines_app_nl, (marker_lines_after _ _ Hu1) in Hp.
      lia.
Qed.

(** X3: whatever extraction returns stands in the source between two
    whole marker lines, so a source needs at least two of them. *)
Theorem X3_extracted_text_is_enclosed_by_marker_lines content g :
  wave_extract content = Some g ->
  2 <= marker_lines content /\
  exists before after,
    line_end before /\ at_eol after = true /\
    content =
      before +:+ "...." +:+ String NL (g +:+ String NL ("...." +:+ after)).
Proof.
  intros H. apply wave_extract_Some in H.
  destruct H as (u & r & Hu & Hr & ->). split; [|eauto].
  rewrite (marker_lines_framed _ _ _ Hu Hr). lia.
Qed.

(** ** One round of diagram regeneration *)

Lemma read_file_world p w r w' : read_file p w = (r, w') -> w' = w.
Proof.
  unfold read_file, bind, get, ret, raise.
  destruct (fs w !! p) as [[|c|t]|]; try (intros [= <- <-]; reflexivity).
  destruct (fs w !! t) as [[|c|t']|]; intros [= <- <-]; reflexivity.
Qed.

(** X4: a round that ends well has changed the file system at one place
    only, the image of the source, which now holds the rendering of the
    extracted text; the temporary file is gone again. *)
Theorem X4_successful_round_writes_only_the_image
    self svg_path edn_file w w' :
  update_wave_file self svg_path edn_file w = (Ok tt, w') ->
  exists content X,
    read_file edn_file w = (Ok content, w) /\
    wave_extract content = Some X /\
    fs w' = <[svg_file_of svg_path edn_file := File (wavedrom h X)]> (fs w).
Proof.
  intros H. apply update_wave_file_effect in H.
  destruct H as (_ & content & X & tmp & R & E & Hfresh & Hne & ->).
  exists content, X. split; [exact R|]. split; [exact E|].
  rewrite delete_insert_ne by exact Hne.
  rewrite delete_insert_id by exact Hfresh. reflexivity.
Qed.

(** X5: when the renderer of a round cannot do its work, the round ends
    the run with exit code 1, the image is not written, and the temporary
    file with the extracted text stays behind. *)
Theorem X5_failed_renderer_leaves_the_temporary_file
    self svg_path edn_file w content X tmp :
  read_file edn_file w = (Ok content, w) ->
  wave_extract content = Some X ->
  mkstemp_inner TMP_MAX 0 (fs w) ".edn" = Some tmp ->
  (forall out,
     spawn h (procs w)
       (Spawned (cwd w)
          (Exec ["wavedrom-cli"; "-i"; tmp; "-s"; svg_file_of svg_path edn_file])
          (Some (env self))) <> Completed out) ->
  exists w',
    update_wave_file self svg_path edn_file w = (Raise (SystemExit 1), w') /\
    fs w' = <[tmp := File X]> (fs w) /\
    fs w !! tmp = None /\
    fs w' !! svg_file_of svg_path edn_file = fs w !! svg_file_of svg_path edn_file.
Proof.
  intros R E T Hs.
  destruct (mkstemp_inner_fresh _ _ _ _ _ T) as (Hfresh & k & Hk).
  assert (Hne : tmp <> svg_file_of svg_path edn_file)
    by (subst tmp; apply tmp_is_not_svg).
  unfold update_wave_file, try_except. unfold bind at 1. rewrite R, E.
  unfold bind at 1. unfold write_temporary_file at 1. unfold bind at 1, get at 1.
  rewrite T. unfold subprocess_run, unlink, error, log.
  unfold modify, bind, get, ret, raise. world_simpl.
  destruct (spawn h _ _) as [out|err|] eqn:S; world_simpl.
  - destruct (Hs out). reflexivity.
  - cbn [is_Exception]. eexists. split; [reflexivity|]. world_simpl.
    split; [reflexivity|]. split; [exact Hfresh|].
    apply lookup_insert_ne. exact Hne.
  - cbn [is_Exception]. eexists. split; [reflexivity|]. world_simpl.
    split; [reflexivity|]. split; [exact Hfresh|].
    apply lookup_insert_ne. exact Hne.
Qed.

(** ** Inverting the monad *)

Lemma bind_Ok_inv {A B} (m : M A) (k : A -> M B) w b w' :
  bind m k w = (Ok b, w') ->
  exists a w1, m w = (Ok a, w1) /\ k a w1 = (Ok b, w').
Proof.
  unfold bind. destruct (m w) as [[a|e] w1]; [eauto|discriminate].
Qed.

(** A [try] whose handlers all end in an exception hands on a normal
    result only from its body. *)
Lemma try_except_Ok_inv {A} (m : M A) handler w a w' :
  (forall e k w1, handler e = Some k -> exists e' w2, k w1 = (Raise e', w2)) ->
  try_except m handler w = (Ok a, w') ->
  m w = (Ok a, w').
Proof.
  intros Hh. unfold try_except.
  destruct (m w) as [[a0|e] w1]; [auto|].
  destruct (handler e) as [k|] eqn:E; [|discriminate].
  destruct (Hh e k w1 E) as (e' & w2 & ->). discriminate.
Qed.

Lemma error_eq msg w :
  error msg w =
    (Raise (SystemExit 1), set_printed (printed w ++ [(ERROR, msg)]) w).
Proof. reflexivity. Qed.

(** The handlers of the script: decode the captured stream, report,
    return [False].  They never get as far as the [return]. *)
Lemma report_raises {A} err (f : string -> string) (x : A) w :
  exists e' w2,
    (msg <- decode err ;; error (f msg) ;;; ret x) w = (Raise e', w2).
Proof.
  unfold bind, decode, ret, raise.
  destruct err as [|s|s]; try destruct (utf8_valid s); rewrite ?error_eq; eauto.
Qed.

Lemma error_then_raises {A} msg (x : A) w :
  exists e' w2, (error msg ;;; ret x) w = (Raise e', w2).
Proof. unfold bind. rewrite error_eq. eauto. Qed.

(** ** The distribution check *)







(** ** The package queries *)

Lemma check_packages_loop packages acc w l w' :
  for_each packages
    (fun package to_install =>
       installed <- _check_package_installed package ;;
       if negb installed then ret (to_install ++ [package]) else ret to_install)
    acc w = (Ok l, w') ->
  exists missing evs,
    l = acc ++ missing /\ sublist missing packages /\
    procs w' = procs w ++ evs /\
    map ev_cmd evs = map (fun p => Exec ["dpkg"; "-s"; p]) packages /\
    fs w' = fs w /\ printed w' = printed w.
Proof.
  revert acc w. induction packages as [|p packages IH]; intros acc w;
    cbn [for_each].
  - unfold ret. intros [= <- <-]. exists [], [].
    rewrite !app_nil_r. repeat split. constructor.
  - intros H. apply bind_Ok_inv in H. destruct H as (acc1 & w1 & H1 & H).
    apply bind_Ok_inv in H1. destruct H1 as (b & w0 & Hq & H1).
    rewrite _check_package_installed_eq in Hq. cbv zeta in Hq.
    assert (w0 = set_procs
              (procs w ++ [Spawned (cwd w) (Exec ["dpkg"; "-s"; p]) None]) w)
      as -> by (destruct (spawn h _ _); congruence).
    apply IH in H. destruct H as (missing & evs & -> & Hsub & Hp & Hc & Hf & Hl).
    assert (w1 = set_procs
              (procs w ++ [Spawned (cwd w) (Exec ["dpkg"; "-s"; p]) None]) w /\
            (acc1 = acc ++ [p] \/ acc1 = acc)) as (-> & Hacc)
      by (destruct b; unfold ret in H1; cbn [negb] in H1;
          injection H1 as <- <-; auto).
    revert Hp Hf Hl. world_simpl. intros Hp Hf Hl.
    destruct Hacc as [-> | ->].
    + exists (p :: missing), (Spawned (cwd w) (Exec ["dpkg"; "-s"; p]) None :: evs).
      rewrite <- app_assoc. repeat split; auto.
      * constructor. exact Hsub.
      * rewrite Hp, <- app_assoc. reflexivity.
      * cbn [map]. rewrite Hc. reflexivity.
    + exists missing, (Spawned (cwd w) (Exec ["dpkg"; "-s"; p]) None :: evs).
      repeat split; auto.
      * apply sublist_cons. exact Hsub.
      * rewrite Hp, <- app_assoc. reflexivity.
      * cbn [map]. rewrite Hc. reflexivity.
Qed.

(** X8: the pass over the required packages asks [dpkg] about every
    package exactly once, in the order of the list, and does nothing
    else; the packages it reports as missing are a selection of the
    required ones, in their order. *)
Theorem X8_every_package_is_queried_once_in_order packages w missing w' :
  check_packages packages w = (Ok missing, w') ->
  sublist missing packages /\
  fs w' = fs w /\ printed w' = printed w /\
  exists evs,
    procs w' = procs w ++ evs /\
    map ev_cmd evs = map (fun p => Exec ["dpkg"; "-s"; p]) packages.
Proof.
  unfold check_packages. intros H. apply check_packages_loop in H.
  destruct H as (m & evs & -> & Hsub & Hp & Hc & Hf & Hl).
  repeat split; eauto.
Qed.

(** X9: when [apt-get] ends with a non-zero status, a quiet run whose
    captured error stream is well-formed UTF-8 reports it, decoded and
    with the white space at both ends stripped, and exits with code 1.
    A quiet run whose stream is not UTF-8 fails on [e.stderr.decode()]
    inside the handler with a [UnicodeDecodeError]; a verbose run has
    captured nothing and fails there with an [AttributeError]; both leave
    the handler without any error line.  The [return False] is never
    reached. *)
Theorem X9_failed_install_ends_the_run self packages w err :
  spawn h (procs w)
    (Spawned (cwd w) (Exec (["sudo"; "apt-get"; "install"; "-y"] ++ packages))
       None) = Failed err ->
  let told := printed w ++
                [(INFO, "Installing packages: " +:+ str_join ", " packages)] in
  exists w',
    _install_packages self packages w =
      (Raise (if verbose self then AttributeError
              else if utf8_valid err then SystemExit 1
              else UnicodeDecodeError), w') /\
    printed w' =
      (if negb (verbose self) && utf8_valid err
       then told ++ [(ERROR, "Failed to install packages: " +:+ strip err)]
       else told) /\
    fs w' = fs w.
Proof.
  intros Hs told. unfold _install_packages, info, success, error, log,
    try_except, subprocess_run, decode.
  destruct (verbose self); unfold bind, get, modify, ret, raise; world_simpl;
    rewrite Hs; cbn [pipe_unless captured]; world_simpl;
    try destruct (utf8_valid err);
    eexists; (split; [reflexivity|]); world_simpl; split; reflexivity.
Qed.

(** ** Steps of the script, inverted *)

Lemma log_eq msg lvl w :
  log msg lvl w = (Ok tt, set_printed (printed w ++ [(lvl, msg)]) w).
Proof. reflexivity. Qed.

Lemma debug_eq v msg w :
  debug v msg w =
    (Ok tt, if v then set_printed (printed w ++ [(DEBUG, msg)]) w else w).
Proof. destruct v; reflexivity. Qed.

Lemma subprocess_run_Ok cmd vars c w out w' :
  subprocess_run cmd vars c w = (Ok out, w') ->
  w' = set_procs (procs w ++ [Spawned (cwd w) cmd vars]) w /\
  spawn h (procs w) (Spawned (cwd w) cmd vars) = Completed out.
Proof.
  unfold subprocess_run, bind, get, modify, ret, raise. world_simpl.
  destruct (spawn h _ _); [|discriminate|discriminate].
  intros [= <- <-]. auto.
Qed.

Lemma subscript_Ok_inv {V} (d : gmap string V) k v w w' :
  subscript d k w = (Ok v, w') -> d !! k = Some v /\ w' = w.
Proof.
  unfold subscript, ret, raise. destruct (d !! k); [|discriminate].
  intros [= <- <-]. auto.
Qed.

Lemma path_exists_eq p w :
  path_exists p w =
    (Ok (match fs w !! p with Some _ => true | None => false end), w).
Proof. reflexivity. Qed.

Ltac inv_bind H :=
  let a := fresh "a" in
  let w1 := fresh "w" in
  let H1 := fresh "S" in
  apply bind_Ok_inv in H; destruct H as (a & w1 & H1 & H).

Ltac inv_log H := unfold info, success, warning in H; rewrite log_eq in H;
  injection H as <- <-.

(** ** The Ruby environment *)

Lemma ruby_handler_raises (self : DocumentBuilder) e (k : M (DocumentBuilder * bool)) w1 :
  match e with
  | CalledProcessError err => Some (
      msg <- decode err ;;
      error ("Ruby environment setup failed: " +:+ strip msg) ;;;
      ret (self, false))
  | FileNotFoundError _ => Some (
      error "Bundle command not found. Please install Bundler first." ;;;
      ret (self, false))
  | _ => None
  end = Some k ->
  exists e' w2, k w1 = (Raise e', w2).
Proof.
  destruct e; try discriminate; intros [= <-].
  - apply error_then_raises.
  - apply (report_raises stderr
             (fun msg => "Ruby environment setup failed: " +:+ strip msg)).
Qed.

Lemma REQUIRES_have_no_placeholder lib :
  map (str_replace "REPLACE" lib) REQUIRES = REQUIRES.
Proof. reflexivity. Qed.

(** What a Ruby set-up that returns has done. *)
Lemma _setup_ruby_environment_inv self ruby_config requires w self' ok w' :
  _setup_ruby_environment self ruby_config requires w = (Ok (self', ok), w') ->
  ok = true /\
  exists ip old evs,
    ruby_config !! "install_path" = Some ip /\
    environ w !! "PATH" = Some old /\
    let bin := ip +:+ "/ruby/" +:+ "3.3.0" +:+ "/bin" in
    let lib := ip +:+ "/ruby/" +:+ "3.3.0" +:+ "/gems" in
    env self' = <["RUBYLIB" := lib]> (<["PATH" := bin +:+ ":" +:+ old]> (env self)) /\
    ruby_require self' = Some (map (str_replace "REPLACE" lib) requires) /\
    (requires = REQUIRES -> ruby_require self' = Some REQUIRES) /\
    ruby_bin self' = bin /\ ruby_lib self' = lib /\
    work_dir self' = work_dir self /\ docs self' = docs self /\
    procs w' = procs w ++ evs /\
    map ev_cmd evs =
      [Exec ["bundle"; "--version"];
       Exec ["bundle"; "config"; "set"; "--local"; "path"; ip];
       Exec ["bundle"; "install"]] /\
    fs w' = fs w /\ environ w' = environ w /\
    self' =
      set_env (<["RUBYLIB" := lib]> (<["PATH" := bin +:+ ":" +:+ old]> (env self)))
        (set_ruby bin lib (map (str_replace "REPLACE" lib) requires) self).
Proof.
  unfold _setup_ruby_environment. intros H.
  apply try_except_Ok_inv in H; [|apply ruby_handler_raises].
  destruct (verbose self) eqn:V;
    (inv_bind H; rewrite debug_eq in S; injection S as <- <-;
     inv_bind H; apply subprocess_run_Ok in S; destruct S as (-> & _);
     inv_bind H; inv_log S;
     inv_bind H; rewrite debug_eq in S; injection S as <- <-;
     inv_bind H; apply subscript_Ok_inv in S; destruct S as (Hip & ->);
     inv_bind H; apply subprocess_run_Ok in S; destruct S as (-> & _);
     inv_bind H; rewrite debug_eq in S; injection S as <- <-;
     inv_bind H; apply subprocess_run_Ok in S; destruct S as (-> & _);
     inv_bind H; apply subscript_Ok_inv in S; destruct S as (Hip2 & ->);
     inv_bind H; apply subscript_Ok_inv in S; destruct S as (Hip3 & ->);
     inv_bind H; rewrite debug_eq in S; injection S as <- <-;
     inv_bind H; rewrite debug_eq in S; injection S as <- <-;
     inv_bind H; unfold get in S; injection S as <- <-;
     inv_bind H; apply subscript_Ok_inv in S; destruct S as (Hold & ->);
     inv_bind H; inv_log S;
     unfold ret in H; injection H as <- <- <-;
     rewrite Hip in Hip2, Hip3; injection Hip2 as <-; injection Hip3 as <-;
     revert Hold; world_simpl; intros Hold;
     split; [reflexivity|];
     eexists _, _, _; split; [exact Hip|]; split; [exact Hold|];
     cbv zeta; cbn [env set_env set_ruby ruby_require ruby_bin ruby_lib
                    work_dir docs];
     split; [reflexivity|]; split; [reflexivity|];
     split; [intros ->; rewrite REQUIRES_have_no_placeholder; reflexivity|];
     split; [reflexivity|]; split; [reflexivity|];
     split; [reflexivity|]; split; [reflexivity|];
     split; [rewrite <- !app_assoc; reflexivity|]; split; [reflexivity|];
     split; [reflexivity|]; split; reflexivity).
Qed.

(** X10: when the Ruby set-up returns, it returns [True], and it has
    run [bundle --version], [bundle config set --local path] and
    [bundle install] in this order, without touching any file.  The
    builder's [PATH] is then the [bin] directory of the bundle followed
    by the [PATH] of the process itself, whatever the builder's own
    [PATH] was before; [RUBYLIB] is the [gems] directory; and the
    [--require] flags are the given ones with [REPLACE] replaced, which
    for the flags of the script changes nothing. *)
Theorem X10_ruby_setup_result self ruby_config requires w self' ok w' :
  _setup_ruby_environment self ruby_config requires w = (Ok (self', ok), w') ->
  ok = true /\
  exists ip old evs,
    ruby_config !! "install_path" = Some ip /\
    environ w !! "PATH" = Some old /\
    let bin := ip +:+ "/ruby/" +:+ "3.3.0" +:+ "/bin" in
    let lib := ip +:+ "/ruby/" +:+ "3.3.0" +:+ "/gems" in
    env self' = <["RUBYLIB" := lib]> (<["PATH" := bin +:+ ":" +:+ old]> (env self)) /\
    ruby_require self' = Some (map (str_replace "REPLACE" lib) requires) /\
    (requires = REQUIRES -> ruby_require self' = Some REQUIRES) /\
    ruby_bin self' = bin /\ ruby_lib self' = lib /\
    work_dir self' = work_dir self /\ docs self' = docs self /\
    procs w' = procs w ++ evs /\
    map ev_cmd evs =
      [Exec ["bundle"; "--version"];
       Exec ["bundle"; "config"; "set"; "--local"; "path"; ip];
       Exec ["bundle"; "install"]] /\
    fs w' = fs w.
Proof.
  intros H. apply _setup_ruby_environment_inv in H.
  destruct H as (Hok & ip & old & evs & H). split; [exact Hok|].
  exists ip, old, evs. cbv zeta in *. intuition.
Qed.

(** X11: without a [bundle] program the Ruby set-up ends the run with
    exit code 1 and the advice to install Bundler; nothing else has been
    started. *)
Theorem X11_missing_bundler_ends_the_run self ruby_config requires w :
  spawn h (procs w) (Spawned (cwd w) (Exec ["bundle"; "--version"]) None)
    = NotLaunched ->
  exists w',
    _setup_ruby_environment self ruby_config requires w =
      (Raise (SystemExit 1), w') /\
    last (printed w') =
      Some (ERROR, "Bundle command not found. Please install Bundler first.") /\
    procs w' =
      procs w ++ [Spawned (cwd w) (Exec ["bundle"; "--version"]) None] /\
    fs w' = fs w.
Proof.
  intros Hs. unfold _setup_ruby_environment, try_except, debug, info, error,
    log, subprocess_run.
  destruct (verbose self); unfold bind, get, modify, ret, raise; world_simpl;
    rewrite Hs; world_simpl;
    (eexists; split; [reflexivity|]); world_simpl;
    rewrite last_snoc; repeat split.
Qed.

(** ** What a computation leaves alone *)

Lemma keeps_ret {A B} (f : world -> B) (a : A) : keeps f (ret a).
Proof. unfold keeps, ret. intros w r w' [= <- <-]. reflexivity. Qed.

Lemma keeps_raise {A B} (f : world -> B) e : keeps f (@raise A e).
Proof. unfold keeps, raise. intros w r w' [= <- <-]. reflexivity. Qed.

Lemma keeps_get {B} (f : world -> B) : keeps f get.
Proof. unfold keeps, get. intros w r w' [= <- <-]. reflexivity. Qed.

Lemma keeps_modify {B} (f : world -> B) g :
  (forall w, f (g w) = f w) -> keeps f (modify g).
Proof. unfold keeps, modify. intros Hg w r w' [= <- <-]. apply Hg. Qed.

Lemma keeps_bind {A B C} (f : world -> C) (m : M A) (k : A -> M B) :
  keeps f m -> (forall a, keeps f (k a)) -> keeps f (bind m k).
Proof.
  unfold keeps, bind. intros Hm Hk w r w'.
  destruct (m w) as [[a|e] w1] eqn:E.
  - intros H. rewrite (Hk _ _ _ _ H). eapply Hm, E.
  - intros [= <- <-]. eapply Hm, E.
Qed.

Lemma keeps_try {A C} (f : world -> C) (m : M A) handler :
  keeps f m ->
  (forall e, match handler e with Some k => keeps f k | None => True end) ->
  keeps f (try_except m handler).
Proof.
  unfold keeps, try_except. intros Hm Hh w r w'.
  destruct (m w) as [[a|e] w1] eqn:E.
  - intros [= <- <-]. eapply Hm, E.
  - specialize (Hh e). destruct (handler e) as [k|].
    + intros H. rewrite (Hh _ _ _ H). eapply Hm, E.
    + intros [= <- <-]. eapply Hm, E.
Qed.

Lemma keeps_subscript {V C} (f : world -> C) (d : gmap string V) k :
  keeps f (subscript d k).
Proof.
  unfold subscript. destruct (d !! k); [apply keeps_ret|apply keeps_raise].
Qed.

Lemma keeps_for_each {A S C} (f : world -> C) (l : list A) (body : A -> S -> M S) s :
  (forall x s, keeps f (body x s)) -> keeps f (for_each l body s).
Proof.
  intros Hb. revert s. induction l as [|x l IH]; intros s; cbn [for_each].
  - apply keeps_ret.
  - apply keeps_bind; auto.
Qed.

Ltac keeps_step :=
  match goal with
  | |- keeps _ (bind _ _) => apply keeps_bind; [|intros ?]
  | |- keeps _ (try_except _ _) => apply keeps_try; [|intros ?]
  | |- keeps _ (ret _) => apply keeps_ret
  | |- keeps _ (raise _) => apply keeps_raise
  | |- keeps _ get => apply keeps_get
  | |- keeps _ (modify _) => apply keeps_modify; intros ?; reflexivity
  | |- keeps _ (subscript _ _) => apply keeps_subscript
  | |- keeps _ (for_each _ _ _) => apply keeps_for_each; intros ? ?
  | |- keeps _ (if ?b then _ else _) => destruct b
  | |- keeps _ (match ?x with _ => _ end) => destruct x
  | |- match (if ?b then _ else _) with _ => _ end => destruct b
  | |- match (match ?x with _ => _ end) with _ => _ end => destruct x
  | |- match Some _ with _ => _ end => cbv iota beta
  | |- match None with _ => _ end => exact I
  | |- True => exact I
  end.

Ltac keeps_tac := repeat keeps_step.

Ltac unfold_script :=
  unfold main, build_and_finalize, build_requested, clean_work_dir,
    clean_work_dir_doc, prepare_env, check_required_source, check_packages,
    build_for_all, run_renderer, build_command, update_wave, update_wave_files,
    update_wave_file, _workdir_setup, _workdir_setup_doc, build_targs_of,
    _setup_ruby_environment, _setup_node_environment, _install_packages,
    _check_package_installed, _check_distribution, decode, subprocess_run,
    write_temporary_file, chdir, rmtree, copy2, unlink, symlink, makedirs,
    read_file, path_exists, error, success, warning, info, debug, log.

(** ** The Node environment *)

Lemma node_probe_eq w :
  try_except
    (subprocess_run (Exec ["node"; "--version"]) None PipeBytes ;;; ret true)
    (fun e => match e with
              | CalledProcessError _ | FileNotFoundError _ => Some (ret false)
              | _ => None
              end) w =
  (Ok (match spawn h (procs w)
               (Spawned (cwd w) (Exec ["node"; "--version"]) None) with
       | Completed _ => true
       | _ => false
       end),
   set_procs (procs w ++ [Spawned (cwd w) (Exec ["node"; "--version"]) None]) w).
Proof.
  unfold try_except, subprocess_run, bind, get, modify, ret, raise. world_simpl.
  destruct (spawn h _ _); reflexivity.
Qed.

Lemma node_handler_raises (self : DocumentBuilder) e
    (k : M (DocumentBuilder * bool)) w1 :
  match e with
  | CalledProcessError err => Some (
      msg <- decode err ;;
      error ("Node environment setup failed: " +:+ strip msg) ;;;
      ret (self, false))
  | _ =>
      if is_Exception e then Some (
        error ("Unexpected error during Node environment setup: "
               +:+ exn_str e) ;;;
        ret (self, false))
      else None
  end = Some k ->
  exists e' w2, k w1 = (Raise e', w2).
Proof.
  destruct e; cbn [is_Exception]; try discriminate; intros [= <-];
    try apply error_then_raises.
  apply (report_raises stderr
           (fun msg => "Node environment setup failed: " +:+ strip msg)).
Qed.

Ltac inv_prim S :=
  first [ rewrite debug_eq in S; injection S as <- <-
        | apply subprocess_run_Ok in S; destruct S as (-> & _)
        | apply subscript_Ok_inv in S; destruct S as (? & ->)
        | inv_log S
        | rewrite path_exists_eq in S; injection S as <- <-
        | unfold get in S; injection S as <- <-
        | unfold ret in S; injection S as <- <- ].

Ltac inv_step H :=
  let a := fresh "a" in
  let w1 := fresh "w" in
  let S := fresh "S" in
  apply bind_Ok_inv in H; destruct H as (a & w1 & S & H); inv_prim S.

(** What a Node set-up that returns has done. *)
Lemma _setup_node_environment_inv self node_config w self' ok w' :
  _setup_node_environment self node_config w = (Ok (self', ok), w') ->
  ok = true /\
  is_Some (fs w !! (ROOT_PATH h +:+ "/package.json")) /\
  self' = match node_config !! "install_path", env self !! "PATH" with
          | Some ip, Some old =>
              set_env (<["PATH" := ip +:+ ":" +:+ old]> (env self)) self
          | _, _ => self
          end /\
  (is_Some (node_config !! "install_path") -> is_Some (env self !! "PATH")) /\
  fs w' = fs w /\ environ w' = environ w /\ cwd w' = cwd w /\
  exists v evs,
    node_config !! "version" = Some v /\
    procs w' = procs w ++ evs /\
    (map ev_cmd evs = [Exec ["node"; "--version"]; Exec ["npm"; "install"]] \/
     exists url,
       node_config !! "url" = Some url /\
       map ev_cmd evs =
         [Exec ["node"; "--version"]; Exec [url];
          Exec ["fnm"; "install"; v]; Exec ["fnm"; "use"; v];
          Exec ["node"; "--version"]; Exec ["npm"; "install"]]).
Proof.
  unfold _setup_node_environment. intros H.
  apply try_except_Ok_inv in H; [|apply node_handler_raises].
  inv_bind H. rewrite node_probe_eq in S. injection S as <- <-.
  inv_bind H.
  assert (Tail : forall w1 evs1,
            fs w1 = fs w -> environ w1 = environ w -> cwd w1 = cwd w ->
            procs w1 = procs w ++ evs1 ->
            (v <- subscript node_config "version" ;;
             success ("Successfully installed node, version: " +:+ v) ;;;
             present <- path_exists (ROOT_PATH h +:+ "/package.json") ;;
             if present then
               subprocess_run (Exec ["npm"; "install"]) None
                 (pipe_unless (verbose self)) ;;;
               self <- (if has_key node_config "install_path" then
                          ip <- subscript node_config "install_path" ;;
                          old <- subscript (env self) "PATH" ;;
                          ret (set_env (<["PATH" := ip +:+ ":" +:+ old]> (env self)) self)
                        else ret self) ;;
               success "Node environment setup completed" ;;;
               ret (self, true)
             else
               error ("Could not find package.json in " +:+ ROOT_PATH h +:+ "/package.json") ;;;
               ret (self, false)) w1 = (Ok (self', ok), w') ->
            ok = true /\
            is_Some (fs w !! (ROOT_PATH h +:+ "/package.json")) /\
            self' = match node_config !! "install_path", env self !! "PATH" with
                    | Some ip, Some old =>
                        set_env (<["PATH" := ip +:+ ":" +:+ old]> (env self)) self
                    | _, _ => self
                    end /\
            (is_Some (node_config !! "install_path") -> is_Some (env self !! "PATH")) /\
            fs w' = fs w /\ environ w' = environ w /\ cwd w' = cwd w /\
            exists v evs2,
              node_config !! "version" = Some v /\
              procs w' = procs w ++ evs1 ++ evs2 /\
              map ev_cmd evs2 = [Exec ["npm"; "install"]]).
  { clear. intros w1 evs1 Hf He Hc Hp T.
    inv_step T. inv_step T. inv_step T.
    revert T. world_simpl. rewrite Hf. intros T.
    destruct (fs w !! (ROOT_PATH h +:+ "/package.json")) as [n|] eqn:P;
      [|inv_bind T; rewrite error_eq in S; discriminate S].
    inv_step T. inv_bind T. unfold has_key in S.
    destruct (node_config !! "install_path") as [ip|] eqn:IP.
    - inv_step S. inv_step S. unfold ret in S. injection S as <- <-.
      inv_step T. unfold ret in T. injection T as <- <- <-.
      rewrite IP in H0. injection H0 as <-. rewrite H1.
      world_simpl. rewrite Hf, He, Hc, Hp.
      repeat (split; [eauto; fail|]).
      eexists _, [_]. split; [eassumption|]. split; [rewrite <- app_assoc|]; reflexivity.
    - unfold ret in S. injection S as <- <-.
      inv_step T. unfold ret in T. injection T as <- <- <-.
      world_simpl. rewrite Hf, He, Hc, Hp.
      split; [reflexivity|]. split; [eauto|]. split; [reflexivity|].
      split; [intros [? [=]]|]. repeat (split; [reflexivity|]).
      eexists _, [_]. split; [eassumption|]. split; [rewrite <- app_assoc|]; reflexivity. }
  destruct (spawn h (procs w) _) as [out| |] eqn:Probe; cbn [negb] in S;
    [ unfold ret in S; injection S as <- <-;
      apply (Tail _ [Spawned (cwd w) (Exec ["node"; "--version"]) None]) in H;
      [|reflexivity..];
      destruct H as (Hok & Hpk & Hs & Hip & Hf & He & Hc & v & evs2 & Hv & Hp & Hm);
      repeat (split; [assumption|]);
      eexists v, (_ :: evs2); split; [exact Hv|]; split; [exact Hp|];
      left; cbn [map ev_cmd]; rewrite Hm; reflexivity
    | | ].
  all: inv_step S; inv_step S; inv_bind S; unfold has_key in S0;
    (destruct (node_config !! "version") as [v0|] eqn:V;
     [ inv_step S0; inv_step S0; inv_step S0; inv_step S0;
       unfold ret in S0; injection S0 as <- <-
     | unfold ret in S0; injection S0 as <- <- ]);
    inv_step S; unfold ret in S; injection S as <- <-;
    eapply Tail in H;
    try (world_simpl; rewrite <- ?app_assoc; reflexivity);
    destruct H as (Hok & Hpk & Hs & Hip & Hf & He & Hc & v & evs2 & Hv & Hp & Hm);
    try congruence;
    repeat match goal with
           | E : _ !! "version" = Some _ |- _ =>
               rewrite V in E; injection E as <-
           end;
    try (injection Hv as <-);
    repeat (split; [assumption|]);
    eexists _, _; (split; [reflexivity|]); (split; [exact Hp|]);
    right; eexists; (split; [eassumption|]);
    rewrite map_app, Hm; reflexivity.
Qed.

(** X12: when the Node set-up returns, it returns [True]: [package.json]
    is in the checkout, [npm install] was the last command, and the
    builder's [PATH] now starts with the directory of the installed
    tools.  On a machine that has [node] it has run [node --version] and
    [npm install] and nothing else; otherwise the installer line, then
    [fnm install] and [fnm use] for the requested version, then
    [node --version] again, came in between. *)
Theorem X12_node_setup_result self node_config w self' ok w' :
  _setup_node_environment self node_config w = (Ok (self', ok), w') ->
  ok = true /\
  is_Some (fs w !! (ROOT_PATH h +:+ "/package.json")) /\
  self' = match node_config !! "install_path", env self !! "PATH" with
          | Some ip, Some old =>
              set_env (<["PATH" := ip +:+ ":" +:+ old]> (env self)) self
          | _, _ => self
          end /\
  (is_Some (node_config !! "install_path") -> is_Some (env self !! "PATH")) /\
  exists v evs,
    node_config !! "version" = Some v /\
    procs w' = procs w ++ evs /\
    (map ev_cmd evs = [Exec ["node"; "--version"]; Exec ["npm"; "install"]] \/
     exists url,
       node_config !! "url" = Some url /\
       map ev_cmd evs =
         [Exec ["node"; "--version"]; Exec [url];
          Exec ["fnm"; "install"; v]; Exec ["fnm"; "use"; v];
          Exec ["node"; "--version"]; Exec ["npm"; "install"]]).
Proof.
  intros H. apply _setup_node_environment_inv in H.
  destruct H as (Hok & Hpk & Hs & Hip & _ & _ & _ & H). auto.
Qed.


(** X14: on a machine without [node], the installer line
    [curl ... | bash] is handed to the system as the name of one program,
    not to a shell.  Where no program of that name can be started, the
    set-up ends the run with exit code 1 after one line about an
    unexpected error; [fnm] and [npm] are never reached. *)
Theorem X14_installer_line_is_run_as_one_program self node_config w url :
  (forall out,
     spawn h (procs w) (Spawned (cwd w) (Exec ["node"; "--version"]) None)
       <> Completed out) ->
  node_config !! "url" = Some url ->
  spawn h (procs w ++ [Spawned (cwd w) (Exec ["node"; "--version"]) None])
    (Spawned (cwd w) (Exec [url]) None) = NotLaunched ->
  exists w' detail,
    _setup_node_environment self node_config w = (Raise (SystemExit 1), w') /\
    printed w' =
      printed w ++
      [(ERROR, "Unexpected error during Node environment setup: " +:+ detail)] /\
    procs w' =
      procs w ++ [Spawned (cwd w) (Exec ["node"; "--version"]) None;
                  Spawned (cwd w) (Exec [url]) None].
Proof.
  intros Hs Hu Hn. unfold _setup_node_environment.
  unfold try_except at 1. unfold bind at 1. rewrite node_probe_eq.
  assert (E : match spawn h (procs w)
                      (Spawned (cwd w) (Exec ["node"; "--version"]) None) with
              | Completed _ => true
              | _ => false
              end = false).
  { destruct (spawn h _ _) as [out| |]; [destruct (Hs out)|..]; reflexivity. }
  rewrite E. cbn [negb]. unfold subprocess_run, error, log, subscript.
  rewrite Hu. unfold bind, get, modify, ret, raise. world_simpl. rewrite Hn.
  cbn [is_Exception]. world_simpl.
  eexists _, _. split; [reflexivity|]. world_simpl.
  rewrite <- app_assoc. split; reflexivity.
Qed.

(** ** The whole preparation *)

Lemma _check_distribution_inv d w w' :
  _check_distribution w = (Ok d, w') -> w' = w /\ (d = "apt" \/ d = "unknown").
Proof.
  unfold _check_distribution, try_except, bind. intros H.
  destruct (read_file "/etc/os-release" w) as [[c|e] w1] eqn:R;
    apply read_file_world in R; subst w1.
  - destruct (_ || _); unfold ret in H; injection H as <- <-; auto.
  - destruct e; try discriminate H. unfold ret in H. injection H as <- <-. auto.
Qed.

Lemma _install_packages_inv self packages w b w' :
  _install_packages self packages w = (Ok b, w') -> b = true.
Proof.
  unfold _install_packages. intros H. inv_step H.
  apply try_except_Ok_inv in H.
  - inv_step H. inv_step H. unfold ret in H. injection H as <- <-. reflexivity.
  - intros e k w1. destruct e; try discriminate. intros [= <-].
    apply (report_raises stderr
             (fun msg => "Failed to install packages: " +:+ strip msg)).
Qed.

Lemma check_packages_keeps_environ packages :
  keeps environ (check_packages packages).
Proof. unfold_script. keeps_tac. Qed.

Lemma _install_packages_keeps_environ self packages :
  keeps environ (_install_packages self packages).
Proof. unfold_script. keeps_tac. Qed.

(** What a preparation that returns has done. *)
Lemma prepare_env_inv self deps w self' ok w' :
  prepare_env self deps w = (Ok (self', ok), w') ->
  ok = true /\
  ruby_require self' = Some REQUIRES /\
  work_dir self' = record_work_dirs self (docs self) (work_dir self) /\
  docs self' = docs self /\ build_dir self' = build_dir self /\
  (forall doc, doc ∈ docs self ->
     is_Some (fs w' !! work_path_of self doc) /\ is_Some (targs doc)) /\
  exists rip old,
    dep_ruby deps !! "install_path" = Some rip /\
    environ w !! "PATH" = Some old /\
    let bin := rip +:+ "/ruby/" +:+ "3.3.0" +:+ "/bin" in
    let lib := rip +:+ "/ruby/" +:+ "3.3.0" +:+ "/gems" in
    env self' !! "RUBYLIB" = Some lib /\
    env self' !! "PATH" =
      Some (match dep_node deps !! "install_path" with
            | Some nip => nip +:+ ":" +:+ bin +:+ ":" +:+ old
            | None => bin +:+ ":" +:+ old
            end) /\
    (forall k, k <> "PATH" -> k <> "RUBYLIB" -> env self' !! k = env self !! k).
Proof.
  intros H.
  unfold prepare_env in H. inv_step H.
  inv_bind H. apply _check_distribution_inv in S. destruct S as (-> & [-> | ->]);
    [|inv_bind H; rewrite error_eq in S; discriminate S].
  change ("apt" =? "apt")%string with true in H. cbv iota in H.
  inv_bind H.
  pose proof (check_packages_keeps_environ _ _ _ _ S) as E1.
  inv_bind H.
  assert (a0 = true /\ environ w1 = environ w0) as (-> & E2).
  { destruct a.
    - inv_step S0. unfold ret in S0. injection S0 as <- <-. auto.
    - split; [eapply _install_packages_inv, S0|].
      apply (_install_packages_keeps_environ _ _ _ _ _ S0). }
  cbn [negb] in H. inv_bind H. destruct a0 as [self1 ok1].
  apply _setup_ruby_environment_inv in S1.
  destruct S1 as (-> & rip & old & evs & Hrip & Hold & _ & _ & _ & _ & _ &
                  _ & _ & _ & _ & _ & E3 & ->).
  cbn [negb] in H.
  inv_bind H. destruct a0 as [self2 ok2].
  apply _setup_node_environment_inv in S1.
  destruct S1 as (-> & _ & Hs2 & _).
  cbn [negb] in H. inv_bind H. inv_bind H.
  unfold ret in H. injection H as <- <- <-.
  unfold _workdir_setup in S2.
  rewrite <- (set_work_dir_same self2) in S2 at 2.
  apply _workdir_setup_pass in S2. destruct S2 as (-> & Hall & _).
  cbn [env set_env set_ruby] in Hs2.
  rewrite lookup_insert_ne, lookup_insert_eq in Hs2 by discriminate.
  clear S S0 S1.
  revert E1 E2 E3 Hold. world_simpl. intros E1 E2 E3 Hold.
  rewrite E2, E1 in Hold. clear E1 E2 E3.
  split; [reflexivity|].
  destruct (dep_node deps !! "install_path") as [nip|]; subst self2;
    (split; [reflexivity|]); (split; [reflexivity|]); (split; [reflexivity|]);
    (split; [reflexivity|]); (split; [exact Hall|]);
    exists rip, old; (split; [exact Hrip|]); (split; [exact Hold|]);
    cbv zeta; cbn [env set_env set_ruby set_work_dir];
    (split; [rewrite ?lookup_insert_ne by discriminate; apply lookup_insert_eq|]);
    (split; [rewrite ?lookup_insert_ne by discriminate; apply lookup_insert_eq|]);
    intros k Hk1 Hk2; rewrite !lookup_insert_ne by congruence; reflexivity.
Qed.

(** X15: [prepare_env] never returns [False]: when it returns at all, the
    Ruby and Node set-ups have both gone through, so the builder carries
    the [--require] flags of the script, its [RUBYLIB] is the [gems]
    directory of the bundle, its [PATH] is the Node tools, then the [bin]
    directory of the bundle, then the [PATH] of the process, every other
    variable is as the constructor left it, and every document of the
    run has a workspace on disk, recorded in [work_dir]. *)
Theorem X15_preparation_result self deps w self' ok w' :
  prepare_env self deps w = (Ok (self', ok), w') ->
  ok = true /\
  ruby_require self' = Some REQUIRES /\
  work_dir self' = record_work_dirs self (docs self) (work_dir self) /\
  (forall doc, doc ∈ docs self ->
     is_Some (fs w' !! work_path_of self doc) /\ is_Some (targs doc)) /\
  exists rip old,
    dep_ruby deps !! "install_path" = Some rip /\
    environ w !! "PATH" = Some old /\
    let bin := rip +:+ "/ruby/" +:+ "3.3.0" +:+ "/bin" in
    let lib := rip +:+ "/ruby/" +:+ "3.3.0" +:+ "/gems" in
    env self' !! "RUBYLIB" = Some lib /\
    env self' !! "PATH" =
      Some (match dep_node deps !! "install_path" with
            | Some nip => nip +:+ ":" +:+ bin +:+ ":" +:+ old
            | None => bin +:+ ":" +:+ old
            end) /\
    (forall k, k <> "PATH" -> k <> "RUBYLIB" -> env self' !! k = env self !! k).
Proof.
  intros H. apply prepare_env_inv in H.
  destruct H as (Hok & Hr & Hw & _ & _ & Hall & H). auto.
Qed.

(** ** Exit codes *)

Lemma exits_ret {A} (a : A) : exits_through_error (ret a).
Proof. unfold exits_through_error, ret. discriminate. Qed.

Lemma exits_raise {A} e : is_Exception e = true -> exits_through_error (@raise A e).
Proof.
  unfold exits_through_error, raise. intros He w c w' [= -> _]. discriminate He.
Qed.

Lemma exits_error msg : exits_through_error (error msg).
Proof.
  intros w c w'. rewrite error_eq. intros [= <- <-]. split; [reflexivity|].
  world_simpl. eauto.
Qed.

Lemma exits_get : exits_through_error get.
Proof. unfold exits_through_error, get. discriminate. Qed.

Lemma exits_modify g : exits_through_error (modify g).
Proof. unfold exits_through_error, modify. discriminate. Qed.

Lemma exits_bind {A B} (m : M A) (k : A -> M B) :
  exits_through_error m -> (forall a, exits_through_error (k a)) ->
  exits_through_error (bind m k).
Proof.
  unfold exits_through_error, bind. intros Hm Hk w c w'.
  destruct (m w) as [[a|e] w1] eqn:E.
  - apply Hk.
  - intros [= -> ->]. eapply Hm, E.
Qed.

Lemma exits_try {A} (m : M A) handler :
  exits_through_error m ->
  (forall e, match handler e with Some k => exits_through_error k | None => True end) ->
  exits_through_error (try_except m handler).
Proof.
  unfold exits_through_error, try_except. intros Hm Hh w c w'.
  destruct (m w) as [[a|e] w1] eqn:E; [discriminate|].
  specialize (Hh e). destruct (handler e) as [k|].
  - apply Hh.
  - intros [= -> ->]. eapply Hm, E.
Qed.

Lemma exits_subscript {V} (d : gmap string V) k : exits_through_error (subscript d k).
Proof.
  unfold subscript. destruct (d !! k); [apply exits_ret|apply exits_raise; reflexivity].
Qed.

Lemma exits_for_each {A S} (l : list A) (body : A -> S -> M S) s :
  (forall x s, exits_through_error (body x s)) -> exits_through_error (for_each l body s).
Proof.
  intros Hb. revert s. induction l as [|x l IH]; intros s; cbn [for_each].
  - apply exits_ret.
  - apply exits_bind; auto.
Qed.

Ltac exits_step :=
  match goal with
  | |- exits_through_error (bind _ _) => apply exits_bind; [|intros ?]
  | |- exits_through_error (try_except _ _) => apply exits_try; [|intros ?]
  | |- exits_through_error (error _) => apply exits_error
  | |- exits_through_error (ret _) => apply exits_ret
  | |- exits_through_error (raise _) => apply exits_raise; reflexivity
  | |- exits_through_error get => apply exits_get
  | |- exits_through_error (modify _) => apply exits_modify
  | |- exits_through_error (subscript _ _) => apply exits_subscript
  | |- exits_through_error (for_each _ _ _) => apply exits_for_each; intros ? ?
  | |- exits_through_error (if ?b then _ else _) => destruct b
  | |- exits_through_error (match ?x with _ => _ end) => destruct x
  | |- match (if ?b then _ else _) with _ => _ end => destruct b
  | |- match (match ?x with _ => _ end) with _ => _ end => destruct x
  | |- match Some _ with _ => _ end => cbv iota beta
  | |- match None with _ => _ end => exact I
  | |- True => exact I
  end.

Ltac unfold_script_but_error :=
  unfold main, build_and_finalize, build_requested, clean_work_dir,
    clean_work_dir_doc, prepare_env, check_required_source, check_packages,
    build_for_all, run_renderer, build_command, update_wave, update_wave_files,
    update_wave_file, _workdir_setup, _workdir_setup_doc, build_targs_of,
    _setup_ruby_environment, _setup_node_environment, _install_packages,
    _check_package_installed, _check_distribution, decode, subprocess_run,
    write_temporary_file, chdir, rmtree, copy2, unlink, symlink, makedirs,
    read_file, path_exists, success, warning, info, debug, log.

(** X16: whenever [SystemExit] leaves [main], it carries the code 1 and
    the last line the script has printed is an error line.  [sys.exit]
    is called in [Logger.error] only, right after the message, and no
    handler of the script catches [SystemExit]. *)
Theorem X16_every_exit_follows_an_error_line a w c w' :
  main a w = (Raise (SystemExit c), w') ->
  c = 1 /\ exists told msg, printed w' = told ++ [(ERROR, msg)].
Proof.
  revert w c w'. change (exits_through_error (main a)).
  unfold_script_but_error.
  unfold DocumentBuilder_init, select_docs, list_append.
  repeat exits_step.
Qed.

(** ** A failing renderer *)


(** ** Building before the preparation *)

Lemma select_docs_world config w r w' : select_docs config w = (r, w') -> w' = w.
Proof.
  unfold select_docs, subscript, bind, ret, raise.
  destruct (String.eqb (cfg_build_target config) "all");
    repeat match goal with
           | |- context [match ?d !! ?k with _ => _ end] => destruct (d !! k)
           end; congruence.
Qed.

(** What the constructor has set when it returns. *)
Lemma DocumentBuilder_init_Ok config vb w b w' :
  DocumentBuilder_init config vb w = (Ok b, w') ->
  exists ds tc,
    select_docs config w = (Ok ds, w) /\
    cfg_type_config config !! cfg_default_type config = Some tc /\
    w' = set_OPTIONS (OPTIONS w ++ appended_flags config tc) w /\
    docs b = ds /\ work_dir b = ∅ /\
    verbose b = vb /\ ruby_require b = None /\
    build_target b = cfg_build_target config /\
    build_dir b = cfg_build_dir config /\
    build_cmd b = cfg_build_cmd config.
Proof.
  intros H.
  destruct (select_docs config w) as [[ds|e] w1] eqn:D.
  - pose proof (select_docs_world _ _ _ _ D) as ->.
    destruct (cfg_type_config config !! cfg_default_type config) as [tc|] eqn:T.
    + destruct (DocumentBuilder_init_eq config vb w ds tc D T)
        as (b0 & Hb & _ & Hd & Hw & Hv & Hr & Ht & _ & Hbd & Hbc & _).
      rewrite Hb in H. injection H as <- <-.
      exists ds, tc. repeat split; assumption.
    + exfalso. revert H. unfold DocumentBuilder_init, get. unfold bind at 1.
      unfold bind at 1. rewrite D. unfold bind at 1.
      rewrite (subscript_None _ _ _ T). discriminate.
  - rewrite (select_docs_raise _ vb _ _ _ D) in H. discriminate H.
Qed.

(** X18: a builder as the constructor leaves it cannot build: it has no
    [ruby_require] yet, so [build_for_all] raises before it changes the
    directory or starts anything. *)
Theorem X18_no_build_before_the_preparation config vb w builder w0 t :
  DocumentBuilder_init config vb w = (Ok builder, w0) ->
  exists e,
    build_for_all builder t w0 = (Raise e, w0) /\
    (e = AttributeError \/ e = KeyError t).
Proof.
  intros H. apply DocumentBuilder_init_Ok in H.
  destruct H as (ds & tc & _ & _ & _ & _ & _ & _ & Hr & _).
  unfold build_for_all, build_command, subscript, bind, get, ret, raise.
  rewrite Hr. destruct (build_cmd builder !! t); eauto.
Qed.

(** ** Workspaces and formats *)

Lemma cfg_docs_keys t doc :
  cfg_docs CONFIGS !! t = Some doc ->
  (t, doc) ∈ [("pdf", "openrisc-manual.pdf"); ("html", "openrisc-manual.html");
              ("epub", "openrisc-manual.epub");
              ("json", "openrisc-manual-norm-tags.json")].
Proof. apply elem_of_list_to_map_2. Qed.

(** X19: the key under which a workspace is recorded, the second
    dot-separated field of the file name, is the format of the document:
    after the constructor and [_workdir_setup], every format the run is
    to build finds under its own name the workspace
    [build/<file name>.workdir], and that workspace exists. *)
Theorem X19_workspaces_are_filed_under_the_format a w builder w0 self' w1 t :
  DocumentBuilder_init (configure a) (arg_verbose a) w = (Ok builder, w0) ->
  _workdir_setup builder w0 = (Ok self', w1) ->
  (target a = t /\ t <> "all") \/
  (target a = "all" /\ t ∈ ["pdf"; "epub"; "html"; "json"]) ->
  exists doc,
    cfg_docs CONFIGS !! t = Some doc /\
    work_dir self' !! t =
      Some (path_join (ROOT_PATH h +:+ "/build") (doc +:+ ".workdir")) /\
    is_Some (fs w1 !! path_join (ROOT_PATH h +:+ "/build") (doc +:+ ".workdir")).
Proof.
  intros Hi Hs Ht. apply DocumentBuilder_init_Ok in Hi.
  destruct Hi as (ds & tc & Hd & _ & _ & Hds & Hwd & _ & _ & _ & Hbd & _).
  unfold _workdir_setup in Hs. rewrite <- (set_work_dir_same builder) in Hs at 2.
  apply _workdir_setup_pass in Hs. destruct Hs as (-> & Hall & _).
  cbn [work_dir set_work_dir]. rewrite Hwd, Hds. rewrite Hds in Hall.
  change (cfg_build_dir (configure a)) with (ROOT_PATH h +:+ "/build") in Hbd.
  assert (Hwp : forall doc, work_path_of builder doc =
                  path_join (ROOT_PATH h +:+ "/build") (doc +:+ ".workdir"))
    by (intros doc; unfold work_path_of; rewrite Hbd; reflexivity).
  unfold select_docs in Hd. cbn [cfg_build_target cfg_docs configure] in Hd.
  destruct Ht as [[Ht Hna] | [Ht Hin]].
  - rewrite Ht in Hd. rewrite (proj2 (String.eqb_neq _ _) Hna) in Hd.
    inv_step Hd. unfold ret in Hd. injection Hd as <-.
    pose proof (cfg_docs_keys _ _ H) as Hk.
    exists a0. split; [exact H|]. rewrite <- Hwp.
    split; [|apply Hall; constructor].
    in_cases Hk; injection Hk as -> ->; reflexivity.
  - rewrite Ht in Hd. change ("all" =? "all")%string with true in Hd.
    vm_compute in Hd. injection Hd as <-.
    in_cases Hin; eexists; (split; [reflexivity|]); rewrite <- Hwp;
      (split; [reflexivity|]); apply Hall; repeat constructor.
Qed.

(** ** Cleaning *)

Lemma lookup_outside (files : gmap string node) dir p :
  filter (fun kv : string * node => is_under dir kv.1 = false) files !! p =
    if is_under dir p then None else files !! p.
Proof.
  destruct (is_under dir p) eqn:U.
  - apply map_lookup_filter_None. right. intros n _. cbn. congruence.
  - destruct (files !! p) as [n|] eqn:L.
    + apply map_lookup_filter_Some. split; [exact L|exact U].
    + apply map_lookup_filter_None. left. exact L.
Qed.

(** X20: [--clean] comes before [--update-wave] and the builds, but
    after the constructor.  For every command line that [parse_args]
    accepts, a run with [--clean] starts no process.  With the target
    [tags] the constructor raises [KeyError] and nothing is removed; with
    any other target the run only removes the build directory with
    everything below it.  Where there is none, nothing changes; where the
    path is a regular file, [rmtree] raises and nobody catches it. *)
Theorem X20_clean_removes_the_build_directory_only a w :
  clean a = true ->
  release_type a ∈ release_type_choices ->
  target a ∈ target_choices ->
  let build := ROOT_PATH h +:+ "/build" in
  exists r w',
    main a w = (r, w') /\ procs w' = procs w /\
    if String.eqb (target a) "tags"
    then r = Raise (KeyError "tags") /\ w' = w
    else
      match fs w !! build with
      | Some Dir =>
          r = Ok tt /\
          forall p, fs w' !! p = if is_under build p then None else fs w !! p
      | Some (File _) => r = Raise (OSError build) /\ fs w' = fs w
      | Some (Symlink _) => True
      | None => r = Ok tt /\ fs w' = fs w
      end.
Proof.
  intros Hc Hr Ht build.
  destruct (String.eqb_spec (target a) "tags") as [E|E].
  - exists (Raise (KeyError "tags")), w. split; [|auto].
    unfold main. unfold bind at 1.
    rewrite (select_docs_raise _ _ w (KeyError "tags") w); [reflexivity|].
    unfold select_docs. change (cfg_build_target (configure a)) with (target a).
    rewrite E. reflexivity.
  - destruct (select_docs_configure a w) as (ds & D & _).
    { unfold target_choices in Ht.
      in_cases Ht; try (rewrite Ht; repeat constructor). contradiction. }
    destruct (type_config_configure a Hr) as (tc & T & _).
    destruct (DocumentBuilder_init_eq (configure a) (arg_verbose a) w ds tc D T)
      as (b & Hi & _).
    unfold main. unfold bind at 1. rewrite Hi, Hc.
    change (cfg_build_dir (configure a)) with build.
    unfold info, success, log, path_exists, rmtree.
    unfold bind, get, modify, ret, raise. world_simpl.
    destruct (fs w !! build) as [[|c|l]|] eqn:B; world_simpl; rewrite ?B;
      eexists _, _; (split; [reflexivity|]); world_simpl;
      (split; [reflexivity|]); try exact I;
      (split; [reflexivity|]); try reflexivity.
    intros p. apply lookup_outside.
Qed.

(** ** A new workspace *)

Lemma append_inj_r (a b c : string) : a +:+ b = a +:+ c -> b = c.
Proof.
  induction a as [|ch a IH]; [auto|].
  rewrite !append_cons. intros [= H]. auto.
Qed.

Lemma append_nonempty_neq (a b : string) : b <> "" -> a +:+ b <> a.
Proof.
  intros Hb E. apply Hb. apply (append_inj_r a). rewrite E, append_empty_r.
  reflexivity.
Qed.

Lemma foldl_mkdir_if_absent_keeps dirs files p n :
  files !! p = Some n -> foldl mkdir_if_absent files dirs !! p = Some n.
Proof.
  revert files. induction dirs as [|d dirs IH]; intros files Hp; [exact Hp|].
  simpl. apply IH. unfold mkdir_if_absent.
  destruct (files !! d) eqn:D; [exact Hp|].
  rewrite lookup_insert_ne; [exact Hp|]. intros ->. congruence.
Qed.

Lemma foldl_mkdir_if_absent_None dirs files p :
  foldl mkdir_if_absent files dirs !! p = None -> files !! p = None.
Proof.
  intros H. destruct (files !! p) as [n|] eqn:L; [|reflexivity].
  rewrite (foldl_mkdir_if_absent_keeps _ _ _ _ L) in H. discriminate H.
Qed.

(** X21: for a document without a workspace, a round of
    [_workdir_setup] that ends well has made the directory and, in it,
    the three links to the sources, the shared resources and the assets
    of the checkout; every file that was there before is still there,
    unchanged. *)
Theorem X21_new_workspace_links_into_the_checkout doc self w self' w' :
  fs w !! work_path_of self doc = None ->
  _workdir_setup_doc doc self w = (Ok self', w') ->
  let wp := work_path_of self doc in
  fs w' !! wp = Some Dir /\
  fs w' !! (wp +:+ "/src") = Some (Symlink (ROOT_PATH h +:+ "/src")) /\
  fs w' !! (wp +:+ "/docs-resources") =
    Some (Symlink (ROOT_PATH h +:+ "/docs-resources")) /\
  fs w' !! (wp +:+ "/assets") = Some (Symlink (ROOT_PATH h +:+ "/assets")) /\
  (forall p n, fs w !! p = Some n -> fs w' !! p = Some n) /\
  procs w' = procs w.
Proof.
  intros Hp. unfold _workdir_setup_doc. fold (work_path_of self doc).
  set (wp := work_path_of self doc) in *. intros H. cbv zeta.
  unfold path_exists in H. unfold bind at 1 in H. unfold bind at 1, get at 1 in H.
  rewrite Hp in H. unfold ret at 1 in H. cbn [negb] in H.
  assert (N1 : wp +:+ "/src" <> wp) by (apply append_nonempty_neq; discriminate).
  assert (N2 : wp +:+ "/docs-resources" <> wp)
    by (apply append_nonempty_neq; discriminate).
  assert (N3 : wp +:+ "/assets" <> wp) by (apply append_nonempty_neq; discriminate).
  assert (N4 : wp +:+ "/docs-resources" <> wp +:+ "/src")
    by (intros E; apply append_inj_r in E; discriminate E).
  assert (N5 : wp +:+ "/assets" <> wp +:+ "/src")
    by (intros E; apply append_inj_r in E; discriminate E).
  assert (N6 : wp +:+ "/assets" <> wp +:+ "/docs-resources")
    by (intros E; apply append_inj_r in E; discriminate E).
  revert H. unfold makedirs, symlink, debug, log.
  destruct (verbose self);
    unfold bind, get, modify, ret, raise; world_simpl; rewrite Hp; world_simpl;
    (destruct (_ !! (wp +:+ "/src")) eqn:L1; [discriminate|]); world_simpl;
    (destruct (_ !! (wp +:+ "/docs-resources")) eqn:L2; [discriminate|]);
    world_simpl;
    (destruct (_ !! (wp +:+ "/assets")) eqn:L3; [discriminate|]); world_simpl;
    rewrite build_targs_of_eq; (destruct (targs doc) as [t|]; [|discriminate]);
    intros [= <- <-]; world_simpl.
  all: rewrite lookup_insert_ne in L1 by congruence;
    rewrite !lookup_insert_ne in L2 by congruence;
    rewrite !lookup_insert_ne in L3 by congruence;
    apply foldl_mkdir_if_absent_None in L1, L2, L3.
  all: split; [rewrite !lookup_insert_ne by congruence; apply lookup_insert_eq|].
  all: split; [rewrite !lookup_insert_ne by congruence; apply lookup_insert_eq|].
  all: split; [rewrite !lookup_insert_ne by congruence; apply lookup_insert_eq|].
  all: split; [apply lookup_insert_eq|].
  all: split; [|reflexivity].
  all: intros p n Hn; rewrite !lookup_insert_ne by congruence;
    apply foldl_mkdir_if_absent_keeps, Hn.
Qed.

(** ** Finalization *)

Lemma startswith_length p s :
  startswith p s = true -> String.length p <= String.length s.
Proof.
  unfold startswith. revert s. induction p as [|c p IH]; intros s; [simpl; lia|].
  destruct s as [|c' s]; [discriminate|]. cbn [String.prefix String.length].
  destruct (ascii_dec c c'); [|discriminate].
  intros H. apply IH in H. lia.
Qed.

Lemma is_under_shorter dir p :
  String.length p < String.length dir -> is_under dir p = false.
Proof.
  intros Hl. unfold is_under. apply orb_false_intro.
  - apply String.eqb_neq. intros ->. lia.
  - destruct (startswith (dir +:+ "/") p) eqn:E; [|reflexivity].
    apply startswith_length in E. rewrite length_append in E. lia.
Qed.

Lemma prefix_empty s : String.prefix "" s = true.
Proof. destruct s; reflexivity. Qed.

Lemma path_join_append b doc s :
  startswith "/" s = false -> path_join b (doc +:+ s) = path_join b doc +:+ s.
Proof.
  intros Hs. unfold path_join. destruct doc as [|c doc].
  - rewrite append_nil, Hs. change (startswith "/" "") with false. cbv iota.
    destruct (negb (nonempty b)); [reflexivity|].
    destruct (endswith_slash b); rewrite !append_assoc; reflexivity.
  - rewrite append_cons.
    assert (E : startswith "/" (String c (doc +:+ s)) = startswith "/" (String c doc)).
    { unfold startswith. cbn [String.prefix].
      destruct (ascii_dec "/" c); [|reflexivity].
      rewrite !prefix_empty. reflexivity. }
    rewrite E. destruct (startswith "/" (String c doc)); [reflexivity|].
    destruct (negb (nonempty b)); [reflexivity|].
    destruct (endswith_slash b); rewrite !append_assoc; reflexivity.
Qed.

(** The output path of a document lies outside its workspace. *)
Lemma output_outside_workspace self doc :
  is_under (work_path_of self doc) (path_join (build_dir self) doc) = false.
Proof.
  apply is_under_shorter. unfold work_path_of.
  rewrite path_join_append by reflexivity. rewrite length_append. simpl. lia.
Qed.

Lemma is_under_refl dir : is_under dir dir = true.
Proof. unfold is_under. rewrite String.eqb_refl. reflexivity. Qed.

(** What one round of finalization does, for a workspace as
    [_workdir_setup] records it. *)
Lemma clean_work_dir_doc_moves self doc t w w' :
  targs doc = Some t ->
  work_dir self !! t = Some (work_path_of self doc) ->
  (fs w !! path_join (build_dir self) doc = None \/
   exists c, fs w !! path_join (build_dir self) doc = Some (File c)) ->
  clean_work_dir_doc self doc w = (Ok tt, w') ->
  let wd := work_path_of self doc in
  let dst := path_join (build_dir self) doc in
  exists content,
    read_file (path_join (path_join wd "build") doc) w = (Ok content, w) /\
    fs w' !! dst = Some (File content) /\
    (forall p, is_under wd p = true -> fs w' !! p = None) /\
    (forall p, is_under wd p = false -> p <> dst -> fs w' !! p = fs w !! p) /\
    procs w' = procs w.
Proof.
  intros Ht Hw Hdst H wd dst. unfold clean_work_dir_doc in H.
  fold dst in H, Hdst. fold wd in Hw.
  pose proof (output_outside_workspace self doc) as Hout. fold wd dst in Hout.
  assert (Hne : dst <> wd).
  { intros E. rewrite E, is_under_refl in Hout. discriminate Hout. }
  inv_bind H. rewrite build_targs_of_eq, Ht in S. injection S as <- <-.
  inv_step H. rewrite Hw in H0. injection H0 as <-.
  inv_bind H. unfold copy2 in S.
  inv_bind S. pose proof (read_file_world _ _ _ _ S0) as ->.
  inv_step S.
  assert (Hd : match fs w !! dst with
               | Some Dir => path_join dst (path_name (path_join (path_join wd "build") doc))
               | _ => dst
               end = dst)
    by (destruct Hdst as [-> | [c ->]]; reflexivity).
  rewrite Hd in S. unfold modify in S. injection S as <- <-.
  inv_step H. inv_step H. rewrite Hw in H0. injection H0 as <-.
  revert H. unfold rmtree, bind, get, modify, raise. world_simpl.
  rewrite lookup_insert_ne by exact Hne.
  destruct (fs w !! wd) as [[|c|l]|] eqn:D; try discriminate.
  intros [= <-]. world_simpl.
  eexists. split; [exact S0|].
  split; [rewrite lookup_outside, Hout; apply lookup_insert_eq|].
  split; [intros p Hp; rewrite lookup_outside, Hp; reflexivity|].
  split; [|reflexivity].
  intros p Hp Hpd. rewrite lookup_outside, Hp. apply lookup_insert_ne. congruence.
Qed.

(** X22: finalization moves the artifact: when the round of a document
    ends well, the output directory holds what the renderer left in the
    workspace, the workspace is gone with everything in it, no process has
    been started and no other file has changed. *)
Theorem X22_finalization_moves_the_artifact self doc t w w' :
  targs doc = Some t ->
  work_dir self !! t = Some (work_path_of self doc) ->
  (fs w !! path_join (build_dir self) doc = None \/
   exists c, fs w !! path_join (build_dir self) doc = Some (File c)) ->
  clean_work_dir_doc self doc w = (Ok tt, w') ->
  let wd := work_path_of self doc in
  let dst := path_join (build_dir self) doc in
  exists content,
    read_file (path_join (path_join wd "build") doc) w = (Ok content, w) /\
    fs w' !! dst = Some (File content) /\
    (forall p, is_under wd p = true -> fs w' !! p = None) /\
    (forall p, is_under wd p = false -> p <> dst -> fs w' !! p = fs w !! p) /\
    procs w' = procs w.
Proof.
  intros Ht Hw Hdst H.
  apply (clean_work_dir_doc_moves self doc t w w' Ht Hw Hdst H).
Qed.

(** ** Finalizing twice *)

Lemma rev_app_append (a b acc : string) :
  String.rev_app (a +:+ b) acc = String.rev_app b (String.rev_app a acc).
Proof.
  revert acc. induction a as [|c a IH]; intros acc; [reflexivity|].
  rewrite append_cons. cbn [String.rev_app]. apply IH.
Qed.

Lemma nonempty_append a c b : nonempty (a +:+ String c b) = true.
Proof. destruct a; reflexivity. Qed.

(** The artifact of a document lies in its workspace. *)
Lemma artifact_in_workspace self doc :
  startswith "/" doc = false ->
  is_under (work_path_of self doc)
    (path_join (path_join (work_path_of self doc) "build") doc) = true.
Proof.
  intros Hrel. unfold work_path_of.
  rewrite path_join_append by reflexivity.
  set (x := path_join (build_dir self) doc).
  assert (E1 : path_join (x +:+ ".workdir") "build" = x +:+ ".workdir/build").
  { unfold path_join. change (startswith "/" "build") with false. cbv iota.
    rewrite nonempty_append. cbn [negb].
    unfold endswith_slash, String.rev. rewrite rev_app_append.
    cbn [String.rev_app]. rewrite append_assoc. reflexivity. }
  rewrite E1. unfold path_join. rewrite Hrel.
  rewrite nonempty_append. cbn [negb].
  unfold endswith_slash, String.rev. rewrite rev_app_append.
  cbn [String.rev_app].
  unfold is_under. apply orb_true_intro. right.
  assert (E2 : (x +:+ ".workdir/build") +:+ "/" +:+ doc =
               ((x +:+ ".workdir") +:+ "/") +:+ ("build/" +:+ doc))
    by (rewrite !append_assoc; reflexivity).
  rewrite E2. apply startswith_append.
Qed.

(** X23: finalization cannot be run twice: the first run has removed
    the workspace and the artifact with it, so a second run for the same
    document finds nothing to copy and raises [FileNotFoundError] without
    changing anything. *)
Theorem X23_finalization_cannot_be_repeated self doc t w w' :
  targs doc = Some t ->
  work_dir self !! t = Some (work_path_of self doc) ->
  startswith "/" doc = false ->
  clean_work_dir_doc self doc w = (Ok tt, w') ->
  clean_work_dir_doc self doc w' =
    (Raise (FileNotFoundError
              (path_join (path_join (work_path_of self doc) "build") doc)), w').
Proof.
  intros Ht Hw Hrel H.
  assert (Hgone : fs w' !! path_join (path_join (work_path_of self doc) "build") doc
                  = None).
  { unfold clean_work_dir_doc in H.
    inv_bind H. rewrite build_targs_of_eq, Ht in S. injection S as <- <-.
    inv_step H. inv_bind H. inv_step H. inv_step H.
    rewrite Hw in H1. injection H1 as <-.
    revert H. unfold rmtree, bind, get, modify, raise.
    destruct (fs _ !! work_path_of self doc) as [[|c|l]|]; try discriminate.
    intros [= <-]. world_simpl.
    rewrite lookup_outside, artifact_in_workspace by exact Hrel. reflexivity. }
  unfold clean_work_dir_doc. unfold bind at 1. rewrite build_targs_of_eq, Ht.
  unfold bind at 1. rewrite (subscript_Some _ _ _ _ Hw).
  unfold bind at 1. unfold copy2. unfold bind at 1.
  unfold read_file, bind, get. rewrite Hgone. reflexivity.
Qed.

(** ** The processes of a computation *)

Lemma spawns_nothing {A} P (m : M A) : keeps procs m -> spawns_only P m.
Proof.
  intros K w r w' H. exists []. rewrite app_nil_r. split; [|constructor].
  apply (K _ _ _ H).
Qed.

Lemma spawns_bind {A B} P (m : M A) (k : A -> M B) :
  spawns_only P m -> (forall a, spawns_only P (k a)) -> spawns_only P (bind m k).
Proof.
  unfold spawns_only, bind. intros Hm Hk w r w'.
  destruct (m w) as [[a|e] w1] eqn:E.
  - intros H. destruct (Hm _ _ _ E) as (evs1 & E1 & F1).
    destruct (Hk _ _ _ _ H) as (evs2 & E2 & F2).
    exists (evs1 ++ evs2). rewrite E2, E1, app_assoc. split; [reflexivity|].
    apply Forall_app. auto.
  - intros [= <- <-]. eapply Hm, E.
Qed.

Lemma spawns_bind_subscript {V B} P (d : gmap string V) k (kont : V -> M B) :
  (forall v, d !! k = Some v -> spawns_only P (kont v)) ->
  spawns_only P (bind (subscript d k) kont).
Proof.
  unfold spawns_only, bind, subscript. intros Hk w r w'.
  destruct (d !! k) as [v|]; [apply Hk; reflexivity|].
  unfold raise. intros [= <- <-]. exists []. rewrite app_nil_r. split; [reflexivity|constructor].
Qed.

Lemma spawns_try {A} P (m : M A) handler :
  spawns_only P m ->
  (forall e, match handler e with Some k => spawns_only P k | None => True end) ->
  spawns_only P (try_except m handler).
Proof.
  unfold spawns_only, try_except. intros Hm Hh w r w'.
  destruct (m w) as [[a|e] w1] eqn:E.
  - intros [= <- <-]. eapply Hm, E.
  - specialize (Hh e). destruct (handler e) as [k|].
    + intros H. destruct (Hm _ _ _ E) as (evs1 & E1 & F1).
      destruct (Hh _ _ _ H) as (evs2 & E2 & F2).
      exists (evs1 ++ evs2). rewrite E2, E1, app_assoc. split; [reflexivity|].
      apply Forall_app. auto.
    + intros [= <- <-]. eapply Hm, E.
Qed.

Lemma spawns_for_each {A S} P (l : list A) (body : A -> S -> M S) s :
  (forall x s, spawns_only P (body x s)) -> spawns_only P (for_each l body s).
Proof.
  intros Hb. revert s. induction l as [|x l IH]; intros s; cbn [for_each].
  - apply spawns_nothing, keeps_ret.
  - apply spawns_bind; auto.
Qed.

Lemma spawns_subprocess_run (P : command -> Prop) cmd vars c :
  P cmd -> spawns_only P (subprocess_run cmd vars c).
Proof.
  intros HP w r w'. unfold subprocess_run, bind, get, modify, ret, raise.
  world_simpl. intros H. exists [Spawned (cwd w) cmd vars].
  split; [|repeat constructor; exact HP].
  destruct (spawn h _ _); injection H as <- <-; reflexivity.
Qed.

Ltac spawns_step :=
  match goal with
  | |- spawns_only _ (bind (subscript _ _) _) =>
      apply spawns_bind_subscript; intros ? ?
  | |- spawns_only _ (bind _ _) => apply spawns_bind; [|intros ?]
  | |- spawns_only _ (try_except _ _) => apply spawns_try; [|intros ?]
  | |- spawns_only _ (subprocess_run _ _ _) => apply spawns_subprocess_run
  | |- spawns_only _ (for_each _ _ _) => apply spawns_for_each; intros ? ?
  | |- spawns_only _ (if ?b then _ else _) => destruct b
  | |- spawns_only _ (match ?x with _ => _ end) => destruct x
  | |- spawns_only _ _ => apply spawns_nothing; keeps_tac
  | |- match (if ?b then _ else _) with _ => _ end => destruct b
  | |- match (match ?x with _ => _ end) with _ => _ end => destruct x
  | |- match Some _ with _ => _ end => cbv iota beta
  | |- match None with _ => _ end => exact I
  | |- True => exact I
  end.

Ltac unfold_script_but_run :=
  unfold main, build_and_finalize, build_requested, clean_work_dir,
    clean_work_dir_doc, prepare_env, check_required_source, check_packages,
    build_for_all, run_renderer, build_command, update_wave, update_wave_files,
    update_wave_file, _workdir_setup, _workdir_setup_doc, build_targs_of,
    _setup_ruby_environment, _setup_node_environment, _install_packages,
    _check_package_installed, _check_distribution, decode,
    write_temporary_file, chdir, rmtree, copy2, unlink, symlink, makedirs,
    read_file, path_exists, error, success, warning, info, debug, log.

Lemma DocumentBuilder_init_keeps_procs config vb :
  keeps procs (DocumentBuilder_init config vb).
Proof.
  unfold DocumentBuilder_init, select_docs, list_append. keeps_tac.
Qed.

(** X24: a run with [--update-wave] starts nothing but the tools of the
    diagram chain: [node], the installer line of [fnm], [fnm], [npm] and
    [wavedrom-cli].  No package is queried or installed, no renderer of
    the manual is run. *)
Theorem X24_update_wave_runs_the_diagram_tools_only a :
  forall w r w',
  clean a = false -> arg_update_wave a = true ->
  main a w = (r, w') ->
  exists evs,
    procs w' = procs w ++ evs /\
    Forall (fun ev =>
              program (ev_cmd ev) ∈
                ["node"; "curl -o- https://fnm.vercel.app/install | bash";
                 "fnm"; "npm"; "wavedrom-cli"]) evs.
Proof.
  intros w r w' Hc Hu. revert w r w'.
  change (spawns_only
            (fun c => program c ∈
               ["node"; "curl -o- https://fnm.vercel.app/install | bash";
                "fnm"; "npm"; "wavedrom-cli"]) (main a)).
  unfold main. rewrite Hc, Hu.
  apply spawns_bind; [apply spawns_nothing, DocumentBuilder_init_keeps_procs|].
  intros builder. unfold_script_but_run.
  repeat spawns_step; cbn [program]; try (repeat constructor; fail).
  cbn [dep_node configure_deps] in H.
  rewrite lookup_insert_ne in H by discriminate.
  vm_compute in H. injection H as <-. repeat constructor.
Qed.

(** ** A whole regeneration *)

Ltac inv_bind_as H a w1 S :=
  apply bind_Ok_inv in H; destruct H as (a & w1 & S & H).

(** X25: [update_wave] never returns [False]: when it returns, the Node
    set-up has gone through and every diagram source of the listing has
    an image, a rendering by [wavedrom-cli], in the image directory. *)
Theorem X25_update_wave_result self deps w self' ok w' :
  update_wave self deps w = (Ok (self', ok), w') ->
  ok = true /\
  forall g,
    g ∈ glob h (fs w) (ROOT_PATH h +:+ "/assets/images/wavedrom/edn") "*.edn" ->
    exists X,
      fs w' !! svg_file_of (ROOT_PATH h +:+ "/assets/images/wavedrom/svg") g =
        Some (File (wavedrom h X)).
Proof.
  unfold update_wave. intros H. inv_step H.
  inv_bind_as H r1 w_node S_node. destruct r1 as [self1 ok1].
  apply _setup_node_environment_inv in S_node.
  destruct S_node as (-> & _ & _ & _ & Hf & _).
  cbn [negb] in H. inv_step H. inv_step H.
  inv_bind_as H u w_files S_files. destruct u. inv_step H.
  unfold ret in H. injection H as <- <- <-.
  split; [reflexivity|]. intros g Hg. world_simpl.
  apply (update_wave_files_images _ _ _ _ _ S_files g).
  revert Hf Hg. destruct (verbose self); world_simpl; intros -> Hg; exact Hg.
Qed.

(** ** From the renderer to the output directory *)

Lemma build_command_world self t w r w' :
  build_command self t w = (r, w') -> w' = w.
Proof.
  unfold build_command, subscript, bind, get, ret, raise.
  destruct (build_cmd self !! t); [|intros [= _ <-]; reflexivity].
  destruct (ruby_require self); intros [= _ <-]; reflexivity.
Qed.

(** A renderer that ends well has left the document of its format in
    [build] under the directory it ran in. *)
Lemma run_renderer_Ok self t c w w' :
  run_renderer self t c w = (Ok tt, w') ->
  fs w' = fs (rendered t c w) /\ cwd w' = cwd w.
Proof.
  unfold run_renderer, info, debug, success, error, log, try_except, subprocess_run.
  assert (R : forall w0, fs w0 = fs w -> cwd w0 = cwd w ->
                fs (rendered t c w0) = fs (rendered t c w) /\
                cwd (rendered t c w0) = cwd w).
  { intros w0 Hf Hc. unfold rendered.
    destruct (cfg_docs CONFIGS !! t); world_simpl; rewrite ?Hf, ?Hc; auto. }
  destruct (verbose self); unfold bind, get, modify, ret, raise; world_simpl;
    (destruct (spawn h _ _) as [out|err|]; world_simpl;
     [ | try (destruct err as [|? err]; cbn [captured nonempty decode];
              unfold raise, ret; world_simpl); discriminate
       | discriminate ]);
    intros [= <-]; world_simpl; apply R; world_simpl; reflexivity.
Qed.

Lemma startswith_slash_append a b :
  startswith "/" a = true -> startswith "/" (a +:+ b) = true.
Proof.
  destruct a as [|c a]; [discriminate|]. rewrite append_cons.
  unfold startswith. cbn [String.prefix].
  destruct (ascii_dec "/" c); [|discriminate].
  rewrite !prefix_empty. reflexivity.
Qed.

Lemma path_join_absolute a b :
  startswith "/" a = true -> startswith "/" (path_join a b) = true.
Proof.
  intros Ha. unfold path_join.
  destruct (startswith "/" b) eqn:B; [exact B|].
  destruct a as [|c a]; [discriminate Ha|]. cbn [nonempty negb].
  destruct (endswith_slash (String c a)); apply startswith_slash_append, Ha.
Qed.

Lemma path_join_onto_absolute a b : startswith "/" b = true -> path_join a b = b.
Proof. intros Hb. unfold path_join. rewrite Hb. reflexivity. Qed.

Lemma cfg_docs_shape t doc :
  cfg_docs CONFIGS !! t = Some doc ->
  targs doc = Some t /\ startswith "/" doc = false.
Proof.
  intros H. apply cfg_docs_keys in H.
  in_cases H; injection H as -> ->; split; reflexivity.
Qed.

(** A build and then the finalization of its document. *)
Lemma build_then_finalize self t doc w w1 w2 :
  cfg_docs CONFIGS !! t = Some doc ->
  work_dir self !! t = Some (work_path_of self doc) ->
  startswith "/" (build_dir self) = true ->
  (fs w !! path_join (build_dir self) doc = None \/
   exists c, fs w !! path_join (build_dir self) doc = Some (File c)) ->
  build_for_all self t w = (Ok tt, w1) ->
  clean_work_dir_doc self doc w1 = (Ok tt, w2) ->
  exists cmd,
    build_command self t w = (Ok cmd, w) /\
    fs w2 !! path_join (build_dir self) doc = Some (File (asciidoctor h cmd)) /\
    (forall p, is_under (work_path_of self doc) p = true -> fs w2 !! p = None).
Proof.
  intros Hdoc Hw Habs Hdst Hb Hc.
  destruct (cfg_docs_shape _ _ Hdoc) as (Ht & Hrel).
  set (wd := work_path_of self doc) in *.
  set (dst := path_join (build_dir self) doc) in *.
  set (art := path_join (path_join wd "build") doc).
  assert (Hwd : startswith "/" wd = true) by (apply path_join_absolute, Habs).
  assert (Hart : fs w1 !! art = Some (File (asciidoctor h (value_or "" (fst (build_command self t w))))) /\
                 build_command self t w =
                   (Ok (value_or "" (fst (build_command self t w))), w) /\
                 fs w1 !! dst = fs w !! dst).
  { unfold build_for_all in Hb. inv_bind_as Hb cmd w_cmd S_cmd.
    pose proof (build_command_world _ _ _ _ _ S_cmd) as ->. rewrite S_cmd.
    cbn [fst value_or].
    inv_bind_as Hb wd' w_sub S_sub. apply subscript_Ok_inv in S_sub.
    destruct S_sub as (Hwd' & ->). rewrite Hw in Hwd'. injection Hwd' as <-.
    inv_bind_as Hb u w_dir S_dir. unfold chdir, bind, get, modify, raise in S_dir.
    rewrite (path_join_onto_absolute _ _ Hwd) in S_dir.
    destruct (fs w !! wd) as [[|c|l]|]; try discriminate S_dir;
      injection S_dir as <- <-;
      apply run_renderer_Ok in Hb; destruct Hb as (Hf & _);
      unfold rendered in Hf; rewrite Hdoc in Hf; revert Hf; world_simpl;
      fold art; intros Hf; rewrite Hf;
      (split; [apply lookup_insert_eq|]); (split; [reflexivity|]);
      apply lookup_insert_ne; intros E;
      pose proof (artifact_in_workspace self doc Hrel) as Hin;
      pose proof (output_outside_workspace self doc) as Hout;
      fold wd art in Hin; fold wd dst in Hout; congruence. }
  destruct Hart as (Hart & Hcmd & Hsame).
  assert (Hdst1 : fs w1 !! dst = None \/ exists c, fs w1 !! dst = Some (File c))
    by (rewrite Hsame; exact Hdst).
  destruct (clean_work_dir_doc_moves self doc t w1 w2 Ht Hw Hdst1 Hc)
    as (content & Hread & Hout & Hgone & _).
  fold wd art in Hread. fold dst in Hout. fold wd in Hgone.
  unfold read_file, bind, get, ret in Hread. rewrite Hart in Hread.
  injection Hread as <-.
  eexists. split; [exact Hcmd|]. split; [exact Hout|exact Hgone].
Qed.

(** X26: what finalization puts into the output directory is what the
    renderer wrote.  When the build of a format and then the finalization
    of its document end well, in the workspace that [_workdir_setup]
    recorded under an absolute build directory, the output path holds the
    document that the renderer made for the command line of
    [build_for_all], and the workspace is gone. *)
Theorem X26_finalization_promotes_what_the_renderer_wrote
    self t doc w w1 w2 :
  cfg_docs CONFIGS !! t = Some doc ->
  work_dir self !! t = Some (work_path_of self doc) ->
  startswith "/" (build_dir self) = true ->
  (fs w !! path_join (build_dir self) doc = None \/
   exists c, fs w !! path_join (build_dir self) doc = Some (File c)) ->
  build_for_all self t w = (Ok tt, w1) ->
  clean_work_dir_doc self doc w1 = (Ok tt, w2) ->
  exists cmd,
    build_command self t w = (Ok cmd, w) /\
    fs w2 !! path_join (build_dir self) doc = Some (File (asciidoctor h cmd)) /\
    (forall p, is_under (work_path_of self doc) p = true -> fs w2 !! p = None).
Proof.
  intros Hdoc Hw Habs Hdst Hb Hc.
  apply (build_then_finalize self t doc w w1 w2 Hdoc Hw Habs Hdst Hb Hc).
Qed.

(** ** What the preparation creates *)

Lemma str_join_cons sep x y l :
  str_join sep (x :: y :: l) = x +:+ sep +:+ str_join sep (y :: l).
Proof. reflexivity. Qed.

Lemma str_join_split p : str_join "/" (str_split "/" p) = p.
Proof.
  induction p as [|c t IH]; [reflexivity|]. cbn [str_split].
  destruct (str_split "/" t) as [|f l] eqn:E;
    [destruct (str_split_nonnil _ _ E)|].
  destruct (Ascii.eqb_spec c "/") as [->|Hc].
  - rewrite str_join_cons, IH. reflexivity.
  - destruct l as [|g l].
    + cbn [str_join] in *. rewrite IH. reflexivity.
    + rewrite str_join_cons in *. rewrite append_cons, IH. reflexivity.
Qed.

Lemma ancestors_from_spec acc comps a :
  a ∈ ancestors_from acc comps ->
  exists rest, acc +:+ str_join "/" comps = a +:+ "/" +:+ rest.
Proof.
  revert acc. induction comps as [|c l IH]; intros acc H.
  - apply elem_of_nil in H. destruct H.
  - destruct l as [|d l]; [apply elem_of_nil in H; destruct H|].
    change (ancestors_from acc (c :: d :: l)) with
      ((if nonempty (acc +:+ c) then [acc +:+ c] else []) ++
       ancestors_from ((acc +:+ c) +:+ "/") (d :: l)) in H.
    apply elem_of_app in H. destruct H as [H|H].
    + destruct (nonempty (acc +:+ c)); [|apply elem_of_nil in H; destruct H].
      apply list_elem_of_singleton in H. subst a.
      exists (str_join "/" (d :: l)).
      rewrite str_join_cons, !append_assoc. reflexivity.
    + apply IH in H. destruct H as (r & E). exists r.
      rewrite <- E, str_join_cons, !append_assoc. reflexivity.
Qed.

(** An ancestor of a path is a directory above it. *)
Lemma ancestors_startswith a p :
  a ∈ ancestors p -> startswith (a +:+ "/") p = true.
Proof.
  unfold ancestors. intros H. apply ancestors_from_spec in H.
  destruct H as (r & E). rewrite append_nil, str_join_split in E.
  rewrite E, <- (append_assoc a "/" r). apply startswith_append.
Qed.

Lemma startswith_common p a b :
  startswith (p +:+ a) (p +:+ b) = startswith a b.
Proof.
  induction p as [|c p IH]; [reflexivity|]. rewrite !append_cons.
  unfold startswith in *. cbn [String.prefix].
  destruct (ascii_dec c c); [exact IH|congruence].
Qed.

Lemma foldl_mkdir_lookup dirs files p :
  foldl mkdir_if_absent files dirs !! p = files !! p \/ p ∈ dirs.
Proof.
  revert files. induction dirs as [|d dirs IH]; intros files; [left; reflexivity|].
  cbn [foldl]. destruct (IH (mkdir_if_absent files d)) as [E|E].
  - rewrite E. unfold mkdir_if_absent. destruct (files !! d) eqn:D; [left; reflexivity|].
    destruct (decide (d = p)) as [->|N]; [right; constructor|].
    left. apply lookup_insert_ne, N.
  - right. constructor. exact E.
Qed.

Lemma is_under_child dir name : is_under dir (dir +:+ "/" +:+ name) = true.
Proof.
  unfold is_under. apply orb_true_intro. right.
  rewrite <- (append_assoc dir "/" name). apply startswith_append.
Qed.

(** A round of [_workdir_setup] touches the workspace, what is in it, and
    the directories above it, and nothing else. *)
Lemma _workdir_setup_doc_changes doc self w self' w' p :
  _workdir_setup_doc doc self w = (Ok self', w') ->
  fs w' !! p = fs w !! p \/
  is_under (work_path_of self doc) p = true \/
  p ∈ ancestors (work_path_of self doc).
Proof.
  destruct (fs w !! work_path_of self doc) as [n|] eqn:Hp.
  - rewrite _workdir_setup_doc_present by eauto.
    destruct (targs doc); [|discriminate]. intros [= _ <-]. left. reflexivity.
  - destruct (is_under (work_path_of self doc) p) eqn:U; [auto|].
    unfold _workdir_setup_doc. fold (work_path_of self doc).
    set (wp := work_path_of self doc) in *.
    assert (N0 : wp <> p) by (intros ->; rewrite is_under_refl in U; discriminate U).
    assert (N1 : wp +:+ "/src" <> p).
    { intros <-. assert (C := is_under_child wp "src").
      change (is_under wp (wp +:+ "/src") = true) in C. congruence. }
    assert (N2 : wp +:+ "/docs-resources" <> p).
    { intros <-. assert (C := is_under_child wp "docs-resources").
      change (is_under wp (wp +:+ "/docs-resources") = true) in C. congruence. }
    assert (N3 : wp +:+ "/assets" <> p).
    { intros <-. assert (C := is_under_child wp "assets").
      change (is_under wp (wp +:+ "/assets") = true) in C. congruence. }
    unfold path_exists. unfold bind at 1. unfold bind at 1, get at 1.
    rewrite Hp. unfold ret at 1. cbn [negb].
    unfold makedirs, symlink, debug, log.
    destruct (verbose self);
      unfold bind, get, modify, ret, raise; world_simpl; rewrite Hp; world_simpl;
      (destruct (_ !! (wp +:+ "/src")) eqn:L1; [discriminate|]); world_simpl;
      (destruct (_ !! (wp +:+ "/docs-resources")) eqn:L2; [discriminate|]);
      world_simpl;
      (destruct (_ !! (wp +:+ "/assets")) eqn:L3; [discriminate|]); world_simpl;
      rewrite build_targs_of_eq; (destruct (targs doc) as [t|]; [|discriminate]);
      intros [= _ <-]; world_simpl;
      rewrite !lookup_insert_ne by assumption;
      (destruct (foldl_mkdir_lookup (ancestors wp) (fs w) p) as [E|E]; auto).
Qed.

(** The same for a whole pass. *)
Lemma _workdir_setup_pass_changes docs self0 m w self' w' p :
  for_each docs _workdir_setup_doc (set_work_dir m self0) w = (Ok self', w') ->
  fs w' !! p = fs w !! p \/
  exists doc, doc ∈ docs /\
    (is_under (work_path_of self0 doc) p = true \/
     p ∈ ancestors (work_path_of self0 doc)).
Proof.
  revert m w. induction docs as [|d docs IH]; intros m w; cbn [for_each].
  - unfold ret. intros [= _ <-]. left. reflexivity.
  - unfold bind.
    destruct (_workdir_setup_doc d (set_work_dir m self0) w) as [[s1|e] w1] eqn:E;
      [|discriminate].
    pose proof (_workdir_setup_doc_changes _ _ _ _ _ p E) as C.
    apply _workdir_setup_doc_Ok in E. destruct E as (t & _ & -> & _).
    rewrite set_work_dir_twice. intros H. apply IH in H.
    rewrite work_path_of_set_work_dir in C.
    destruct H as [H|(doc & Hd & H)].
    + rewrite H. destruct C as [C|C]; [left; exact C|].
      right. exists d. split; [constructor|exact C].
    + right. exists doc. split; [constructor; exact Hd|exact H].
Qed.

(** The output path of a document is none of the paths that the set-up of
    its workspace touches. *)
Lemma output_untouched_by_setup self doc :
  let dst := path_join (build_dir self) doc in
  is_under (work_path_of self doc) dst = false /\
  dst ∉ ancestors (work_path_of self doc).
Proof.
  cbv zeta. split; [apply output_outside_workspace|].
  intros H. apply ancestors_startswith in H. unfold work_path_of in H.
  rewrite path_join_append in H by reflexivity.
  rewrite startswith_common in H. discriminate H.
Qed.

Lemma prepare_env_keeps_OPTIONS self deps : keeps OPTIONS (prepare_env self deps).
Proof. unfold_script. keeps_tac. Qed.

Lemma check_packages_keeps_fs packages : keeps fs (check_packages packages).
Proof. unfold_script. keeps_tac. Qed.

Lemma _install_packages_keeps_fs self packages :
  keeps fs (_install_packages self packages).
Proof. unfold_script. keeps_tac. Qed.

Lemma check_required_sources_keep_fs self sources :
  keeps fs (for_each sources (fun source _ => check_required_source self source) tt).
Proof. unfold_script. keeps_tac. Qed.

(** What the preparation leaves alone: the shared options, the build
    commands, and every file that is neither in a workspace nor a
    directory above one. *)
Lemma prepare_env_frame self deps w self' ok w' p :
  prepare_env self deps w = (Ok (self', ok), w') ->
  OPTIONS w' = OPTIONS w /\
  build_cmd self' = build_cmd self /\
  build_target self' = build_target self /\
  (fs w' !! p = fs w !! p \/
   exists doc, doc ∈ docs self /\
     (is_under (work_path_of self doc) p = true \/
      p ∈ ancestors (work_path_of self doc))).
Proof.
  intros H. split; [apply (prepare_env_keeps_OPTIONS _ _ _ _ _ H)|].
  unfold prepare_env in H. inv_step H.
  inv_bind_as H distro w_d S_d. apply _check_distribution_inv in S_d.
  destruct S_d as (-> & [-> | ->]);
    [|inv_bind_as H u w_e S_e; rewrite error_eq in S_e; discriminate S_e].
  change ("apt" =? "apt")%string with true in H. cbv iota in H.
  inv_bind_as H missing w_p S_p.
  pose proof (check_packages_keeps_fs _ _ _ _ S_p) as F1.
  inv_bind_as H installed w_i S_i.
  assert (installed = true /\ fs w_i = fs w_p) as (-> & F2).
  { destruct missing.
    - inv_step S_i. unfold ret in S_i. injection S_i as <- <-. auto.
    - split; [eapply _install_packages_inv, S_i|].
      apply (_install_packages_keeps_fs _ _ _ _ _ S_i). }
  cbn [negb] in H. inv_bind_as H r1 w_r S_r. destruct r1 as [self1 ok1].
  apply _setup_ruby_environment_inv in S_r.
  destruct S_r as (-> & rip & old & evs & _ & _ & _ & _ & _ & _ & _ &
                   _ & _ & _ & _ & F3 & _ & ->).
  cbn [negb] in H.
  inv_bind_as H r2 w_n S_n. destruct r2 as [self2 ok2].
  apply _setup_node_environment_inv in S_n.
  destruct S_n as (-> & _ & Hs2 & _ & F4 & _).
  cbn [negb] in H. inv_bind_as H u w_s S_s.
  pose proof (check_required_sources_keep_fs _ _ _ _ _ S_s) as F5.
  inv_bind_as H self3 w_w S_w.
  unfold ret in H. injection H as <- <- <-.
  unfold _workdir_setup in S_w.
  rewrite <- (set_work_dir_same self2) in S_w at 2.
  pose proof (_workdir_setup_pass_changes _ _ _ _ _ _ p S_w) as C.
  apply _workdir_setup_pass in S_w. destruct S_w as (-> & _ & _).
  revert F1. world_simpl. intros F1.
  rewrite F5, F4, F3, F2, F1 in C.
  assert (Hsame : build_cmd self2 = build_cmd self /\
                  build_target self2 = build_target self /\
                  docs self2 = docs self /\
                  forall doc, work_path_of self2 doc = work_path_of self doc).
  { rewrite Hs2.
    destruct (dep_node deps !! "install_path");
      [destruct (_ !! "PATH")|]; repeat split. }
  destruct Hsame as (Hbc & Hbt & Hd & Hwp).
  cbn [build_cmd build_target set_work_dir].
  split; [exact Hbc|]. split; [exact Hbt|].
  destruct C as [C|(doc & Hin & C)]; [left; exact C|].
  right. exists doc. rewrite <- Hd, <- Hwp. auto.
Qed.

(** ** A whole run for one format *)

Lemma main_handler_raises e (k : M unit) w1 :
  (if is_Exception e
   then Some (error ("Unexpected error during build: " +:+ exn_str e))
   else None) = Some k ->
  exists e' w2, k w1 = (Raise e', w2).
Proof.
  destruct (is_Exception e); [|discriminate]. intros [= <-].
  rewrite error_eq. eauto.
Qed.

(** The steps of a build run that ends well. *)
Lemma main_build_Ok a w w' :
  clean a = false -> arg_update_wave a = false ->
  main a w = (Ok tt, w') ->
  exists builder w0 builder1 w1 w2 w3,
    DocumentBuilder_init (configure a) (arg_verbose a) w = (Ok builder, w0) /\
    prepare_env builder (configure_deps a) w0 = (Ok (builder1, true), w1) /\
    build_requested builder1 w1 = (Ok tt, w2) /\
    clean_work_dir builder1 w2 = (Ok tt, w3) /\
    fs w' = fs w3.
Proof.
  intros Hc Hu H. unfold main in H. inv_bind_as H builder w0 S_i.
  rewrite Hc, Hu in H.
  apply try_except_Ok_inv in H; [|apply main_handler_raises].
  unfold build_and_finalize in H.
  inv_bind_as H r w1 S_p. destruct r as [builder1 ok].
  pose proof S_p as Hok. apply prepare_env_inv in Hok. destruct Hok as (-> & _).
  cbn [negb] in H.
  inv_bind_as H u w2 S_b. destruct u.
  inv_bind_as H u w3 S_c. destruct u.
  unfold success in H. rewrite log_eq in H. injection H as <-.
  exists builder, w0, builder1, w1, w2, w3. world_simpl. auto.
Qed.

(** X27: a run for one of the formats pdf, html and epub that ends
    normally has delivered the document.  The file
    [build/openrisc-manual.<format>] then holds what the renderer made for
    the command line of the format: its base command, the options of the
    module with the three flags that the constructor added for the
    release type, the five [--require] flags and the source; and the
    workspace of the format is gone. *)
Theorem X27_a_run_for_one_format_delivers_the_document a w w' :
  clean a = false -> arg_update_wave a = false ->
  target a ∈ ["pdf"; "html"; "epub"] ->
  startswith "/" (ROOT_PATH h) = true ->
  let doc := "openrisc-manual." +:+ target a in
  let out := path_join (ROOT_PATH h +:+ "/build") doc in
  (fs w !! out = None \/ exists c, fs w !! out = Some (File c)) ->
  main a w = (Ok tt, w') ->
  exists base tc,
    cfg_build_cmd CONFIGS !! target a = Some base /\
    cfg_type_config CONFIGS !! release_type a = Some tc /\
    fs w' !! out =
      Some (File (asciidoctor h
                    (str_join " "
                       (base ++ OPTIONS w ++ appended_flags (configure a) tc ++
                        REQUIRES ++ ["src/openrisc-manual.adoc"])))) /\
    (forall p,
       is_under (path_join (ROOT_PATH h +:+ "/build") (doc +:+ ".workdir")) p = true ->
       fs w' !! p = None).
Proof.
  intros Hc Hu Ht Habs doc out Hout H.
  destruct (main_build_Ok a w w' Hc Hu H)
    as (builder & w0 & b1 & w1 & w2 & w3 & Hi & Hp & Hb & Hf & Hfs).
  apply DocumentBuilder_init_Ok in Hi.
  destruct Hi as (ds & tc & Hds & Htc & -> & Hdocs & Hwd & _ & _ & Htg & Hbd & Hbc).
  change (cfg_build_dir (configure a)) with (ROOT_PATH h +:+ "/build") in Hbd.
  change (cfg_build_cmd (configure a)) with (cfg_build_cmd CONFIGS) in Hbc.
  change (cfg_build_target (configure a)) with (target a) in Htg.
  change (cfg_type_config (configure a)) with (cfg_type_config CONFIGS) in Htc.
  change (cfg_default_type (configure a)) with (release_type a) in Htc.
  assert (Hds' : ds = [doc]).
  { destruct (select_docs_configure a w) as (ds' & E & ->).
    - in_cases Ht; rewrite Ht; repeat constructor.
    - rewrite E in Hds. injection Hds as <-.
      unfold doc. in_cases Ht; rewrite Ht; reflexivity. }
  rewrite Hds' in Hdocs. clear Hds' Hds.
  pose proof (prepare_env_frame _ _ _ _ _ _ out Hp) as (HO & Hbc1 & Htg1 & Hfr).
  apply prepare_env_inv in Hp.
  destruct Hp as (_ & Hreq & Hwd1 & Hdocs1 & Hbd1 & _).
  rewrite Hdocs in Hwd1, Hdocs1, Hfr. rewrite Hwd in Hwd1.
  rewrite Hbd in Hbd1. rewrite Hbc in Hbc1.
  assert (Hwp : forall d, work_path_of b1 d = work_path_of builder d)
    by (intros d; unfold work_path_of; rewrite Hbd, Hbd1; reflexivity).
  assert (Hdst : path_join (build_dir b1) doc = out)
    by (rewrite Hbd1; reflexivity).
  (* the output path is as it was when the builds start *)
  assert (Hout1 : fs w1 !! out = None \/ exists c, fs w1 !! out = Some (File c)).
  { destruct Hfr as [E|(d & Hd & E)].
    - rewrite E. world_simpl. exact Hout.
    - apply list_elem_of_singleton in Hd. subst d. exfalso.
      destruct (output_untouched_by_setup builder doc) as (U & A).
      cbv zeta in U, A. rewrite Hbd in U, A. fold out in U, A.
      destruct E as [E|E]; [congruence|exact (A E)]. }
  (* the single build and the single finalization *)
  assert (Hdoc : cfg_docs CONFIGS !! target a = Some doc)
    by (unfold doc; in_cases Ht; rewrite Ht; reflexivity).
  assert (Hbase : exists base, cfg_build_cmd CONFIGS !! target a = Some base /\
                               (target a =? "json")%string = false)
    by (in_cases Ht; rewrite Ht; eexists; split; reflexivity).
  destruct Hbase as (base & Hbase & Hjson).
  unfold build_requested in Hb. rewrite Htg1, Htg in Hb.
  rewrite bool_decide_eq_true_2 in Hb
    by (in_cases Ht; rewrite Ht; repeat constructor).
  unfold clean_work_dir in Hf. rewrite Hdocs1 in Hf. cbn [for_each] in Hf.
  inv_bind_as Hf u w_c S_c. destruct u. unfold ret in Hf. injection Hf as <-.
  destruct (build_then_finalize b1 (target a) doc w1 w2 w_c)
    as (cmd & Hcmd & Hfile & Hgone); try assumption.
  { rewrite Hwd1, Hwp. unfold doc.
    in_cases Ht; rewrite Ht; apply lookup_insert_eq. }
  { rewrite Hbd1. apply startswith_slash_append, Habs. }
  { rewrite Hdst. exact Hout1. }
  exists base, tc. split; [exact Hbase|]. split; [exact Htc|].
  rewrite Hfs. rewrite Hdst in Hfile. split.
  - rewrite Hfile. do 3 f_equal.
    unfold build_command in Hcmd. rewrite Hbc1 in Hcmd.
    unfold subscript in Hcmd. rewrite Hbase, Hjson, Hreq in Hcmd.
    unfold bind, get, ret in Hcmd. injection Hcmd as <-.
    destruct (options b1). cbn [deref]. rewrite HO. world_simpl.
    rewrite <- !app_assoc. reflexivity.
  - intros p Hp. apply Hgone. unfold work_path_of. rewrite Hbd1. exact Hp.
Qed.

(** ** The builds of the selector [all], one after the other *)




Lemma all_completed_snoc started evs ev :
  all_completed started evs ->
  (exists out, spawn h (started ++ evs) ev = Completed out) ->
  all_completed started (evs ++ [ev]).
Proof.
  revert started. induction evs as [|e evs IH]; intros started; cbn [all_completed app].
  - rewrite app_nil_r. auto.
  - intros (H1 & H2) H3. split; [exact H1|]. apply IH; [exact H2|].
    rewrite <- app_assoc. exact H3.
Qed.



End Script.

(** * The properties at work on sample runs *)

(** C1 on a sample run. *)
Lemma C1_witness :
  exists b w',
    DocumentBuilder_init quiet_host
      (configure quiet_host (cli "official" "pdf" "2.0.0")) false
      (fresh_world quiet_host ∅ ∅) = (Ok b, w') /\
    count_flags is_revnumber_flag (deref (options b) w') = 1 /\
    count_flags is_revremark_flag (deref (options b) w') = 1 /\
    (existsb is_watermark_flag (deref (options b) w') = true <->
     "official" = "draft").
Proof.
  apply (C1_one_revision_one_description quiet_host
           (cli "official" "pdf" "2.0.0") (fresh_world quiet_host ∅ ∅));
    [repeat constructor|repeat constructor|reflexivity].
Defined.

(** C7 on a sample run. *)
Lemma C7_witness :
  (exists b w',
     DocumentBuilder_init quiet_host
       (configure quiet_host (cli "draft" "pdf" "1.4.0")) false
       (fresh_world quiet_host ∅ ∅) = (Ok b, w') /\
     "-a draft-watermark" ∈ deref (options b) w' /\
     "-a revnumber=20250307" ∈ deref (options b) w') /\
  (exists b w',
     DocumentBuilder_init quiet_host
       (configure quiet_host (cli "official" "html" "2.0.0")) false
       (fresh_world quiet_host ∅ ∅) = (Ok b, w') /\
     "-a revnumber=2.0.0" ∈ deref (options b) w' /\
     existsb is_watermark_flag (deref (options b) w') = false).
Proof.
  split.
  - destruct (C7_draft_and_official_scenarios quiet_host
                (cli "draft" "pdf" "1.4.0") (fresh_world quiet_host ∅ ∅))
      as [Hdraft _]; [repeat constructor|reflexivity|].
    destruct (Hdraft eq_refl) as (b & w' & Hb & Hw & Hr & _).
    exists b, w'. split; [exact Hb|]. split; [exact Hw|exact Hr].
  - destruct (C7_draft_and_official_scenarios quiet_host
                (cli "official" "html" "2.0.0") (fresh_world quiet_host ∅ ∅))
      as [_ Hofficial]; [repeat constructor|reflexivity|].
    destruct (Hofficial eq_refl eq_refl) as (b & w' & Hb & Hr & _ & Hw).
    exists b, w'. split; [exact Hb|]. split; [exact Hr|exact Hw].
Defined.

(** C9 on a sample run. *)
Lemma C9_witness :
  exists b1 w1 b2 w2,
    DocumentBuilder_init quiet_host
      (configure quiet_host (cli "draft" "pdf" "1.4.0")) false
      (fresh_world quiet_host ∅ ∅) = (Ok b1, w1) /\
    DocumentBuilder_init quiet_host
      (configure quiet_host (cli "official" "html" "2.0.0")) false w1 = (Ok b2, w2) /\
    options b1 = options b2 /\
    count_flags is_revnumber_flag (deref (options b1) w1) = 1 /\
    count_flags is_revnumber_flag (deref (options b2) w2) = 2 /\
    count_flags is_revnumber_flag (deref (options b1) w2) = 2.
Proof.
  destruct (C9_second_builder_sees_flags_twice quiet_host
              (cli "draft" "pdf" "1.4.0") (cli "official" "html" "2.0.0")
              (fresh_world quiet_host ∅ ∅))
    as (b1 & w1 & b2 & w2 & tc1 & tc2 & H1 & H2 & _ & _ & O1 & O2 & _ & _ &
        D2 & D1 & N1 & N2 & _);
    [repeat constructor|repeat constructor|repeat constructor
    |repeat constructor|reflexivity|].
  exists b1, w1, b2, w2.
  split; [exact H1|]. split; [exact H2|].
  split; [rewrite O1, O2; reflexivity|].
  split; [exact N1|]. split; [exact N2|].
  rewrite D1, <- D2. exact N2.
Defined.

(** C2 on a sample run. *)
Lemma C2_witness :
  wave_extract
    ("[wavedrom]" +:+ String NL "" +:+ "...." +:+
     String NL ("WAVE{...}" +:+ String NL ("...." +:+ ""))) = Some "WAVE{...}" /\
  wave_extract ("...." +:+ String NL "WAVE{...}") = None.
Proof.
  destruct (C2_diagram_extraction quiet_host) as [Htwo Hfew]. split.
  - apply (Htwo ("[wavedrom]" +:+ String NL "") "WAVE{...}" "");
      [right; exists "[wavedrom]"; reflexivity|reflexivity|reflexivity].
  - apply (Hfew ("...." +:+ String NL "WAVE{...}")). vm_compute. lia.
Defined.

(** C6 on a sample run. *)
Lemma C6_witness :
  let r := _workdir_setup quiet_host (new_builder quiet_host)
             (fresh_world quiet_host ∅ ∅) in
  let b1 := value_or (new_builder quiet_host) (fst r) in
  _workdir_setup quiet_host b1 (snd r) = (Ok b1, snd r).
Proof.
  apply (C6_workdir_setup_is_idempotent quiet_host (new_builder quiet_host)
           (fresh_world quiet_host ∅ ∅)).
  vm_compute. reflexivity.
Defined.


(** C4 on a sample run. *)
Lemma C4_witness :
  exit_status
    (fst (main epub_failing_host (cli "draft" "all" "1.4.0")
            (fresh_world epub_failing_host ubuntu_files usual_environ))) = 1.
Proof.
  set (h := epub_failing_host). set (a := cli "draft" "all" "1.4.0").
  set (w := fresh_world h ubuntu_files usual_environ).
  set (i := DocumentBuilder_init h (configure h a) (arg_verbose a) w).
  set (builder := value_or (new_builder h) (fst i)).
  set (p := prepare_env h builder (configure_deps h a) (snd i)).
  set (builder1 := fst (value_or (new_builder h, false) (fst p))).
  set (b := build_requested h builder1 (snd p)).
  destruct (C4_failed_build_ends_run_without_finalization h a w
              builder (snd i) builder1 (snd p) (raised_or IndexError (fst b)) (snd b))
    as (w3 & _ & _ & _ & E);
    [reflexivity|reflexivity
    |vm_compute; reflexivity|vm_compute; reflexivity|vm_compute; reflexivity
    |exact E].
Defined.

(** C4 as stated fails: the print format is built, the e-book format
    fails, and the print artifact is still in its workspace, not in the
    output directory. *)
Lemma C4_counterexample :
  let rw := main epub_failing_host (cli "draft" "all" "1.4.0")
              (fresh_world epub_failing_host ubuntu_files usual_environ) in
  existsb (fun line => String.eqb (snd line) "Successfully built PDF output")
    (printed (snd rw)) = true /\
  fst rw = Raise (SystemExit 1) /\
  fs (snd rw) !! "/repo/build/openrisc-manual.pdf.workdir/build/openrisc-manual.pdf"
    = Some (File "rendered") /\
  fs (snd rw) !! "/repo/build/openrisc-manual.pdf" = None.
Proof. vm_compute. repeat split. Qed.

(** C8 on sample runs: a failing [dpkg], a [dpkg] that reports the
    package as installed, and one whose output is no UTF-8. *)
Lemma C8_witness :
  fst (_check_package_installed failing_host "bison"
         (fresh_world failing_host ∅ ∅)) = Ok false /\
  fst (_check_package_installed dpkg_host "bison"
         (fresh_world dpkg_host ∅ ∅)) = Ok true /\
  fst (_check_package_installed latin1_host "bison"
         (fresh_world latin1_host ∅ ∅)) = Raise UnicodeDecodeError.
Proof.
  destruct (C8_query_is_false_on_nonzero_exit failing_host "bison"
              (fresh_world failing_host ∅ ∅)) as (H1 & _).
  destruct (C8_query_is_false_on_nonzero_exit dpkg_host "bison"
              (fresh_world dpkg_host ∅ ∅)) as (_ & H2 & _).
  destruct (C8_query_is_false_on_nonzero_exit latin1_host "bison"
              (fresh_world latin1_host ∅ ∅)) as (_ & _ & H3 & _).
  rewrite (H1 _ eq_refl), (H2 _ eq_refl eq_refl), (H3 _ eq_refl eq_refl).
  repeat split.
Defined.

(** C8 as stated fails: where [dpkg] cannot be started the query
    raises. *)
Lemma C8_counterexample :
  ~ (forall (h : host) (package : string) (w : world),
       exists b w', _check_package_installed h package w = (Ok b, w')).
Proof.
  intros H.
  destruct (H bare_host "bison" (fresh_world bare_host ∅ ∅)) as (b & w' & E).
  vm_compute in E. discriminate E.
Qed.

(** C10 on a sample run. *)
Lemma C10_witness :
  exists w3,
    update_wave wave_host (new_builder wave_host) (DEPENDENCIES wave_host)
      (fresh_world wave_host wave_files usual_environ) =
      (Raise (SystemExit 1), w3) /\
    (exists X,
       fs w3 !! "/repo/assets/images/wavedrom/svg/a.svg" =
         Some (File (wavedrom wave_host X))) /\
    fs w3 !! "/repo/assets/images/wavedrom/svg/b.svg" = None.
Proof.
  set (h := wave_host). set (self := new_builder h).
  set (w := fresh_world h wave_files usual_environ).
  set (svg_path := "/repo/assets/images/wavedrom/svg").
  set (a_edn := "/repo/assets/images/wavedrom/edn/a.edn").
  set (b_edn := "/repo/assets/images/wavedrom/edn/b.edn").
  set (n := _setup_node_environment h self (dep_node (DEPENDENCIES h))
              (snd (debug (verbose self) "Updating wave..." w))).
  set (self1 := fst (value_or (self, false) (fst n))).
  set (d := update_wave_files h self1 svg_path [a_edn]
              (snd (debug (verbose self1) "Extracting content from 2 files" (snd n)))).
  set (f := update_wave_file h self1 svg_path b_edn (snd d)).
  destruct (C10_regeneration_is_not_atomic h self (DEPENDENCIES h) w
              self1 (snd n) [a_edn] b_edn [] (snd d)
              (raised_or IndexError (fst f)) (snd f))
    as (Hrun & He & Himg & Hkeep);
    [vm_compute; reflexivity|reflexivity
    |vm_compute; reflexivity|vm_compute; reflexivity|].
  exists (snd f). split; [rewrite Hrun, He; reflexivity|]. split.
  - apply (Himg a_edn). constructor.
  - vm_compute. reflexivity.
Defined.

(** A whole run for the selector [all] on a host where every command
    succeeds: the four renderers run in the order pdf, epub, html, json,
    the tag index last, and every artifact ends in the output
    directory. *)
Example main_all_on_quiet_host :
  let rw := main quiet_host (cli "draft" "all" "1.4.0")
              (fresh_world quiet_host ubuntu_files usual_environ) in
  fst rw = Ok tt /\
  map (fun line => take 5 (str_split " " line)) (shell_lines (snd rw)) =
    [["bundle"; "exec"; "asciidoctor-pdf"; "--trace"; "-a"];
     ["bundle"; "exec"; "asciidoctor-epub3"; "--trace"; "-a"];
     ["bundle"; "exec"; "asciidoctor"; "--trace"; "-a"];
     ["bundle"; "exec"; "asciidoctor"; "--backend"; "tags"]] /\
  map (fun doc => fs (snd rw) !! ("/repo/build/" +:+ doc))
    ["openrisc-manual.pdf"; "openrisc-manual.epub"; "openrisc-manual.html";
     "openrisc-manual-norm-tags.json"] =
    [Some (File "rendered"); Some (File "rendered"); Some (File "rendered");
     Some (File "rendered")].
Proof. vm_compute. repeat split. Qed.

(** The sample of the specification: one diagram between its markers
    gives one image and leaves no temporary file. *)
Example update_wave_file_on_sample :
  let w := fresh_world quiet_host
             (list_to_map
                [("/repo/a.edn",
                  File ("...." +:+ String NL ("WAVE{...}" +:+ String NL "....")))])
             usual_environ in
  let rw := update_wave_file quiet_host (new_builder quiet_host) "/repo/svg"
              "/repo/a.edn" w in
  fst rw = Ok tt /\
  fs (snd rw) !! "/repo/svg/a.svg" = Some (File "<svg>WAVE{...}</svg>") /\
  size (fs (snd rw)) = 2.
Proof. vm_compute. repeat split. Qed.

(** ** The further properties on sample runs *)

(** X1 on a sample run: the selector [tags]. *)
Lemma X1_witness :
  let config := configure quiet_host (cli "draft" "tags" "1.4.0") in
  let w := fresh_world quiet_host ∅ ∅ in
  DocumentBuilder_init quiet_host config false w = (Raise (KeyError "tags"), w) /\
  (KeyError "tags" = KeyError (cfg_build_target config) \/
   KeyError "tags" = KeyError (cfg_default_type config) \/
   (cfg_build_target config = "all" /\
    exists k, k ∈ ["json"; "pdf"; "html"; "epub"] /\ KeyError "tags" = KeyError k)).
Proof.
  cbv zeta.
  assert (H : DocumentBuilder_init quiet_host
                (configure quiet_host (cli "draft" "tags" "1.4.0")) false
                (fresh_world quiet_host ∅ ∅) =
              (Raise (KeyError "tags"), fresh_world quiet_host ∅ ∅))
    by (vm_compute; reflexivity).
  split; [exact H|].
  apply (X1_init_failure_is_a_KeyError_and_changes_nothing quiet_host _ _ _ _ _ H).
Defined.

(** X2 on two samples: a second region further down is not looked at,
    and a marker line directly after the opening one is part of the
    text. *)
Lemma X2_witness :
  wave_extract
    (("[wavedrom]" +:+ String NL "") +:+ "...." +:+
     String NL ("FIRST" +:+ String NL ("...." +:+
       String NL ("...." +:+ String NL ("SECOND" +:+ String NL "....")))))
  = Some "FIRST" /\
  wave_extract
    ("" +:+ "...." +:+
     String NL (("...." +:+ String NL "A") +:+ String NL ("...." +:+ "")))
  = Some ("...." +:+ String NL "A").
Proof.
  split.
  - apply (X2_extraction_takes_the_first_region
             ("[wavedrom]" +:+ String NL "") "FIRST"
             (String NL ("...." +:+ String NL ("SECOND" +:+ String NL "...."))));
      [right; exists "[wavedrom]"; reflexivity|reflexivity|reflexivity|reflexivity].
  - apply (X2_extraction_takes_the_first_region
             "" ("...." +:+ String NL "A") "");
      [left; reflexivity|reflexivity|reflexivity|reflexivity].
Defined.

(** X3 on a sample. *)
Lemma X3_witness :
  2 <= marker_lines ("...." +:+ String NL ("WAVE" +:+ String NL "....")) /\
  exists before after,
    line_end before /\ at_eol after = true /\
    "...." +:+ String NL ("WAVE" +:+ String NL "....") =
      before +:+ "...." +:+ String NL ("WAVE" +:+ String NL ("...." +:+ after)).
Proof.
  apply (X3_extracted_text_is_enclosed_by_marker_lines
           ("...." +:+ String NL ("WAVE" +:+ String NL "....")) "WAVE").
  reflexivity.
Defined.

(** X4 on a sample run: the file system afterwards is the one before
    plus the image. *)
Lemma X4_witness :
  let w := fresh_world quiet_host
             (list_to_map
                [("/repo/a.edn",
                  File ("...." +:+ String NL ("WAVE{...}" +:+ String NL "....")))])
             usual_environ in
  let rw := update_wave_file quiet_host (new_builder quiet_host) "/repo/svg"
              "/repo/a.edn" w in
  exists content X,
    read_file "/repo/a.edn" w = (Ok content, w) /\
    wave_extract content = Some X /\
    fs (snd rw) =
      <[svg_file_of "/repo/svg" "/repo/a.edn" := File (wavedrom quiet_host X)]> (fs w).
Proof.
  cbv zeta.
  apply (X4_successful_round_writes_only_the_image quiet_host
           (new_builder quiet_host) "/repo/svg" "/repo/a.edn").
  vm_compute. reflexivity.
Defined.

(** X5 on a sample run: no [wavedrom-cli] on the machine. *)
Lemma X5_witness :
  let w := fresh_world bare_host
             (list_to_map
                [("/repo/a.edn",
                  File ("...." +:+ String NL ("WAVE{...}" +:+ String NL "....")))])
             usual_environ in
  exists w',
    update_wave_file bare_host (new_builder bare_host) "/repo/svg" "/repo/a.edn" w
      = (Raise (SystemExit 1), w') /\
    fs w' = <["/tmp/tmp0000.edn" := File "WAVE{...}"]> (fs w) /\
    fs w !! "/tmp/tmp0000.edn" = None /\
    fs w' !! svg_file_of "/repo/svg" "/repo/a.edn" =
      fs w !! svg_file_of "/repo/svg" "/repo/a.edn".
Proof.
  cbv zeta.
  apply (X5_failed_renderer_leaves_the_temporary_file bare_host
           (new_builder bare_host) "/repo/svg" "/repo/a.edn" _
           ("...." +:+ String NL ("WAVE{...}" +:+ String NL "....")));
    [vm_compute; reflexivity|reflexivity|vm_compute; reflexivity
    |intros out; discriminate].
Defined.



(** X8 on a sample run: [dpkg] knows neither package. *)
Lemma X8_witness :
  let w := fresh_world quiet_host ∅ ∅ in
  let r := check_packages quiet_host ["bison"; "flex"] w in
  sublist (value_or [] (fst r)) ["bison"; "flex"] /\
  fs (snd r) = fs w /\ printed (snd r) = printed w /\
  exists evs,
    procs (snd r) = procs w ++ evs /\
    map ev_cmd evs = [Exec ["dpkg"; "-s"; "bison"]; Exec ["dpkg"; "-s"; "flex"]].
Proof.
  cbv zeta.
  apply (X8_every_package_is_queried_once_in_order quiet_host ["bison"; "flex"]).
  vm_compute. reflexivity.
Defined.

(** X9 on a sample run: [apt-get] fails on a quiet run, and the white
    space around its complaint is not shown. *)
Lemma X9_witness :
  let w := fresh_world framed_host ∅ ∅ in
  exists w',
    _install_packages framed_host (new_builder framed_host) ["bison"] w =
      (Raise (SystemExit 1), w') /\
    printed w' =
      [(INFO, "Installing packages: bison");
       (ERROR, "Failed to install packages: E: boom")] /\
    fs w' = fs w.
Proof.
  cbv zeta.
  destruct (X9_failed_install_ends_the_run framed_host
              (new_builder framed_host) ["bison"] (fresh_world framed_host ∅ ∅)
              (bytes [31; 32] +:+ "E: boom" +:+ bytes [194; 160; 10]) eq_refl)
    as (w' & Hrun & Hprinted & Hfs).
  exists w'. split; [exact Hrun|]. split; [|exact Hfs].
  rewrite Hprinted. vm_compute. reflexivity.
Defined.

(** X10 on a sample run. *)
Lemma X10_witness :
  let w := fresh_world quiet_host ∅ usual_environ in
  let r := _setup_ruby_environment quiet_host (new_builder quiet_host)
             (dep_ruby (DEPENDENCIES quiet_host)) (REQUIRES) w in
  let self' := fst (value_or (new_builder quiet_host, false) (fst r)) in
  snd (value_or (new_builder quiet_host, false) (fst r)) = true /\
  env self' !! "PATH" = Some "/repo/vendor/bundle/ruby/3.3.0/bin:/usr/bin" /\
  ruby_require self' = Some REQUIRES.
Proof.
  cbv zeta.
  set (w := fresh_world quiet_host ∅ usual_environ).
  set (r := _setup_ruby_environment quiet_host (new_builder quiet_host)
              (dep_ruby (DEPENDENCIES quiet_host)) REQUIRES w).
  set (res := value_or (new_builder quiet_host, false) (fst r)).
  destruct (X10_ruby_setup_result quiet_host (new_builder quiet_host)
              (dep_ruby (DEPENDENCIES quiet_host)) REQUIRES w
              (fst res) (snd res) (snd r))
    as (Hok & ip & old & evs & Hip & Hold & Henv & _ & Hreq & _);
    [vm_compute; reflexivity|].
  split; [exact Hok|]. split; [|exact (Hreq eq_refl)].
  vm_compute in Hip. injection Hip as <-.
  vm_compute in Hold. injection Hold as <-.
  rewrite Henv. vm_compute. reflexivity.
Defined.

(** X11 on a sample run: a machine without Bundler. *)
Lemma X11_witness :
  let w := fresh_world bare_host ∅ usual_environ in
  exists w',
    _setup_ruby_environment bare_host (new_builder bare_host)
      (dep_ruby (DEPENDENCIES bare_host)) REQUIRES w = (Raise (SystemExit 1), w') /\
    last (printed w') =
      Some (ERROR, "Bundle command not found. Please install Bundler first.") /\
    procs w' = procs w ++ [Spawned (cwd w) (Exec ["bundle"; "--version"]) None] /\
    fs w' = fs w.
Proof.
  cbv zeta.
  apply (X11_missing_bundler_ends_the_run bare_host). reflexivity.
Defined.

(** X12 on a sample run: a machine that has [node]. *)
Lemma X12_witness :
  let w := fresh_world quiet_host ubuntu_files usual_environ in
  let r := _setup_node_environment quiet_host (new_builder quiet_host)
             (dep_node (DEPENDENCIES quiet_host)) w in
  let self' := fst (value_or (new_builder quiet_host, false) (fst r)) in
  snd (value_or (new_builder quiet_host, false) (fst r)) = true /\
  env self' !! "PATH" = Some "/repo/node_modules/.bin:/usr/bin" /\
  map ev_cmd (procs (snd r)) =
    [Exec ["node"; "--version"]; Exec ["npm"; "install"]].
Proof.
  cbv zeta.
  set (w := fresh_world quiet_host ubuntu_files usual_environ).
  set (r := _setup_node_environment quiet_host (new_builder quiet_host)
              (dep_node (DEPENDENCIES quiet_host)) w).
  set (res := value_or (new_builder quiet_host, false) (fst r)).
  destruct (X12_node_setup_result quiet_host (new_builder quiet_host)
              (dep_node (DEPENDENCIES quiet_host)) w (fst res) (snd res) (snd r))
    as (Hok & _ & Hself & _);
    [vm_compute; reflexivity|].
  split; [exact Hok|]. split; [rewrite Hself|]; vm_compute; reflexivity.
Defined.


(** X14 on a sample run: a machine without [node]. *)
Lemma X14_witness :
  let w := fresh_world bare_host ubuntu_files usual_environ in
  let url := "curl -o- https://fnm.vercel.app/install | bash" in
  exists w' detail,
    _setup_node_environment bare_host (new_builder bare_host)
      (dep_node (DEPENDENCIES bare_host)) w = (Raise (SystemExit 1), w') /\
    printed w' =
      printed w ++
      [(ERROR, "Unexpected error during Node environment setup: " +:+ detail)] /\
    procs w' =
      procs w ++ [Spawned (cwd w) (Exec ["node"; "--version"]) None;
                  Spawned (cwd w) (Exec [url]) None].
Proof.
  cbv zeta.
  apply (X14_installer_line_is_run_as_one_program bare_host
           (new_builder bare_host) (dep_node (DEPENDENCIES bare_host))
           (fresh_world bare_host ubuntu_files usual_environ)
           "curl -o- https://fnm.vercel.app/install | bash");
    [intros out; discriminate|reflexivity|reflexivity].
Defined.

(** X15 on a sample run: the preparation on a machine where every
    command succeeds. *)
Lemma X15_witness :
  let w := fresh_world quiet_host ubuntu_files usual_environ in
  let r := prepare_env quiet_host (new_builder quiet_host)
             (DEPENDENCIES quiet_host) w in
  let self' := fst (value_or (new_builder quiet_host, false) (fst r)) in
  snd (value_or (new_builder quiet_host, false) (fst r)) = true /\
  ruby_require self' = Some REQUIRES /\
  env self' !! "PATH" =
    Some "/repo/node_modules/.bin:/repo/vendor/bundle/ruby/3.3.0/bin:/usr/bin".
Proof.
  cbv zeta.
  set (w := fresh_world quiet_host ubuntu_files usual_environ).
  set (r := prepare_env quiet_host (new_builder quiet_host)
              (DEPENDENCIES quiet_host) w).
  set (res := value_or (new_builder quiet_host, false) (fst r)).
  destruct (X15_preparation_result quiet_host (new_builder quiet_host)
              (DEPENDENCIES quiet_host) w (fst res) (snd res) (snd r))
    as (Hok & Hreq & _ & _ & rip & old & Hrip & Hold & _ & Hpath & _);
    [vm_compute; reflexivity|].
  split; [exact Hok|]. split; [exact Hreq|].
  vm_compute in Hrip. injection Hrip as <-.
  vm_compute in Hold. injection Hold as <-.
  rewrite Hpath. vm_compute. reflexivity.
Defined.

(** X16 on a sample run: on a machine without [dpkg] the run ends with
    code 1 after an error line. *)
Lemma X16_witness :
  let rw := main bare_host (cli "draft" "all" "1.4.0")
              (fresh_world bare_host ubuntu_files usual_environ) in
  fst rw = Raise (SystemExit 1) /\
  exists told msg, printed (snd rw) = told ++ [(ERROR, msg)].
Proof.
  cbv zeta.
  set (rw := main bare_host (cli "draft" "all" "1.4.0")
               (fresh_world bare_host ubuntu_files usual_environ)).
  split; [vm_compute; reflexivity|].
  apply (X16_every_exit_follows_an_error_line bare_host
           (cli "draft" "all" "1.4.0")
           (fresh_world bare_host ubuntu_files usual_environ) 1 (snd rw)).
  vm_compute. reflexivity.
Defined.


(** X18 on a sample run. *)
Lemma X18_witness :
  let i := DocumentBuilder_init quiet_host
             (configure quiet_host (cli "draft" "pdf" "1.4.0")) false
             (fresh_world quiet_host ∅ usual_environ) in
  exists e,
    build_for_all quiet_host (value_or (new_builder quiet_host) (fst i)) "pdf" (snd i)
      = (Raise e, snd i) /\
    (e = AttributeError \/ e = KeyError "pdf").
Proof.
  cbv zeta.
  apply (X18_no_build_before_the_preparation quiet_host
           (configure quiet_host (cli "draft" "pdf" "1.4.0")) false
           (fresh_world quiet_host ∅ usual_environ)).
  vm_compute. reflexivity.
Defined.

(** X19 on a sample run: the tag index of a run for all formats. *)
Lemma X19_witness :
  let a := cli "draft" "all" "1.4.0" in
  let i := DocumentBuilder_init quiet_host (configure quiet_host a) false
             (fresh_world quiet_host ∅ usual_environ) in
  let s := _workdir_setup quiet_host (value_or (new_builder quiet_host) (fst i))
             (snd i) in
  exists doc,
    cfg_docs (CONFIGS quiet_host) !! "json" = Some doc /\
    work_dir (value_or (new_builder quiet_host) (fst s)) !! "json" =
      Some (path_join (ROOT_PATH quiet_host +:+ "/build") (doc +:+ ".workdir")) /\
    is_Some (fs (snd s) !!
               path_join (ROOT_PATH quiet_host +:+ "/build") (doc +:+ ".workdir")).
Proof.
  cbv zeta.
  apply (X19_workspaces_are_filed_under_the_format quiet_host
           (cli "draft" "all" "1.4.0") (fresh_world quiet_host ∅ usual_environ)
           (value_or (new_builder quiet_host)
              (fst (DocumentBuilder_init quiet_host
                      (configure quiet_host (cli "draft" "all" "1.4.0")) false
                      (fresh_world quiet_host ∅ usual_environ))))
           (snd (DocumentBuilder_init quiet_host
                   (configure quiet_host (cli "draft" "all" "1.4.0")) false
                   (fresh_world quiet_host ∅ usual_environ))));
    [vm_compute; reflexivity|vm_compute; reflexivity
    |right; split; [reflexivity|repeat constructor]].
Defined.

(** X20 on a sample run: [--clean] together with [--update-wave]. *)
Lemma X20_witness :
  let a := {| release_type := "draft"; incremental := false; clean := true;
              arg_verbose := false; arg_version := "1.4.0"; node_version := "20";
              arg_update_wave := true; target := "all" |} in
  let w := fresh_world quiet_host
             (list_to_map [("/repo/build", Dir);
                           ("/repo/build/openrisc-manual.pdf", File "old");
                           ("/repo/src", Dir)]) ∅ in
  exists r w',
    main quiet_host a w = (r, w') /\ procs w' = procs w /\
    r = Ok tt /\
    fs w' !! "/repo/build" = None /\
    fs w' !! "/repo/build/openrisc-manual.pdf" = None /\
    fs w' !! "/repo/src" = Some Dir.
Proof.
  cbv zeta.
  set (a := {| release_type := "draft"; incremental := false; clean := true;
               arg_verbose := false; arg_version := "1.4.0"; node_version := "20";
               arg_update_wave := true; target := "all" |}).
  set (w := fresh_world quiet_host
              (list_to_map [("/repo/build", Dir);
                            ("/repo/build/openrisc-manual.pdf", File "old");
                            ("/repo/src", Dir)]) ∅).
  destruct (X20_clean_removes_the_build_directory_only quiet_host a w)
    as (r & w' & Hrun & Hprocs & Hfs);
    [reflexivity|repeat constructor|repeat constructor|].
  change (fs w !! (ROOT_PATH quiet_host +:+ "/build")) with (Some Dir) in Hfs.
  cbn [target a String.eqb Ascii.eqb Bool.eqb] in Hfs.
  destruct Hfs as (Hr & Hfs).
  exists r, w'. split; [exact Hrun|]. split; [exact Hprocs|]. split; [exact Hr|].
  rewrite !Hfs. vm_compute. repeat split.
Defined.

(** X21 on a sample run: the first workspace of a fresh checkout. *)
Lemma X21_witness :
  let w := fresh_world quiet_host (list_to_map [("/repo/src", Dir)]) ∅ in
  let r := _workdir_setup_doc quiet_host "openrisc-manual.pdf"
             (new_builder quiet_host) w in
  fs (snd r) !! "/repo/build/openrisc-manual.pdf.workdir" = Some Dir /\
  fs (snd r) !! "/repo/build/openrisc-manual.pdf.workdir/src" =
    Some (Symlink "/repo/src") /\
  fs (snd r) !! "/repo/src" = Some Dir.
Proof.
  cbv zeta.
  set (w := fresh_world quiet_host (list_to_map [("/repo/src", Dir)]) ∅).
  set (r := _workdir_setup_doc quiet_host "openrisc-manual.pdf"
              (new_builder quiet_host) w).
  destruct (X21_new_workspace_links_into_the_checkout quiet_host
              "openrisc-manual.pdf" (new_builder quiet_host) w
              (value_or (new_builder quiet_host) (fst r)) (snd r))
    as (Hdir & Hsrc & _ & _ & Hkeep & _);
    [reflexivity|vm_compute; reflexivity|].
  split; [exact Hdir|]. split; [exact Hsrc|].
  apply Hkeep. reflexivity.
Defined.

(** X22 on a sample run: the print format after its build. *)
Lemma X22_witness :
  let self := ready_builder quiet_host in
  let w := snd (build_for_all quiet_host self "pdf"
                  (fresh_world quiet_host ready_files ∅)) in
  let w' := snd (clean_work_dir_doc self "openrisc-manual.pdf" w) in
  fs w' !! "/repo/build/openrisc-manual.pdf" = Some (File "rendered") /\
  fs w' !! "/repo/build/openrisc-manual.pdf.workdir" = None /\
  fs w' !! "/repo/build/openrisc-manual.pdf.workdir/build/openrisc-manual.pdf" = None /\
  fs w' !! "/repo/build/openrisc-manual.epub.workdir" = Some Dir.
Proof.
  cbv zeta.
  set (self := ready_builder quiet_host).
  set (w := snd (build_for_all quiet_host self "pdf"
                   (fresh_world quiet_host ready_files ∅))).
  set (w' := snd (clean_work_dir_doc self "openrisc-manual.pdf" w)).
  destruct (X22_finalization_moves_the_artifact self
              "openrisc-manual.pdf" "pdf" w w')
    as (content & Hread & Hdst & Hgone & Hkeep & _);
    [reflexivity|vm_compute; reflexivity|left; vm_compute; reflexivity
    |vm_compute; reflexivity|].
  vm_compute in Hread. injection Hread as <-.
  split; [exact Hdst|].
  split; [apply Hgone; vm_compute; reflexivity|].
  split; [apply Hgone; vm_compute; reflexivity|].
  rewrite Hkeep; [vm_compute; reflexivity|vm_compute; reflexivity|discriminate].
Defined.

(** X23 on a sample run: the same finalization, a second time. *)
Lemma X23_witness :
  let self := ready_builder quiet_host in
  let w := snd (build_for_all quiet_host self "pdf"
                  (fresh_world quiet_host ready_files ∅)) in
  let w' := snd (clean_work_dir_doc self "openrisc-manual.pdf" w) in
  clean_work_dir_doc self "openrisc-manual.pdf" w' =
    (Raise (FileNotFoundError
              (path_join (path_join (work_path_of self "openrisc-manual.pdf") "build")
                 "openrisc-manual.pdf")), w').
Proof.
  cbv zeta.
  apply (X23_finalization_cannot_be_repeated
           (ready_builder quiet_host) "openrisc-manual.pdf" "pdf"
           (snd (build_for_all quiet_host (ready_builder quiet_host) "pdf"
                   (fresh_world quiet_host ready_files ∅))));
    [reflexivity|vm_compute; reflexivity|reflexivity|vm_compute; reflexivity].
Defined.

(** X24 on a sample run: one diagram on a machine that has [node]. *)
Lemma X24_witness :
  let a := {| release_type := "draft"; incremental := false; clean := false;
              arg_verbose := false; arg_version := "1.4.0"; node_version := "20";
              arg_update_wave := true; target := "all" |} in
  let rw := main wave_host a (fresh_world wave_host wave_files usual_environ) in
  exists evs,
    procs (snd rw) = [] ++ evs /\
    Forall (fun ev =>
              program (ev_cmd ev) ∈
                ["node"; "curl -o- https://fnm.vercel.app/install | bash";
                 "fnm"; "npm"; "wavedrom-cli"]) evs.
Proof.
  cbv zeta.
  set (a := {| release_type := "draft"; incremental := false; clean := false;
               arg_verbose := false; arg_version := "1.4.0"; node_version := "20";
               arg_update_wave := true; target := "all" |}).
  set (rw := main wave_host a (fresh_world wave_host wave_files usual_environ)).
  apply (X24_update_wave_runs_the_diagram_tools_only wave_host a
           (fresh_world wave_host wave_files usual_environ) (fst rw) (snd rw));
    [reflexivity|reflexivity|apply surjective_pairing].
Defined.

(** X25 on a sample run: two well-formed diagram sources. *)
Lemma X25_witness :
  let files : gmap string node := list_to_map
    [("/repo/package.json", File "{}");
     ("/repo/assets/images/wavedrom/edn/a.edn",
      File ("...." +:+ String NL ("{reg: [1]}" +:+ String NL "....")));
     ("/repo/assets/images/wavedrom/edn/b.edn",
      File ("...." +:+ String NL ("{reg: [2]}" +:+ String NL "....")))] in
  let r := update_wave wave_host (new_builder wave_host) (DEPENDENCIES wave_host)
             (fresh_world wave_host files usual_environ) in
  snd (value_or (new_builder wave_host, false) (fst r)) = true /\
  exists X,
    fs (snd r) !! "/repo/assets/images/wavedrom/svg/b.svg" =
      Some (File (wavedrom wave_host X)).
Proof.
  cbv zeta.
  set (files := list_to_map
    [("/repo/package.json", File "{}");
     ("/repo/assets/images/wavedrom/edn/a.edn",
      File ("...." +:+ String NL ("{reg: [1]}" +:+ String NL "....")));
     ("/repo/assets/images/wavedrom/edn/b.edn",
      File ("...." +:+ String NL ("{reg: [2]}" +:+ String NL "....")))]
    : gmap string node).
  set (w := fresh_world wave_host files usual_environ).
  set (r := update_wave wave_host (new_builder wave_host) (DEPENDENCIES wave_host) w).
  set (res := value_or (new_builder wave_host, false) (fst r)).
  destruct (X25_update_wave_result wave_host (new_builder wave_host)
              (DEPENDENCIES wave_host) w (fst res) (snd res) (snd r))
    as (Hok & Himg);
    [vm_compute; reflexivity|].
  split; [exact Hok|].
  apply (Himg "/repo/assets/images/wavedrom/edn/b.edn").
  repeat constructor.
Defined.

(** X26 on a sample run: the print format, built and finalized. *)
Lemma X26_witness :
  let self := ready_builder quiet_host in
  let w := fresh_world quiet_host ready_files ∅ in
  let w1 := snd (build_for_all quiet_host self "pdf" w) in
  let w2 := snd (clean_work_dir_doc self "openrisc-manual.pdf" w1) in
  exists cmd,
    build_command quiet_host self "pdf" w = (Ok cmd, w) /\
    fs w2 !! path_join (build_dir self) "openrisc-manual.pdf" =
      Some (File (asciidoctor quiet_host cmd)) /\
    (forall p,
       is_under (work_path_of self "openrisc-manual.pdf") p = true ->
       fs w2 !! p = None).
Proof.
  cbv zeta.
  apply (X26_finalization_promotes_what_the_renderer_wrote quiet_host
           (ready_builder quiet_host) "pdf" "openrisc-manual.pdf"
           (fresh_world quiet_host ready_files ∅)
           (snd (build_for_all quiet_host (ready_builder quiet_host) "pdf"
                   (fresh_world quiet_host ready_files ∅))));
    [reflexivity|vm_compute; reflexivity|reflexivity|left; vm_compute; reflexivity
    |vm_compute; reflexivity|vm_compute; reflexivity].
Defined.

(** X27 on a sample run: the print format on a prepared machine. *)
Lemma X27_witness :
  let a := cli "draft" "pdf" "1.4.0" in
  let w := fresh_world quiet_host ubuntu_files usual_environ in
  let w' := snd (main quiet_host a w) in
  exists base tc,
    cfg_build_cmd (CONFIGS quiet_host) !! "pdf" = Some base /\
    cfg_type_config (CONFIGS quiet_host) !! "draft" = Some tc /\
    fs w' !! "/repo/build/openrisc-manual.pdf" =
      Some (File (asciidoctor quiet_host
                    (str_join " "
                       (base ++ OPTIONS w ++
                        appended_flags quiet_host (configure quiet_host a) tc ++
                        REQUIRES ++ ["src/openrisc-manual.adoc"])))) /\
    (forall p,
       is_under "/repo/build/openrisc-manual.pdf.workdir" p = true ->
       fs w' !! p = None).
Proof.
  cbv zeta.
  apply (X27_a_run_for_one_format_delivers_the_document quiet_host
           (cli "draft" "pdf" "1.4.0")
           (fresh_world quiet_host ubuntu_files usual_environ)
           (snd (main quiet_host (cli "draft" "pdf" "1.4.0")
                   (fresh_world quiet_host ubuntu_files usual_environ))));
    [reflexivity|reflexivity|repeat constructor|reflexivity
    |left; vm_compute; reflexivity|vm_compute; reflexivity].
Defined.
